(** * RAG knowledge-base proof of concept: the provisioning script and the chat tool

    A shallow embedding of [scripts/setup-knowledge-base.ts] (bucket, vector
    bucket and index creation, the document uploader, the activation poller)
    and of [app/api/chat/route.ts] (the retrieval tool), followed by the
    properties of these functions.

    The cloud services are external: every call to one is modelled by an
    oracle that gives the call's outcome, and every function returns the
    trace of the calls and terminal messages it made together with the way
    it completed. *)

From Stdlib Require Import PrimFloat Strings.Byte.
From stdpp Require Import gmap strings list pretty.

Local Open Scope string_scope.
Local Open Scope list_scope.

(** ** JavaScript values *)

(** An exception object, as far as the code looks at it: [error.name] and
    [error.message]. *)
Record Error := mkError { name : string; message : string }.

(** [new Error(msg)] *)
Definition new_Error (msg : string) : Error := mkError "Error" msg.

(** How a piece of code completes: normally with a value, abruptly with a
    thrown exception, or (for the loops of the model only) not within the
    number of iterations the model was given. *)
Inductive Completion (A : Type) : Type :=
| Normal (a : A)
| Thrown (e : Error)
| Unfinished.
Arguments Normal {A} a.
Arguments Thrown {A} e.
Arguments Unfinished {A}.

(** Truthiness of a [string | undefined]: [undefined] and the empty string
    are falsy. *)
Definition truthy (s : option string) : bool :=
  match s with
  | Some s => negb (bool_decide (s = ""))
  | None => false
  end.

(** [s || d] on a [string | undefined]. *)
Definition or_else (s : option string) (d : string) : string :=
  if truthy s then default d s else d.

(** The line feed of the [\n] escapes. *)
Definition LF : string := String (Ascii.ascii_of_nat 10) "".

(** [Array.prototype.join] on an array of strings. *)
Fixpoint join (sep : string) (parts : list string) : string :=
  match parts with
  | [] => ""
  | [s] => s
  | s :: rest => s +:+ sep +:+ join sep rest
  end.

(** A [number[]]. *)
Definition Embedding : Type := list float.

(** ** Requests and observable events *)

(** The commands the two programs send, with the fields the code sets. *)
Inductive Command : Type :=
| CreateBucketCommand (Bucket : string)
| ListObjectsV2Command (Bucket : string) (ContinuationToken : option string)
| PutObjectCommand (Bucket Key : string) (Body : list Byte.byte)
| CreateVectorBucketCommand (vectorBucketName : string)
| CreateIndexCommand (vectorBucketArn indexName : string) (dimension : Z)
    (distanceMetric dataType : string) (nonFilterableMetadataKeys : list string)
| GetKnowledgeBaseCommand (knowledgeBaseId : string)
| InvokeModelCommand (modelId inputText : string)
| QueryCommand (indexArn : string) (queryVector : Embedding) (topK : Z)
    (returnMetadata returnDistance : bool).

Inductive Event : Type :=
| SpinnerStart (msg : string)
| SpinnerMessage (msg : string)
| SpinnerStop (msg : string) (code : Z)
| LogInfo (msg : string)
| ConsoleWarn (msg : string)
| ConsoleError (msg : string) (error : Error)
| Send (cmd : Command)
| WaitUntilBucketExists (maxWaitTime : Z) (Bucket : string)
| SetTimeout (ms : Z)
| Mkdir (dir : string)
| Walk (dir : string)
| ReadFile (file : string).

(** ** Effects: a trace of events and a completion *)

Definition Eff (A : Type) : Type := list Event * Completion A.

#[global] Instance Eff_ret : MRet Eff := λ A a, ([], Normal a).

#[global] Instance Eff_bind : MBind Eff := λ A B k m,
  match m with
  | (t, Normal a) => let '(t', r) := k a in (t ++ t', r)
  | (t, Thrown e) => (t, Thrown e)
  | (t, Unfinished) => (t, Unfinished)
  end.

Definition throw {A} (e : Error) : Eff A := ([], Thrown e).
Definition unfinished {A} : Eff A := ([], Unfinished).

(** [try { body } catch (error) { handler }] *)
Definition try_catch {A} (body : Eff A) (handler : Error → Eff A) : Eff A :=
  match body with
  | (t, Thrown e) => let '(t', r) := handler e in (t ++ t', r)
  | _ => body
  end.

(** An event with no result. *)
Definition emit (e : Event) : Eff unit := ([e], Normal tt).

(** An awaited call: the event, then the outcome the callee gives. *)
Definition await {A} (e : Event) (outcome : Completion A) : Eff A := ([e], outcome).

Definition trace {A} (m : Eff A) : list Event := m.1.
Definition completion {A} (m : Eff A) : Completion A := m.2.

(** The [picocolors] wrappers only add terminal escape codes around their
    argument; the model keeps the text. *)
Definition color (s : string) : string := s.

(** A settled promise of an external call. *)
Inductive Promise (A : Type) : Type :=
| Fulfilled (a : A)
| Rejected (e : Error).
Arguments Fulfilled {A} a.
Arguments Rejected {A} e.

Definition settle {A} (p : Promise A) : Completion A :=
  match p with
  | Fulfilled a => Normal a
  | Rejected e => Thrown e
  end.

(** [await call]: the event of the call, then its outcome. *)
Definition call {A} (e : Event) (p : Promise A) : Eff A := await e (settle p).

(** Projections of a trace used in the statements. *)
Definition sent (t : list Event) : list Command :=
  omap (λ e, match e with Send c => Some c | _ => None end) t.

Definition putKeys (t : list Event) : list string :=
  omap (λ e, match e with Send (PutObjectCommand _ k _) => Some k | _ => None end) t.

Definition checks (t : list Event) : nat :=
  length (omap (λ e, match e with
                     | Send (GetKnowledgeBaseCommand id) => Some id
                     | _ => None
                     end) t).

Definition sleeps (t : list Event) : list Z :=
  omap (λ e, match e with SetTimeout ms => Some ms | _ => None end) t.

Definition bucketWaits (t : list Event) : list (Z * string) :=
  omap (λ e, match e with WaitUntilBucketExists w b => Some (w, b) | _ => None end) t.

(** The constant [DistanceMetric.COSINE] of [@aws-sdk/client-s3vectors]: the
    string the service takes for the cosine metric. *)
Module DistanceMetric.
Definition COSINE : string := "cosine".
End DistanceMetric.

(** ** The setup script, [scripts/setup-knowledge-base.ts] *)
Module Setup.

(** The parts of the responses the script reads. *)
Record ListedObject := { Key : option string }.

Record ListObjectsV2Output := {
  Contents : option (list ListedObject);
  IsTruncated : option bool;
  NextContinuationToken : option string;
}.

Record KnowledgeBase := { status : option string }.
Record GetKnowledgeBaseOutput := { knowledgeBase : option KnowledgeBase }.

(** The outcome of every external call the script makes: the commands sent
    through the three AWS clients, the S3 waiter ([bucketExists]: what
    [waitUntilBucketExists] settles to, given [maxWaitTime] and the bucket)
    and the file system. The status of a knowledge base changes while it is
    polled, so [GetKnowledgeBase] also takes the number of status queries
    answered before. The creation responses are given by the ARN the script
    reads from them. *)
Record Services := {
  CreateBucket : string → Promise unit;
  bucketExists : Z → string → Promise unit;
  CreateVectorBucket : string → Promise string;
  CreateIndex : string → string → Promise string;
  GetKnowledgeBase : nat → string → Promise GetKnowledgeBaseOutput;
  ListObjectsV2 : string → option string → Promise ListObjectsV2Output;
  PutObject : string → string → list Byte.byte → Promise unit;
  mkdir : string → Promise unit;
  localDocumentFiles : Promise (list string);
  readFile : string → Promise (list Byte.byte);
}.

Section Script.

(** [DOCUMENTS_DIR], the resolved documents directory, and Node's
    [path.relative] are given by the platform the script runs on. *)
Context (aws : Services) (DOCUMENTS_DIR : string)
        (path_relative : string → string → string).

(** *** createDocumentsBucket *)
Definition createDocumentsBucket (bucketName : string) : Eff string :=
  emit (SpinnerStart ("Creating S3 bucket for documents: " +:+ bucketName));;
  try_catch
    (call (Send (CreateBucketCommand bucketName)) (CreateBucket aws bucketName);;
     call (WaitUntilBucketExists 60 bucketName) (bucketExists aws 60 bucketName);;
     emit (SpinnerStop ("S3 bucket ready: " +:+ color bucketName) 0);;
     mret bucketName)
    (λ error,
       if bool_decide (name error = "BucketAlreadyOwnedByYou") then
         emit (SpinnerStop ("S3 bucket already exists: " +:+ color bucketName) 0);;
         mret bucketName
       else
         emit (SpinnerStop "Failed to create S3 bucket" 1);;
         throw error).

(** *** createVectorsBucket *)
Definition createVectorsBucket (bucketName : string) : Eff string :=
  emit (SpinnerStart ("Creating S3 Vectors bucket: " +:+ bucketName));;
  try_catch
    (arn ← call (Send (CreateVectorBucketCommand bucketName))
                (CreateVectorBucket aws bucketName);
     emit (SpinnerStop ("S3 Vectors bucket created: " +:+ color bucketName) 0);;
     emit (LogInfo ("ARN: " +:+ color arn));;
     mret arn)
    (λ error,
       (if bool_decide (name error = "VectorBucketAlreadyExists") then
          emit (SpinnerStop ("S3 Vectors bucket already exists: " +:+ color bucketName) 0)
        else
          emit (SpinnerStop "Failed to create S3 Vectors bucket" 1));;
       throw error).

(** *** createVectorIndex *)
Definition createVectorIndex (vectorBucketArn indexName : string) : Eff string :=
  emit (SpinnerStart ("Creating vector index: " +:+ indexName));;
  try_catch
    (indexArn ← call (Send (CreateIndexCommand vectorBucketArn indexName 1024
                              DistanceMetric.COSINE "float32"
                              ["AMAZON_BEDROCK_TEXT"; "AMAZON_BEDROCK_METADATA"]))
                     (CreateIndex aws vectorBucketArn indexName);
     emit (SpinnerStop ("Vector index created: " +:+ color indexName) 0);;
     emit (LogInfo ("Dimensions: " +:+ color "1024" +:+ " | Similarity: " +:+ color "COSINE"));;
     emit (LogInfo ("ARN: " +:+ color indexArn));;
     mret indexArn)
    (λ error,
       if bool_decide (name error = "IndexAlreadyExists") then
         let indexArn := vectorBucketArn +:+ "/index/" +:+ indexName in
         emit (SpinnerStop ("Vector index already exists: " +:+ color indexName) 0);;
         emit (LogInfo ("ARN: " +:+ color indexArn));;
         mret indexArn
       else
         emit (SpinnerStop "Failed to create vector index" 1);;
         throw error).

(** *** getExistingKeys *)

(** [response.Contents?.forEach(item => { if (item.Key) keys.add(item.Key) })] *)
Definition addKeys (Contents : option (list ListedObject)) (keys : gset string)
  : gset string :=
  foldl (λ keys item,
           match Key item with
           | Some k => if truthy (Some k) then keys ∪ {[ k ]} else keys
           | None => keys
           end)
        keys (default [] Contents).

(** [response.IsTruncated ? response.NextContinuationToken : undefined] *)
Definition nextToken (response : ListObjectsV2Output) : option string :=
  if default false (IsTruncated response) then NextContinuationToken response
  else None.

(** The [do ... while (continuationToken)] loop; [fuel] bounds the number of
    pages requested. It gives the keys and the token the loop ends with. *)
Fixpoint listPages (fuel : nat) (bucketName : string) (keys : gset string)
    (continuationToken : option string) : Eff (gset string * option string) :=
  match fuel with
  | O => unfinished
  | S fuel =>
      response ← call (Send (ListObjectsV2Command bucketName continuationToken))
                      (ListObjectsV2 aws bucketName continuationToken);
      let keys := addKeys (Contents response) keys in
      let continuationToken := nextToken response in
      if truthy continuationToken
      then listPages fuel bucketName keys continuationToken
      else mret (keys, continuationToken)
  end.

Definition getExistingKeys (fuel : nat) (bucketName : string) : Eff (gset string) :=
  r ← listPages fuel bucketName ∅ None;
  mret r.1.

(** *** uploadDocuments *)

Definition ensureDocumentsDir : Eff unit :=
  call (Mkdir DOCUMENTS_DIR) (mkdir aws DOCUMENTS_DIR).

(** The recursive walk below [DOCUMENTS_DIR]: the full paths of the files
    found, in the order of the walk. *)
Definition getLocalDocumentFiles : Eff (list string) :=
  call (Walk DOCUMENTS_DIR) (localDocumentFiles aws).

(** [.replace(/\\/g, '/')] *)
Fixpoint replace_backslashes (s : string) : string :=
  match s with
  | EmptyString => EmptyString
  | String c s =>
      String (if bool_decide (c = Ascii.ascii_of_nat 92) then Ascii.ascii_of_nat 47 else c)
             (replace_backslashes s)
  end.

(** [path.relative(DOCUMENTS_DIR, filePath).replace(/\\/g, '/')] *)
Definition keyOf (filePath : string) : string :=
  replace_backslashes (path_relative DOCUMENTS_DIR filePath).

(** The variables the upload loop works on; [existingKeys] is the [Set]
    object fetched before the loop. *)
Record UploadState := {
  existingKeys : gset string;
  uploaded : nat;
  skipped : nat;
}.

(** [for (const filePath of localFiles) { ... }] *)
Fixpoint uploadLoop (bucketName : string) (localFiles : list string)
    (st : UploadState) : Eff UploadState :=
  match localFiles with
  | [] => mret st
  | filePath :: localFiles =>
      let key := keyOf filePath in
      if bool_decide (key ∈ existingKeys st) then
        uploadLoop bucketName localFiles
          {| existingKeys := existingKeys st;
             uploaded := uploaded st; skipped := S (skipped st) |}
      else
        body ← call (ReadFile filePath) (readFile aws filePath);
        call (Send (PutObjectCommand bucketName key body))
             (PutObject aws bucketName key body);;
        uploadLoop bucketName localFiles
          {| existingKeys := existingKeys st;
             uploaded := S (uploaded st); skipped := skipped st |}
  end.

Definition uploadDocuments (fuel : nat) (bucketName : string) : Eff unit :=
  ensureDocumentsDir;;
  localFiles ← getLocalDocumentFiles;
  if bool_decide (length localFiles = 0%nat) then
    emit (LogInfo ("No files found in " +:+ color DOCUMENTS_DIR +:+ " to upload."))
  else
    existingKeys ← getExistingKeys fuel bucketName;
    emit (SpinnerStart ("Uploading " +:+ pretty (length localFiles)
                        +:+ " files to s3://" +:+ bucketName +:+ "/"));;
    st ← uploadLoop bucketName localFiles
           {| existingKeys := existingKeys; uploaded := 0; skipped := 0 |};
    emit (SpinnerStop ("Upload complete. Uploaded: " +:+ color (pretty (uploaded st))
                       +:+ ", Skipped: " +:+ color (pretty (skipped st))) 0).

(** *** waitForKnowledgeBase *)

Definition maxAttempts : nat := 30.

(** What one pass through the body of the [while] loop leaves: the function
    returned, or the loop goes on with the new value of [attempts]. *)
Inductive Pass : Type :=
| Returned
| Next (attempts : nat).

(** The [try { ... } catch (error) { ... }] statement that is the loop body;
    [polls] is the number of status queries answered before. Nothing that
    follows [attempts++] in the [try] block throws, so the handler reads the
    value [attempts] had when the pass began. *)
Definition pollOnce (knowledgeBaseId : string) (polls attempts : nat) : Eff Pass :=
  try_catch
    (response ← call (Send (GetKnowledgeBaseCommand knowledgeBaseId))
                     (GetKnowledgeBase aws polls knowledgeBaseId);
     let status := knowledgeBase response ≫= status in
     if bool_decide (status = Some "ACTIVE") then
       emit (SpinnerStop ("Knowledge Base is " +:+ color "ACTIVE") 0);;
       mret Returned
     else if bool_decide (status = Some "FAILED") then
       emit (SpinnerStop "Knowledge Base creation failed" 1);;
       throw (new_Error "Knowledge Base creation failed")
     else
       let attempts := S attempts in
       emit (SpinnerMessage ("Status: " +:+ color (or_else status "UNKNOWN") +:+ " ("
                             +:+ pretty attempts +:+ "/" +:+ pretty maxAttempts +:+ ")"));;
       emit (SetTimeout 10000);;
       mret (Next attempts))
    (λ error,
       if bool_decide (maxAttempts - 1 ≤ attempts)%nat then
         emit (SpinnerStop "Timeout waiting for Knowledge Base" 1);;
         throw error
       else
         let attempts := S attempts in
         emit (SetTimeout 10000);;
         mret (Next attempts)).

(** [while (attempts < maxAttempts) { ... }] and the two statements after it. *)
Fixpoint pollLoop (fuel : nat) (knowledgeBaseId : string) (polls attempts : nat)
  : Eff unit :=
  if bool_decide (attempts < maxAttempts)%nat then
    match fuel with
    | O => unfinished
    | S fuel =>
        pass ← pollOnce knowledgeBaseId polls attempts;
        match pass with
        | Returned => mret tt
        | Next attempts => pollLoop fuel knowledgeBaseId (S polls) attempts
        end
    end
  else
    emit (SpinnerStop "Timeout waiting for Knowledge Base to become active" 1);;
    throw (new_Error "Timeout waiting for Knowledge Base to become active").

(** Every pass that goes on adds one to [attempts], so [maxAttempts] passes
    are all the loop can make (see [pollLoop_finishes]). *)
Definition waitForKnowledgeBase (knowledgeBaseId : string) : Eff unit :=
  emit (SpinnerStart "Waiting for Knowledge Base to become active...");;
  pollLoop maxAttempts knowledgeBaseId 0 0.

End Script.
End Setup.

(** ** The chat route, [app/api/chat/route.ts] *)
Module Chat.

(** A vector of a query result, as far as the route reads it: its metadata
    object, when the service returned one. The knowledge base stores the text
    of a chunk as a string under [AMAZON_BEDROCK_TEXT]; metadata values are
    strings here. *)
Record QueryOutputVector := { metadata : option (gmap string string) }.

Record QueryVectorsOutput := { vectors : option (list QueryOutputVector) }.

(** The environment variables the route reads. *)
Record ProcessEnv := {
  S3_VECTORS_INDEX_ARN : option string;
  EMBEDDING_MODEL : option string;
}.

(** The embedding model gives the embedding parsed from its response, or the
    call, the decoding or the parsing throws; the vector index answers a
    similarity query. *)
Record Services := {
  InvokeModel : string → string → Promise Embedding;
  QueryVectors : string → Embedding → Promise QueryVectorsOutput;
}.

(** The separator of the passages. *)
Definition separator : string := LF +:+ LF +:+ "---" +:+ LF +:+ LF.

Section Route.

Context (env : ProcessEnv) (aws : Services).

(** *** generateEmbedding *)
Definition generateEmbedding (text : string) : Eff Embedding :=
  let modelId := or_else (EMBEDDING_MODEL env) "amazon.titan-embed-text-v2:0" in
  call (Send (InvokeModelCommand modelId text)) (InvokeModel aws modelId text).

(** [result.metadata?.AMAZON_BEDROCK_TEXT || ""] *)
Definition passage (result : QueryOutputVector) : string :=
  or_else (metadata result ≫= (.!! "AMAZON_BEDROCK_TEXT")) "".

(** *** findRelevantContent *)
Definition findRelevantContent (question : string) : Eff string :=
  let indexArn := S3_VECTORS_INDEX_ARN env in
  if negb (truthy indexArn) then
    emit (ConsoleWarn "S3 Vectors configuration missing, skipping RAG");;
    mret ""
  else
    let indexArn := default "" indexArn in
    try_catch
      (queryEmbedding ← generateEmbedding question;
       queryResponse ← call (Send (QueryCommand indexArn queryEmbedding 5 true true))
                            (QueryVectors aws indexArn queryEmbedding);
       let results := default [] (vectors queryResponse) in
       let content := join separator (passage <$> results) in
       mret content)
      (λ error,
         emit (ConsoleError "Error retrieving context from S3 Vectors:" error);;
         mret "").

(** The [execute] function of the [getInformation] tool. *)
Definition getInformation (question : string) : Eff string :=
  findRelevantContent question.

End Route.
End Chat.

(** ** Vocabulary of the statements *)

(** The [n]-th status query on knowledge base [id] (counting from 0) is
    answered, and [response.knowledgeBase?.status] is [st] there. *)
Definition answers (aws : Setup.Services) (id : string) (n : nat)
    (st : option string) : Prop :=
  ∃ response, Setup.GetKnowledgeBase aws n id = Fulfilled response
              ∧ Setup.knowledgeBase response ≫= Setup.status = st.

(** A status that is neither of the two the poller looks for. *)
Definition pending (st : option string) : Prop :=
  st ≠ Some "ACTIVE" ∧ st ≠ Some "FAILED".

(** The keys of the objects a page lists. *)
Definition pageKeys (page : Setup.ListObjectsV2Output) : gset string :=
  list_to_set (omap Setup.Key (default [] (Setup.Contents page))).

(** The listing of [bucket] requested under [token] comes in the pages
    [pages]: every page but the last is truncated and carries the non-empty
    token under which the service gives the next page, and the last page is
    not truncated. *)
Fixpoint listedIn (aws : Setup.Services) (bucket : string) (token : option string)
    (pages : list Setup.ListObjectsV2Output) : Prop :=
  match pages with
  | [] => False
  | page :: rest =>
      Setup.ListObjectsV2 aws bucket token = Fulfilled page
      ∧ match rest with
        | [] => default false (Setup.IsTruncated page) = false
        | _ :: _ =>
            Setup.IsTruncated page = Some true
            ∧ ∃ next, Setup.NextContinuationToken page = Some next
                      ∧ next ≠ ""
                      ∧ listedIn aws bucket (Some next) rest
        end
  end.

(** [s.includes(needle)] *)
Fixpoint includes (needle s : string) : bool :=
  String.prefix needle s
  || match s with
     | EmptyString => false
     | String _ s => includes needle s
     end.

(** [s.split(sep)] for a non-empty [sep]: the segments of [s] between the
    occurrences of [sep], which are found from left to right and do not
    overlap. [segment] is the part of the current segment read so far; the
    next [skip] characters belong to the occurrence found last. *)
Fixpoint split_from (sep : string) (skip : nat) (segment s : string) : list string :=
  match s with
  | EmptyString => [segment]
  | String c rest =>
      match skip with
      | S skip => split_from sep skip segment rest
      | O =>
          if String.prefix sep s
          then segment :: split_from sep (String.length sep - 1) "" rest
          else split_from sep 0 (segment +:+ String c "") rest
      end
  end.

Definition split (sep s : string) : list string := split_from sep 0 "" s.

(** The number of separator-delimited segments of [s]. *)
Definition segments (sep s : string) : nat := length (split sep s).

(** ** Sample services

    Concrete outcomes of the external calls, on which the properties below
    are instantiated. *)
Module Sample.

Definition unavailable : Error := mkError "ServiceUnavailable" "try again later".

Definition reports (st : string) : Promise Setup.GetKnowledgeBaseOutput :=
  Fulfilled {| Setup.knowledgeBase := Some {| Setup.status := Some st |} |}.

(** The status of the knowledge base at the successive queries: the entries
    of [statuses], then [after] for ever. *)
Definition timeline (statuses : list string) (after : string) (n : nat)
  : Promise Setup.GetKnowledgeBaseOutput :=
  reports (default after (statuses !! n)).

Definition page (keys : list string) (next : option string) : Setup.ListObjectsV2Output :=
  {| Setup.Contents := Some ((λ k, {| Setup.Key := Some k |}) <$> keys);
     Setup.IsTruncated := Some (bool_decide (is_Some next));
     Setup.NextContinuationToken := next |}.

(** A bucket listed in two pages. *)
Definition twoPages (token : option string) : Promise Setup.ListObjectsV2Output :=
  match token with
  | None => Fulfilled (page ["a.md"; "docs/b.md"] (Some "page-2"))
  | Some "page-2" => Fulfilled (page ["docs/c.md"] None)
  | Some _ => Rejected (mkError "InvalidArgument" "unknown continuation token")
  end.

(** An account in which every call succeeds, given the outcome of the three
    creation calls and the statuses the knowledge base goes through. *)
Definition account (bucket : Promise unit) (vectorBucket index : Promise string)
    (statusAt : nat → Promise Setup.GetKnowledgeBaseOutput) : Setup.Services :=
  {| Setup.CreateBucket := λ _, bucket;
     Setup.bucketExists := λ _ _, Fulfilled tt;
     Setup.CreateVectorBucket := λ _, vectorBucket;
     Setup.CreateIndex := λ _ _, index;
     Setup.GetKnowledgeBase := λ n _, statusAt n;
     Setup.ListObjectsV2 := λ _ token, twoPages token;
     Setup.PutObject := λ _ _ _, Fulfilled tt;
     Setup.mkdir := λ _, Fulfilled tt;
     Setup.localDocumentFiles :=
       Fulfilled ["/srv/app/documents/a.md"; "/srv/app/documents/docs/d.md"];
     Setup.readFile := λ _, Fulfilled [] |}.

Definition conflict (name : string) : Error :=
  mkError name "The resource you tried to create already exists".

(** A fresh account, and the same account on a second run of the script. *)
Definition fresh : Setup.Services :=
  account (Fulfilled tt)
          (Fulfilled "arn:aws:s3vectors:us-east-1:123456789012:bucket/kb-vectors")
          (Fulfilled "arn:aws:s3vectors:us-east-1:123456789012:bucket/kb-vectors/index/kb-index")
          (timeline ["CREATING"; "CREATING"] "ACTIVE").

Definition rerun : Setup.Services :=
  account (Rejected (conflict "BucketAlreadyOwnedByYou"))
          (Rejected (conflict "VectorBucketAlreadyExists"))
          (Rejected (conflict "IndexAlreadyExists"))
          (timeline [] "ACTIVE").

(** Accounts that differ in what the knowledge base reports. *)
Definition stuck : Setup.Services :=
  account (Fulfilled tt) (Rejected unavailable) (Rejected unavailable)
          (timeline [] "CREATING").

Definition failing : Setup.Services :=
  account (Fulfilled tt) (Rejected unavailable) (Rejected unavailable)
          (timeline [] "FAILED").

Definition recovering : Setup.Services :=
  account (Fulfilled tt) (Rejected unavailable) (Rejected unavailable)
          (timeline ["FAILED"] "ACTIVE").

(** [path.relative] for a file below the root: what follows the root and one
    separator. *)
Definition relative (root file : string) : string :=
  String.substring (S (String.length root)) (String.length file) file.

(** The chat route: a configured index, and a retrieval service that
    answers every query with [vectors]. *)
Definition chatEnv : Chat.ProcessEnv :=
  {| Chat.S3_VECTORS_INDEX_ARN :=
       Some "arn:aws:s3vectors:us-east-1:123456789012:bucket/kb-vectors/index/kb-index";
     Chat.EMBEDDING_MODEL := None |}.

Definition unconfigured : Chat.ProcessEnv :=
  {| Chat.S3_VECTORS_INDEX_ARN := None; Chat.EMBEDDING_MODEL := None |}.

Definition queryEmbedding : Embedding := [0.25%float; (-0.5)%float; 1%float].

Definition retrieval (vectors : option (list Chat.QueryOutputVector)) : Chat.Services :=
  {| Chat.InvokeModel := λ _ _, Fulfilled queryEmbedding;
     Chat.QueryVectors := λ _ _, Fulfilled {| Chat.vectors := vectors |} |}.

Definition noEmbedding : Chat.Services :=
  {| Chat.InvokeModel := λ _ _, Rejected unavailable;
     Chat.QueryVectors := λ _ _, Fulfilled {| Chat.vectors := Some [] |} |}.

Definition noIndex : Chat.Services :=
  {| Chat.InvokeModel := λ _ _, Fulfilled queryEmbedding;
     Chat.QueryVectors := λ _ _, Rejected unavailable |}.

(** A vector whose metadata holds the text of a passage, one with metadata
    but no text, and one without metadata. *)
Definition withText (text : string) : Chat.QueryOutputVector :=
  {| Chat.metadata := Some {[ "AMAZON_BEDROCK_TEXT" := text ]} |}.

Definition withoutText : Chat.QueryOutputVector :=
  {| Chat.metadata := Some {[ "x-amz-bedrock-kb-source-uri" := "s3://kb-documents/a.md" ]} |}.

Definition withoutMetadata : Chat.QueryOutputVector := {| Chat.metadata := None |}.

(** A passage of a Markdown document with a thematic break in it. *)
Definition markdownPassage : string :=
  "# Setup" +:+ LF +:+ LF +:+ "---" +:+ LF +:+ LF +:+ "Run the script.".

End Sample.

(** ** Vocabulary of the further statements *)

(** The error [waitForKnowledgeBase] ends with when its 30th pass does not
    see ACTIVE, given the answer to the 30th query: a rejection is rethrown,
    FAILED gives the creation error, any other status the timeout. *)
Definition lastError (answer : Promise Setup.GetKnowledgeBaseOutput) : Error :=
  match answer with
  | Rejected e => e
  | Fulfilled response =>
      if bool_decide (Setup.knowledgeBase response ≫= Setup.status = Some "FAILED")
      then new_Error "Knowledge Base creation failed"
      else new_Error "Timeout waiting for Knowledge Base to become active"
  end.

(** ** The rest of the setup script: knowledge base, data source, ingestion, [main] *)

(** The commands sent through the Bedrock agent client, with the fields the
    scripts set. *)
Inductive AgentCommand : Type :=
| CreateKnowledgeBaseCommand (name description roleArn type embeddingModelArn : string)
    (dimensions : Z) (storageType vectorBucketArn indexArn : string)
| CreateDataSourceCommand (knowledgeBaseId name description type bucketArn
                           chunkingStrategy : string) (maxTokens overlapPercentage : Z)
| StartIngestionJobCommand (knowledgeBaseId dataSourceId description : string).

(** What a run of a script shows and sends: the events of the functions
    above, the agent commands, and the further terminal output
    ([console.*] and the [p.intro], [p.log.error], [p.note], [p.outro]
    prompts). *)
Inductive Output : Type :=
| Core (e : Event)
| SendAgent (cmd : AgentCommand)
| ConsoleClear
| ConsoleLog (msg : string)
| ConsoleErrorWith (msg detail : string)
| Intro (title : string)
| LogError (msg : string)
| Note (msg title : string)
| Outro (msg : string).

Definition Run (A : Type) : Type := list Output * Completion A.

#[global] Instance Run_ret : MRet Run := λ A a, ([], Normal a).

#[global] Instance Run_bind : MBind Run := λ A B k m,
  match m with
  | (t, Normal a) => let '(t', r) := k a in (t ++ t', r)
  | (t, Thrown e) => (t, Thrown e)
  | (t, Unfinished) => (t, Unfinished)
  end.

(** A function of [Setup], run inside a script: its events are shown as they
    are, and the script goes on as the function completes. *)
Definition lift {A} (m : Eff A) : Run A := (Core <$> trace m, completion m).

Definition say (o : Output) : Run unit := ([o], Normal tt).

Definition raise {A} (e : Error) : Run A := ([], Thrown e).

Definition request {A} (o : Output) (p : Promise A) : Run A := ([o], settle p).

(** [try { body } catch (error) { handler }] *)
Definition attempt {A} (body : Run A) (handler : Error → Run A) : Run A :=
  match body with
  | (t, Thrown e) => let '(t', r) := handler e in (t ++ t', r)
  | _ => body
  end.

Definition shown {A} (m : Run A) : list Output := m.1.
Definition outcome {A} (m : Run A) : Completion A := m.2.

(** The commands of a run, in the order they were sent. *)
Definition agentSent (t : list Output) : list AgentCommand :=
  omap (λ o, match o with SendAgent c => Some c | _ => None end) t.

Definition coreSent (t : list Output) : list Command :=
  sent (omap (λ o, match o with Core e => Some e | _ => None end) t).

(** The closing messages of a run. *)
Definition outros (t : list Output) : list string :=
  omap (λ o, match o with Outro msg => Some msg | _ => None end) t.

Module SetupMain.

(** The parts of the responses the script reads. The script reads them
    through non-null assertions ([response.knowledgeBase!.knowledgeBaseId!]);
    the model takes the responses to carry them. *)
Record KnowledgeBaseCreated := {
  knowledgeBaseId : string;
  name : string;
  knowledgeBaseArn : string;
  status : string;
}.

Record DataSourceCreated := {
  dataSourceId : string;
  dataSourceName : string;
  dataSourceStatus : string;
}.

Record IngestionJobStarted := {
  ingestionJobId : string;
  ingestionJobStatus : string;
}.

(** The outcome of the commands sent through the Bedrock agent client. *)
Record Agent := {
  CreateKnowledgeBase : AgentCommand → Promise KnowledgeBaseCreated;
  CreateDataSource : AgentCommand → Promise DataSourceCreated;
  StartIngestionJob : AgentCommand → Promise IngestionJobStarted;
}.

(** [CONFIG], once the environment variables and their defaults are read. *)
Record Config := {
  region : string;
  s3BucketName : string;
  s3VectorsBucketName : string;
  knowledgeBaseName : string;
  embeddingModel : string;
  roleArn : string;
  indexName : string;
}.

(** The environment variables behind [CONFIG]. *)
Record ProcessEnv := {
  AWS_REGION : option string;
  S3_BUCKET_NAME : option string;
  S3_VECTORS_BUCKET_NAME : option string;
  KB_NAME : option string;
  EMBEDDING_MODEL : option string;
  BEDROCK_KB_ROLE_ARN : option string;
  S3_VECTORS_INDEX_NAME : option string;
}.

(** The object literal [CONFIG]; [now1], [now2], [now3] are the readings of
    [Date.now()] in its three default names. *)
Definition configure (env : ProcessEnv) (now1 now2 now3 : Z) : Config :=
  {| region := or_else (AWS_REGION env) "us-east-1";
     s3BucketName := or_else (S3_BUCKET_NAME env) ("kb-documents-" +:+ pretty now1);
     s3VectorsBucketName :=
       or_else (S3_VECTORS_BUCKET_NAME env) ("kb-vectors-" +:+ pretty now2);
     knowledgeBaseName := or_else (KB_NAME env) ("my-knowledge-base-" +:+ pretty now3);
     embeddingModel := or_else (EMBEDDING_MODEL env) "amazon.titan-embed-text-v2:0";
     roleArn := or_else (BEDROCK_KB_ROLE_ARN env) "";
     indexName := or_else (S3_VECTORS_INDEX_NAME env) "kb-index" |}.

Section Script.

Context (aws : Setup.Services) (agent : Agent) (CONFIG : Config)
        (DOCUMENTS_DIR : string) (path_relative : string → string → string).

(** *** createKnowledgeBase *)

(** [new CreateKnowledgeBaseCommand({ ... })] *)
Definition knowledgeBaseCommand (roleArn vectorBucketArn indexArn : string)
  : AgentCommand :=
  CreateKnowledgeBaseCommand
    (knowledgeBaseName CONFIG)
    "Knowledge base using S3 Vectors for embeddings storage"
    roleArn
    "VECTOR"
    ("arn:aws:bedrock:" +:+ region CONFIG +:+ "::foundation-model/"
     +:+ embeddingModel CONFIG)
    1024
    "S3_VECTORS" vectorBucketArn indexArn.

Definition createKnowledgeBase (roleArn vectorBucketArn indexArn : string) : Run string :=
  say (ConsoleLog (LF +:+ "🧠 Creating Bedrock Knowledge Base: "
                   +:+ knowledgeBaseName CONFIG));;
  let command := knowledgeBaseCommand roleArn vectorBucketArn indexArn in
  attempt
    (response ← request (SendAgent command) (CreateKnowledgeBase agent command);
     let kbId := knowledgeBaseId response in
     say (ConsoleLog ("✓ Knowledge Base created: " +:+ kbId));;
     say (ConsoleLog ("  Name: " +:+ name response));;
     say (ConsoleLog ("  ARN: " +:+ knowledgeBaseArn response));;
     say (ConsoleLog ("  Status: " +:+ status response));;
     mret kbId)
    (λ error,
       say (ConsoleErrorWith "✗ Failed to create knowledge base:" (message error));;
       raise error).

(** *** createDataSource *)

(** [new CreateDataSourceCommand({ ... })] *)
Definition dataSourceCommand (knowledgeBaseId s3BucketName : string) : AgentCommand :=
  CreateDataSourceCommand
    knowledgeBaseId
    (s3BucketName +:+ "-datasource")
    "S3 data source for document ingestion"
    "S3"
    ("arn:aws:s3:::" +:+ s3BucketName)
    "FIXED_SIZE" 512 20.

Definition createDataSource (knowledgeBaseId s3BucketName : string) : Run string :=
  say (ConsoleLog (LF +:+ "📁 Creating Data Source for S3 bucket"));;
  let command := dataSourceCommand knowledgeBaseId s3BucketName in
  attempt
    (response ← request (SendAgent command) (CreateDataSource agent command);
     let dataSourceId := dataSourceId response in
     say (ConsoleLog ("✓ Data Source created: " +:+ dataSourceId));;
     say (ConsoleLog ("  Name: " +:+ dataSourceName response));;
     say (ConsoleLog ("  Status: " +:+ dataSourceStatus response));;
     mret dataSourceId)
    (λ error,
       say (ConsoleErrorWith "✗ Failed to create data source:" (message error));;
       raise error).

(** *** startIngestionJob *)

(** [new StartIngestionJobCommand({ ... })] *)
Definition ingestionCommand (knowledgeBaseId dataSourceId : string) : AgentCommand :=
  StartIngestionJobCommand knowledgeBaseId dataSourceId
    "Initial ingestion of documents from S3".

Definition startIngestionJob (knowledgeBaseId dataSourceId : string) : Run unit :=
  say (Core (SpinnerStart "Starting ingestion job"));;
  let command := ingestionCommand knowledgeBaseId dataSourceId in
  attempt
    (response ← request (SendAgent command) (StartIngestionJob agent command);
     let jobId := ingestionJobId response in
     let status := ingestionJobStatus response in
     say (Core (SpinnerStop ("Ingestion job started: " +:+ color jobId) 0));;
     say (Core (LogInfo ("Status: " +:+ color status)));;
     say (Note ("Upload documents to " +:+ color ("s3://" +:+ s3BucketName CONFIG +:+ "/")
                +:+ " and run ingestion again to process them")
               "Next step"))
    (λ error,
       say (Core (SpinnerStop "Failed to start ingestion" 1));;
       say (LogError (message error));;
       raise error).

(** *** main

    [process.exit(1)] ends the run with status 1; a run that reaches the end
    of [main] ends with status 0. [fuel] bounds the pages of the bucket
    listing, as in [getExistingKeys]. *)

(** The [try] block of [main]. *)
Definition steps (fuel : nat) : Run Z :=
  s3BucketName ← lift (Setup.createDocumentsBucket aws (s3BucketName CONFIG));
  vectorBucketArn ← lift (Setup.createVectorsBucket aws (s3VectorsBucketName CONFIG));
  indexArn ← lift (Setup.createVectorIndex aws vectorBucketArn (indexName CONFIG));
  knowledgeBaseId ← createKnowledgeBase (roleArn CONFIG) vectorBucketArn indexArn;
  lift (Setup.waitForKnowledgeBase aws knowledgeBaseId);;
  dataSourceId ← createDataSource knowledgeBaseId s3BucketName;
  lift (Setup.uploadDocuments aws DOCUMENTS_DIR path_relative fuel s3BucketName);;
  startIngestionJob knowledgeBaseId dataSourceId;;
  say (Note (join LF
               ["Knowledge Base ID: " +:+ color knowledgeBaseId;
                "Data Source ID: " +:+ color dataSourceId;
                "Documents Bucket: " +:+ color s3BucketName;
                "Vectors Bucket ARN: " +:+ color vectorBucketArn;
                "Index ARN: " +:+ color indexArn;
                "IAM Role ARN: " +:+ color (roleArn CONFIG)])
            "Resources Created");;
  say (Note (join LF
               ["1. Upload documents to: " +:+ color ("s3://" +:+ s3BucketName +:+ "/");
                "2. Start ingestion job to process documents";
                "3. Query the knowledge base using Bedrock Agent Runtime API"])
            "Next Steps");;
  say (Outro (color "Setup completed successfully! ✨"));;
  mret 0%Z.

Definition main (fuel : nat) : Run Z :=
  say ConsoleClear;;
  say (Intro (color (color " AWS Bedrock Knowledge Base Setup ")));;
  say (Core (LogInfo ("Region: " +:+ color (region CONFIG))));;
  say (Core (LogInfo ("Documents Bucket: " +:+ color (s3BucketName CONFIG))));;
  say (Core (LogInfo ("Vectors Bucket: " +:+ color (s3VectorsBucketName CONFIG))));;
  say (Core (LogInfo ("Index Name: " +:+ color (indexName CONFIG))));;
  say (Core (LogInfo ("Knowledge Base: " +:+ color (knowledgeBaseName CONFIG))));;
  say (Core (LogInfo ("Embedding Model: " +:+ color (embeddingModel CONFIG))));;
  say (Core (LogInfo ("Role ARN: " +:+ color (or_else (Some (roleArn CONFIG)) "Not set"))));;
  if negb (truthy (Some (roleArn CONFIG))) then
    say (LogError "BEDROCK_KB_ROLE_ARN environment variable is required");;
    say (Outro (color "Setup aborted"));;
    mret 1%Z
  else
    attempt
      (steps fuel)
      (λ error,
         say (LogError ("Setup failed: " +:+ message error));;
         say (Outro (color "Setup failed"));;
         mret 1%Z).

End Script.
End SetupMain.

(** ** The upload script, [scripts/upload-documents.ts]

    Its [ensureDocumentsDir], [getLocalDocumentFiles], [getExistingKeys] and
    [uploadDocuments] are those of the setup script, statement for
    statement; the model uses the definitions of [Setup]. *)
Module UploadScript.

Record Config := {
  region : string;
  s3BucketName : string;
  knowledgeBaseId : string;
  dataSourceId : string;
}.

Record ProcessEnv := {
  AWS_REGION : option string;
  S3_BUCKET_NAME : option string;
  KB_ID : option string;
  DATA_SOURCE_ID : option string;
}.

Definition configure (env : ProcessEnv) : Config :=
  {| region := or_else (AWS_REGION env) "us-east-1";
     s3BucketName := or_else (S3_BUCKET_NAME env) "";
     knowledgeBaseId := or_else (KB_ID env) "";
     dataSourceId := or_else (DATA_SOURCE_ID env) "" |}.

Section Script.

Context (aws : Setup.Services) (agent : SetupMain.Agent) (CONFIG : Config)
        (DOCUMENTS_DIR : string) (path_relative : string → string → string).

(** *** startIngestionJob *)

(** [new StartIngestionJobCommand({ ... })] *)
Definition ingestionCommand (knowledgeBaseId dataSourceId : string) : AgentCommand :=
  StartIngestionJobCommand knowledgeBaseId dataSourceId
    "Manual ingestion of documents from S3".

Definition startIngestionJob (knowledgeBaseId dataSourceId : string) : Run unit :=
  say (Core (SpinnerStart "Starting ingestion job"));;
  let command := ingestionCommand knowledgeBaseId dataSourceId in
  attempt
    (response ← request (SendAgent command) (SetupMain.StartIngestionJob agent command);
     let jobId := SetupMain.ingestionJobId response in
     let status := SetupMain.ingestionJobStatus response in
     say (Core (SpinnerStop ("Ingestion job started: " +:+ color jobId) 0));;
     say (Core (LogInfo ("Status: " +:+ color status))))
    (λ error,
       say (Core (SpinnerStop "Failed to start ingestion" 1));;
       say (LogError (message error));;
       raise error).

(** *** main *)

(** The [try] block of [main]; the closing message is kept character for
    character as the file has it. *)
Definition steps (fuel : nat) : Run Z :=
  lift (Setup.uploadDocuments aws DOCUMENTS_DIR path_relative fuel (s3BucketName CONFIG));;
  startIngestionJob (knowledgeBaseId CONFIG) (dataSourceId CONFIG);;
  say (Outro (color "Upload and ingestion started successfully! âœ¨"));;
  mret 0%Z.

Definition main (fuel : nat) : Run Z :=
  say ConsoleClear;;
  say (Intro (color (color " Upload Documents to Bedrock KB ")));;
  say (Core (LogInfo ("Region: " +:+ color (region CONFIG))));;
  say (Core (LogInfo ("Documents Bucket: "
                      +:+ color (or_else (Some (s3BucketName CONFIG)) "Not set"))));;
  say (Core (LogInfo ("Knowledge Base ID: "
                      +:+ color (or_else (Some (knowledgeBaseId CONFIG)) "Not set"))));;
  say (Core (LogInfo ("Data Source ID: "
                      +:+ color (or_else (Some (dataSourceId CONFIG)) "Not set"))));;
  if negb (truthy (Some (s3BucketName CONFIG)))
     || negb (truthy (Some (knowledgeBaseId CONFIG)))
     || negb (truthy (Some (dataSourceId CONFIG))) then
    say (LogError
           "S3_BUCKET_NAME, KB_ID and DATA_SOURCE_ID environment variables are required");;
    say (Outro (color "Upload aborted"));;
    mret 1%Z
  else
    attempt
      (steps fuel)
      (λ error,
         say (LogError ("Upload failed: " +:+ message error));;
         say (Outro (color "Upload failed"));;
         mret 1%Z).

End Script.
End UploadScript.

(** ** The walk of [getLocalDocumentFiles]

    In [Setup] the list of local files is given as a whole. Here the walk
    runs over the directory tree. [fs.readdir] of a directory gives its
    entries or fails; an entry is a regular file, a directory, or something
    that is neither (a symbolic link, a socket). *)
Module FileSystem.

#[local] Unset Elimination Schemes.
Inductive Readdir : Type :=
| Entries (entries : list Dirent)
| Fails (e : Error)
with Dirent : Type :=
| File (name : string)
| Directory (name : string) (readdir : Readdir)
| Other (name : string).
#[local] Set Elimination Schemes.

Section Walk.

(** Node's [path.join]. *)
Context (path_join : string → string → string).

(** [async function walk(dir)]: [readdir] is what
    [fs.readdir(dir, { withFileTypes: true })] settles to, [files] the array
    the walk pushes to. The promise of a walk that returns is given with the
    array as the walk leaves it. *)
Fixpoint walk (dir : string) (readdir : Readdir) (files : list string) {struct readdir}
  : Promise (list string) :=
  match readdir with
  | Fails e => Rejected e
  | Entries entries =>
      (fix loop (entries : list Dirent) (files : list string) : Promise (list string) :=
         match entries with
         | [] => Fulfilled files
         | entry :: entries =>
             match entry with
             | Directory name sub =>
                 match walk (path_join dir name) sub files with
                 | Fulfilled files => loop entries files
                 | Rejected e => Rejected e
                 end
             | File name => loop entries (files ++ [path_join dir name])
             | Other name => loop entries files
             end
         end) entries files
  end.

(** [getLocalDocumentFiles], given the tree below [DOCUMENTS_DIR]. *)
Definition getLocalDocumentFiles (DOCUMENTS_DIR : string) (readdir : Readdir)
  : Promise (list string) :=
  walk DOCUMENTS_DIR readdir [].

(** The regular files below a directory, depth first in the order of the
    listings: the statement of what the walk collects. *)
Fixpoint filesBelow (dir : string) (readdir : Readdir) {struct readdir} : list string :=
  match readdir with
  | Fails _ => []
  | Entries entries =>
      (fix each (entries : list Dirent) : list string :=
         match entries with
         | [] => []
         | entry :: entries =>
             match entry with
             | File name => [path_join dir name]
             | Directory name sub => filesBelow (path_join dir name) sub
             | Other _ => []
             end ++ each entries
         end) entries
  end.

(** The error of the first directory, in the order of the walk, that cannot
    be listed. *)
Fixpoint firstFailure (readdir : Readdir) : option Error :=
  match readdir with
  | Fails e => Some e
  | Entries entries =>
      (fix each (entries : list Dirent) : option Error :=
         match entries with
         | [] => None
         | entry :: entries =>
             match match entry with
                   | Directory _ sub => firstFailure sub
                   | _ => None
                   end with
             | Some e => Some e
             | None => each entries
             end
         end) entries
  end.

End Walk.
End FileSystem.

(** ** Further sample services *)
Module Demo.

(** [aws], with another bucket listing, another outcome of the uploads, or
    another documents directory. *)
Definition withListing (aws : Setup.Services)
    (ListObjectsV2 : option string → Promise Setup.ListObjectsV2Output) : Setup.Services :=
  {| Setup.CreateBucket := Setup.CreateBucket aws;
     Setup.bucketExists := Setup.bucketExists aws;
     Setup.CreateVectorBucket := Setup.CreateVectorBucket aws;
     Setup.CreateIndex := Setup.CreateIndex aws;
     Setup.GetKnowledgeBase := Setup.GetKnowledgeBase aws;
     Setup.ListObjectsV2 := λ _ token, ListObjectsV2 token;
     Setup.PutObject := Setup.PutObject aws;
     Setup.mkdir := Setup.mkdir aws;
     Setup.localDocumentFiles := Setup.localDocumentFiles aws;
     Setup.readFile := Setup.readFile aws |}.

Definition withPutObject (aws : Setup.Services)
    (PutObject : string → Promise unit) : Setup.Services :=
  {| Setup.CreateBucket := Setup.CreateBucket aws;
     Setup.bucketExists := Setup.bucketExists aws;
     Setup.CreateVectorBucket := Setup.CreateVectorBucket aws;
     Setup.CreateIndex := Setup.CreateIndex aws;
     Setup.GetKnowledgeBase := Setup.GetKnowledgeBase aws;
     Setup.ListObjectsV2 := Setup.ListObjectsV2 aws;
     Setup.PutObject := λ _ key _, PutObject key;
     Setup.mkdir := Setup.mkdir aws;
     Setup.localDocumentFiles := Setup.localDocumentFiles aws;
     Setup.readFile := Setup.readFile aws |}.

Definition withFiles (aws : Setup.Services)
    (localDocumentFiles : Promise (list string)) : Setup.Services :=
  {| Setup.CreateBucket := Setup.CreateBucket aws;
     Setup.bucketExists := Setup.bucketExists aws;
     Setup.CreateVectorBucket := Setup.CreateVectorBucket aws;
     Setup.CreateIndex := Setup.CreateIndex aws;
     Setup.GetKnowledgeBase := Setup.GetKnowledgeBase aws;
     Setup.ListObjectsV2 := Setup.ListObjectsV2 aws;
     Setup.PutObject := Setup.PutObject aws;
     Setup.mkdir := Setup.mkdir aws;
     Setup.localDocumentFiles := localDocumentFiles;
     Setup.readFile := Setup.readFile aws |}.

(** An account whose knowledge base cannot be queried. *)
Definition unreachable : Setup.Services :=
  Sample.account (Fulfilled tt) (Rejected Sample.unavailable) (Rejected Sample.unavailable)
                 (λ _, Rejected Sample.unavailable).

(** A listing that always announces a further page. *)
Definition endless : Setup.Services :=
  withListing Sample.fresh (λ _, Fulfilled (Sample.page ["a.md"] (Some "more"))).

(** A single page that is not truncated but carries a token, and lists an
    object with an empty key and one without a key. *)
Definition strayToken : Setup.ListObjectsV2Output :=
  {| Setup.Contents :=
       Some [ {| Setup.Key := Some "a.md" |}; {| Setup.Key := Some "" |};
              {| Setup.Key := None |} ];
     Setup.IsTruncated := Some false;
     Setup.NextContinuationToken := Some "ignored" |}.

Definition onePage : Setup.Services :=
  withListing Sample.fresh (λ _, Fulfilled strayToken).

Definition denied : Error := mkError "AccessDenied" "Access Denied".

(** A bucket that refuses every upload. *)
Definition readOnly : Setup.Services := withPutObject Sample.fresh (λ _, Rejected denied).

(** The outcome of the agent calls: every resource is created. *)
Definition agent : SetupMain.Agent :=
  {| SetupMain.CreateKnowledgeBase := λ _,
       Fulfilled {| SetupMain.knowledgeBaseId := "KB0001";
                    SetupMain.name := "my-knowledge-base";
                    SetupMain.knowledgeBaseArn :=
                      "arn:aws:bedrock:us-east-1:123456789012:knowledge-base/KB0001";
                    SetupMain.status := "CREATING" |};
     SetupMain.CreateDataSource := λ _,
       Fulfilled {| SetupMain.dataSourceId := "DS0001";
                    SetupMain.dataSourceName := "kb-documents-datasource";
                    SetupMain.dataSourceStatus := "AVAILABLE" |};
     SetupMain.StartIngestionJob := λ _,
       Fulfilled {| SetupMain.ingestionJobId := "JOB0001";
                    SetupMain.ingestionJobStatus := "STARTING" |} |}.

(** The environment of a run of the setup script, with the role given or
    set to the empty string. *)
Definition env (role : option string) : SetupMain.ProcessEnv :=
  {| SetupMain.AWS_REGION := None;
     SetupMain.S3_BUCKET_NAME := Some "kb-documents";
     SetupMain.S3_VECTORS_BUCKET_NAME := Some "kb-vectors";
     SetupMain.KB_NAME := None;
     SetupMain.EMBEDDING_MODEL := None;
     SetupMain.BEDROCK_KB_ROLE_ARN := role;
     SetupMain.S3_VECTORS_INDEX_NAME := None |}.

Definition role : string := "arn:aws:iam::123456789012:role/kb-role".

Definition config : SetupMain.Config :=
  SetupMain.configure (env (Some role)) 1700000000000 1700000000000 1700000000001.

(** The environment of a run of the upload script. *)
Definition uploadEnv (dataSource : option string) : UploadScript.ProcessEnv :=
  {| UploadScript.AWS_REGION := None;
     UploadScript.S3_BUCKET_NAME := Some "kb-documents";
     UploadScript.KB_ID := Some "KB0001";
     UploadScript.DATA_SOURCE_ID := dataSource |}.

(** [path.join] of a directory and a name on a POSIX platform. *)
Definition pathJoin (dir name : string) : string := dir +:+ "/" +:+ name.

(** A documents directory with a subdirectory, a symbolic link and an empty
    directory; the same with a directory that cannot be listed; and one
    without a regular file. *)
Definition tree : FileSystem.Readdir :=
  FileSystem.Entries
    [FileSystem.File "a.md";
     FileSystem.Directory "docs"
       (FileSystem.Entries [FileSystem.File "d.md"; FileSystem.Other "latest"]);
     FileSystem.Directory "empty" (FileSystem.Entries [])].

Definition locked : FileSystem.Readdir :=
  FileSystem.Entries
    [FileSystem.File "a.md";
     FileSystem.Directory "private"
       (FileSystem.Fails (mkError "EACCES" "permission denied, scandir"));
     FileSystem.File "z.md"].

Definition bare : FileSystem.Readdir :=
  FileSystem.Entries
    [FileSystem.Directory "empty" (FileSystem.Entries []); FileSystem.Other "latest"].

(** The account [Sample.fresh] on a machine with the given documents
    directory. *)
Definition disk (documents : FileSystem.Readdir) : Setup.Services :=
  withFiles Sample.fresh
    (FileSystem.getLocalDocumentFiles pathJoin "/srv/app/documents" documents).

End Demo.

(** * Properties *)

(** ** Traces and completions of composed effects *)

Lemma trace_bind {A B} (m : Eff A) (k : A → Eff B) :
  trace (m ≫= k) =
  match completion m with
  | Normal a => trace m ++ trace (k a)
  | _ => trace m
  end.
Proof.
  destruct m as [t [a | e |]]; cbn; try reflexivity.
  destruct (k a); reflexivity.
Qed.

Lemma completion_bind {A B} (m : Eff A) (k : A → Eff B) :
  completion (m ≫= k) =
  match completion m with
  | Normal a => completion (k a)
  | Thrown e => Thrown e
  | Unfinished => Unfinished
  end.
Proof.
  destruct m as [t [a | e |]]; cbn; try reflexivity.
  destruct (k a); reflexivity.
Qed.

Lemma Eff_eta {A} (m : Eff A) : m = (trace m, completion m).
Proof. by destruct m. Qed.

(** ** The provisioner *)

(** C1 (the code departs from the claim). When [CreateVectorBucket] is
    rejected with an error named [VectorBucketAlreadyExists],
    [createVectorsBucket] stops the spinner with the "already exists" message
    and exit code 0, and then rethrows the very error: it does not return an
    identifier, and the error reaches the caller. *)
Theorem createVectorsBucket_rethrows_conflict
    (aws : Setup.Services) (bucketName : string) (error : Error) :
  Setup.CreateVectorBucket aws bucketName = Rejected error →
  name error = "VectorBucketAlreadyExists" →
  Setup.createVectorsBucket aws bucketName =
    ([SpinnerStart ("Creating S3 Vectors bucket: " +:+ bucketName);
      Send (CreateVectorBucketCommand bucketName);
      SpinnerStop ("S3 Vectors bucket already exists: " +:+ bucketName) 0],
     Thrown error).
Proof.
  intros Hcall Hname.
  unfold Setup.createVectorsBucket, call, await. rewrite Hcall. cbn.
  rewrite Hname. reflexivity.
Qed.

Lemma createVectorsBucket_rethrows_conflict_rerun :
  completion (Setup.createVectorsBucket Sample.rerun "kb-vectors")
  = Thrown (Sample.conflict "VectorBucketAlreadyExists").
Proof.
  rewrite (createVectorsBucket_rethrows_conflict Sample.rerun "kb-vectors"
             (Sample.conflict "VectorBucketAlreadyExists"));
    reflexivity.
Defined.


(** C5, counterexample. On a second run [CreateBucket] is rejected with
    [BucketAlreadyOwnedByYou]; [createDocumentsBucket] then returns the
    bucket name although it never waited for the bucket to exist. *)
Lemma createDocumentsBucket_owned_skips_wait :
  Setup.createDocumentsBucket Sample.rerun "kb-documents" =
    ([SpinnerStart "Creating S3 bucket for documents: kb-documents";
      Send (CreateBucketCommand "kb-documents");
      SpinnerStop "S3 bucket already exists: kb-documents" 0],
     Normal "kb-documents")
  ∧ bucketWaits (trace (Setup.createDocumentsBucket Sample.rerun "kb-documents")) = [].
Proof. split; reflexivity. Qed.

(** C5, as amended. Every successful return of [createDocumentsBucket] gives
    the bucket name, and it comes about in one of two ways: the creation call
    succeeded, [waitUntilBucketExists] (with [maxWaitTime] 60) was awaited
    once and reported the bucket; or an error named [BucketAlreadyOwnedByYou]
    was caught, in which case nothing is awaited after it -- when the creation
    call raised it, no wait is made at all. *)
Theorem createDocumentsBucket_success_paths
    (aws : Setup.Services) (bucketName r : string) :
  completion (Setup.createDocumentsBucket aws bucketName) = Normal r →
  r = bucketName ∧
  let waits := bucketWaits (trace (Setup.createDocumentsBucket aws bucketName)) in
  ((Setup.CreateBucket aws bucketName = Fulfilled tt
    ∧ Setup.bucketExists aws 60 bucketName = Fulfilled tt
    ∧ waits = [(60%Z, bucketName)])
   ∨ (∃ error, name error = "BucketAlreadyOwnedByYou"
        ∧ ((Setup.CreateBucket aws bucketName = Rejected error ∧ waits = [])
           ∨ (Setup.CreateBucket aws bucketName = Fulfilled tt
              ∧ Setup.bucketExists aws 60 bucketName = Rejected error
              ∧ waits = [(60%Z, bucketName)])))).
Proof.
  unfold Setup.createDocumentsBucket, call, await.
  destruct (Setup.CreateBucket aws bucketName) as [[] | e1]; cbn.
  - destruct (Setup.bucketExists aws 60 bucketName) as [[] | e2]; cbn.
    + intros [= <-]. split; [done | by left].
    + destruct (bool_decide (name e2 = _)) eqn:Hn; cbn; [| discriminate].
      apply bool_decide_eq_true in Hn.
      intros [= <-]. split; [done |]. right. exists e2. split; [done |]. by right.
  - destruct (bool_decide (name e1 = _)) eqn:Hn; cbn; [| discriminate].
    apply bool_decide_eq_true in Hn.
    intros [= <-]. split; [done |]. right. exists e1. split; [done |]. by left.
Qed.

Lemma createDocumentsBucket_success_paths_fresh :
  completion (Setup.createDocumentsBucket Sample.fresh "kb-documents")
    = Normal "kb-documents"
  ∧ bucketWaits (trace (Setup.createDocumentsBucket Sample.fresh "kb-documents"))
    = [(60%Z, "kb-documents")].
Proof.
  split; [reflexivity |].
  destruct (createDocumentsBucket_success_paths Sample.fresh "kb-documents"
              "kb-documents" eq_refl) as [_ [(_ & _ & Hw) | (e & _ & [[H _] | (_ & H & _)])]].
  - exact Hw.
  - discriminate H.
  - discriminate H.
Defined.

(** C7. When [CreateIndex] is rejected with an error named
    [IndexAlreadyExists], [createVectorIndex] returns the ARN
    [{vectorBucketArn}/index/{indexName}] built from its two arguments; the
    creation command is the only request it sends. *)
Theorem createVectorIndex_reconstructs_arn
    (aws : Setup.Services) (vectorBucketArn indexName : string) (error : Error) :
  Setup.CreateIndex aws vectorBucketArn indexName = Rejected error →
  name error = "IndexAlreadyExists" →
  completion (Setup.createVectorIndex aws vectorBucketArn indexName)
    = Normal (vectorBucketArn +:+ "/index/" +:+ indexName)
  ∧ sent (trace (Setup.createVectorIndex aws vectorBucketArn indexName))
    = [CreateIndexCommand vectorBucketArn indexName 1024 "cosine" "float32"
         ["AMAZON_BEDROCK_TEXT"; "AMAZON_BEDROCK_METADATA"]].
Proof.
  intros Hcall Hname.
  unfold Setup.createVectorIndex, call, await. rewrite Hcall. cbn.
  rewrite Hname. split; reflexivity.
Qed.

Lemma createVectorIndex_reconstructs_arn_rerun :
  completion (Setup.createVectorIndex Sample.rerun
                "arn:aws:s3vectors:us-east-1:123456789012:bucket/kb-vectors" "kb-index")
  = Normal "arn:aws:s3vectors:us-east-1:123456789012:bucket/kb-vectors/index/kb-index".
Proof.
  exact (proj1 (createVectorIndex_reconstructs_arn Sample.rerun
                  "arn:aws:s3vectors:us-east-1:123456789012:bucket/kb-vectors"
                  "kb-index" (Sample.conflict "IndexAlreadyExists") eq_refl eq_refl)).
Defined.

(** Any other rejection of a creation call is passed on to the caller. *)
Lemma createDocumentsBucket_other_error
    (aws : Setup.Services) (bucketName : string) (error : Error) :
  Setup.CreateBucket aws bucketName = Rejected error →
  name error ≠ "BucketAlreadyOwnedByYou" →
  completion (Setup.createDocumentsBucket aws bucketName) = Thrown error.
Proof.
  intros Hcall Hname.
  unfold Setup.createDocumentsBucket, call, await. rewrite Hcall. cbn.
  by rewrite bool_decide_eq_false_2.
Qed.

Lemma createVectorIndex_other_error
    (aws : Setup.Services) (vectorBucketArn indexName : string) (error : Error) :
  Setup.CreateIndex aws vectorBucketArn indexName = Rejected error →
  name error ≠ "IndexAlreadyExists" →
  completion (Setup.createVectorIndex aws vectorBucketArn indexName) = Thrown error.
Proof.
  intros Hcall Hname.
  unfold Setup.createVectorIndex, call, await. rewrite Hcall. cbn.
  by rewrite bool_decide_eq_false_2.
Qed.

(** ** The activation poller *)

Section PollOnce.

Context (aws : Setup.Services) (id : string) (polls attempts : nat).

Lemma pollOnce_active :
  answers aws id polls (Some "ACTIVE") →
  Setup.pollOnce aws id polls attempts =
    ([Send (GetKnowledgeBaseCommand id); SpinnerStop "Knowledge Base is ACTIVE" 0],
     Normal Setup.Returned).
Proof.
  intros (response & Hcall & Hst).
  unfold Setup.pollOnce, call, await. rewrite Hcall. cbn. rewrite Hst. reflexivity.
Qed.

Lemma pollOnce_pending st :
  answers aws id polls st → pending st →
  Setup.pollOnce aws id polls attempts =
    ([Send (GetKnowledgeBaseCommand id);
      SpinnerMessage ("Status: " +:+ or_else st "UNKNOWN" +:+ " ("
                      +:+ pretty (S attempts) +:+ "/" +:+ pretty Setup.maxAttempts +:+ ")");
      SetTimeout 10000],
     Normal (Setup.Next (S attempts))).
Proof.
  intros (response & Hcall & Hst) [Ha Hf].
  unfold Setup.pollOnce, call, await. rewrite Hcall. cbn. rewrite Hst.
  rewrite !bool_decide_eq_false_2 by done. reflexivity.
Qed.

Lemma pollOnce_failed :
  answers aws id polls (Some "FAILED") →
  Setup.pollOnce aws id polls attempts =
    if bool_decide (Setup.maxAttempts - 1 ≤ attempts)%nat then
      ([Send (GetKnowledgeBaseCommand id);
        SpinnerStop "Knowledge Base creation failed" 1;
        SpinnerStop "Timeout waiting for Knowledge Base" 1],
       Thrown (new_Error "Knowledge Base creation failed"))
    else
      ([Send (GetKnowledgeBaseCommand id);
        SpinnerStop "Knowledge Base creation failed" 1;
        SetTimeout 10000],
       Normal (Setup.Next (S attempts))).
Proof.
  intros (response & Hcall & Hst).
  unfold Setup.pollOnce, call, await. rewrite Hcall. cbn. rewrite Hst.
  rewrite bool_decide_eq_false_2 by done. rewrite bool_decide_eq_true_2 by done.
  cbn. destruct (bool_decide _); reflexivity.
Qed.

Lemma pollOnce_rejected error :
  Setup.GetKnowledgeBase aws polls id = Rejected error →
  Setup.pollOnce aws id polls attempts =
    if bool_decide (Setup.maxAttempts - 1 ≤ attempts)%nat then
      ([Send (GetKnowledgeBaseCommand id);
        SpinnerStop "Timeout waiting for Knowledge Base" 1],
       Thrown error)
    else
      ([Send (GetKnowledgeBaseCommand id); SetTimeout 10000],
       Normal (Setup.Next (S attempts))).
Proof.
  intros Hcall.
  unfold Setup.pollOnce, call, await. rewrite Hcall. cbn.
  destruct (bool_decide _); reflexivity.
Qed.

(** Whatever the service answers, a pass makes one status query, sleeps at
    most once and then for 10 seconds, and either ends the function or goes on
    with [attempts] one higher. *)
Lemma pollOnce_shape :
  ∃ rest, trace (Setup.pollOnce aws id polls attempts)
          = Send (GetKnowledgeBaseCommand id) :: rest
    ∧ checks rest = 0%nat
    ∧ (sleeps rest = [] ∨ sleeps rest = [10000%Z])
    ∧ (completion (Setup.pollOnce aws id polls attempts) = Normal Setup.Returned
       ∨ completion (Setup.pollOnce aws id polls attempts) = Normal (Setup.Next (S attempts))
       ∨ ∃ e, completion (Setup.pollOnce aws id polls attempts) = Thrown e).
Proof.
  unfold Setup.pollOnce, call, await.
  destruct (Setup.GetKnowledgeBase aws polls id) as [response | e]; cbn.
  - destruct (bool_decide (_ = Some "ACTIVE")); cbn; [eauto 10 |].
    destruct (bool_decide (_ = Some "FAILED")); cbn; [| eauto 10].
    destruct (bool_decide _); cbn; eauto 10.
  - destruct (bool_decide _); cbn; eauto 10.
Qed.

End PollOnce.

Lemma checks_app (t1 t2 : list Event) : checks (t1 ++ t2) = (checks t1 + checks t2)%nat.
Proof. unfold checks. by rewrite omap_app, length_app. Qed.

Lemma sleeps_app (t1 t2 : list Event) : sleeps (t1 ++ t2) = sleeps t1 ++ sleeps t2.
Proof. apply omap_app. Qed.

Section PollLoop.

Context (aws : Setup.Services) (id : string).

Lemma pollLoop_step fuel polls attempts :
  (attempts < Setup.maxAttempts)%nat →
  Setup.pollLoop aws (S fuel) id polls attempts =
    Setup.pollOnce aws id polls attempts ≫= λ pass,
      match pass with
      | Setup.Returned => mret tt
      | Setup.Next attempts => Setup.pollLoop aws fuel id (S polls) attempts
      end.
Proof. intros H. cbn. by rewrite bool_decide_eq_true_2. Qed.

Lemma pollLoop_exhausted fuel polls attempts :
  ¬ (attempts < Setup.maxAttempts)%nat →
  Setup.pollLoop aws fuel id polls attempts =
    ([SpinnerStop "Timeout waiting for Knowledge Base to become active" 1],
     Thrown (new_Error "Timeout waiting for Knowledge Base to become active")).
Proof. intros H. destruct fuel; cbn; by rewrite bool_decide_eq_false_2. Qed.

(** The loop makes at most [maxAttempts - attempts] status queries, and
    sleeps only for 10 seconds, at most once per query. *)
Lemma pollLoop_bounds fuel polls attempts :
  let t := trace (Setup.pollLoop aws fuel id polls attempts) in
  (checks t ≤ Setup.maxAttempts - attempts)%nat
  ∧ Forall (λ ms, ms = 10000%Z) (sleeps t)
  ∧ (length (sleeps t) ≤ checks t)%nat.
Proof.
  revert polls attempts. induction fuel as [| fuel IH]; intros polls attempts.
  - cbn. destruct (bool_decide _); cbn; repeat split; auto; unfold Setup.maxAttempts in *; lia.
  - destruct (decide (attempts < Setup.maxAttempts)%nat) as [Hlt | Hge].
    + rewrite pollLoop_step by done. cbv zeta. rewrite trace_bind.
      destruct (pollOnce_shape aws id polls attempts)
        as (rest & Ht & Hc & Hs & [Hr | [Hr | [e Hr]]]); rewrite Hr, ?Ht.
      * cbn [trace fst mret Eff_ret]. rewrite app_nil_r.
        change (Send ?c :: rest) with ([Send c] ++ rest).
        rewrite checks_app, sleeps_app, Hc. cbn.
        destruct Hs as [-> | ->]; repeat split; auto; unfold Setup.maxAttempts in *; lia.
      * specialize (IH (S polls) (S attempts)). cbv zeta in IH.
        destruct IH as (IH1 & IH2 & IH3).
        change (Send ?c :: rest) with ([Send c] ++ rest).
        rewrite !checks_app, !sleeps_app, Hc, length_app. cbn.
        destruct Hs as [-> | ->]; cbn; repeat split; auto; unfold Setup.maxAttempts in *; lia.
      * change (Send ?c :: rest) with ([Send c] ++ rest).
        rewrite checks_app, sleeps_app, Hc. cbn.
        destruct Hs as [-> | ->]; repeat split; auto; unfold Setup.maxAttempts in *; lia.
    + rewrite pollLoop_exhausted by done. cbn. repeat split; auto; unfold Setup.maxAttempts in *; lia.
Qed.

(** With fuel for the passes that are left, the loop returns or throws. *)
Lemma pollLoop_finishes fuel polls attempts :
  (Setup.maxAttempts - attempts ≤ fuel)%nat →
  completion (Setup.pollLoop aws fuel id polls attempts) ≠ Unfinished.
Proof.
  revert polls attempts. induction fuel as [| fuel IH]; intros polls attempts Hfuel.
  - rewrite pollLoop_exhausted by (unfold Setup.maxAttempts in *; lia). discriminate.
  - destruct (decide (attempts < Setup.maxAttempts)%nat) as [Hlt | Hge].
    + rewrite pollLoop_step by done. rewrite completion_bind.
      destruct (pollOnce_shape aws id polls attempts)
        as (rest & _ & _ & _ & [Hr | [Hr | [e Hr]]]); rewrite Hr.
      * discriminate.
      * apply IH. unfold Setup.maxAttempts in *. lia.
      * discriminate.
    + rewrite pollLoop_exhausted by done. discriminate.
Qed.

End PollLoop.

Section Poller.

Context (aws : Setup.Services) (id : string).

Lemma waitForKnowledgeBase_unfold :
  Setup.waitForKnowledgeBase aws id =
    (SpinnerStart "Waiting for Knowledge Base to become active..."
       :: trace (Setup.pollLoop aws Setup.maxAttempts id 0 0),
     completion (Setup.pollLoop aws Setup.maxAttempts id 0 0)).
Proof.
  unfold Setup.waitForKnowledgeBase.
  destruct (Setup.pollLoop aws Setup.maxAttempts id 0 0) as [t c]. reflexivity.
Qed.

Lemma pollLoop_pending fuel polls attempts st :
  (attempts < Setup.maxAttempts)%nat → answers aws id polls st → pending st →
  Setup.pollLoop aws (S fuel) id polls attempts =
    (Send (GetKnowledgeBaseCommand id)
       :: SpinnerMessage ("Status: " +:+ or_else st "UNKNOWN" +:+ " ("
                          +:+ pretty (S attempts) +:+ "/" +:+ pretty Setup.maxAttempts +:+ ")")
       :: SetTimeout 10000
       :: trace (Setup.pollLoop aws fuel id (S polls) (S attempts)),
     completion (Setup.pollLoop aws fuel id (S polls) (S attempts))).
Proof.
  intros Hlt Hans Hpend. rewrite pollLoop_step by done.
  rewrite (pollOnce_pending aws id polls attempts st) by done.
  unfold mbind, Eff_bind; cbn beta iota.
  destruct (Setup.pollLoop aws fuel id (S polls) (S attempts)) as [t c]. reflexivity.
Qed.

Lemma pollLoop_active fuel polls attempts :
  (attempts < Setup.maxAttempts)%nat → answers aws id polls (Some "ACTIVE") →
  Setup.pollLoop aws (S fuel) id polls attempts =
    ([Send (GetKnowledgeBaseCommand id); SpinnerStop "Knowledge Base is ACTIVE" 0],
     Normal tt).
Proof.
  intros Hlt Hans. rewrite pollLoop_step by done.
  rewrite (pollOnce_active aws id polls attempts) by done. reflexivity.
Qed.

Lemma pollLoop_failed fuel polls attempts :
  (attempts < Setup.maxAttempts - 1)%nat → answers aws id polls (Some "FAILED") →
  Setup.pollLoop aws (S fuel) id polls attempts =
    (Send (GetKnowledgeBaseCommand id)
       :: SpinnerStop "Knowledge Base creation failed" 1
       :: SetTimeout 10000
       :: trace (Setup.pollLoop aws fuel id (S polls) (S attempts)),
     completion (Setup.pollLoop aws fuel id (S polls) (S attempts))).
Proof.
  intros Hlt Hans. rewrite pollLoop_step by (unfold Setup.maxAttempts in *; lia).
  rewrite (pollOnce_failed aws id polls attempts) by done.
  rewrite bool_decide_eq_false_2 by lia.
  unfold mbind, Eff_bind; cbn beta iota.
  destruct (Setup.pollLoop aws fuel id (S polls) (S attempts)) as [t c]. reflexivity.
Qed.

Lemma pollLoop_failed_last fuel polls :
  answers aws id polls (Some "FAILED") →
  Setup.pollLoop aws (S fuel) id polls (Setup.maxAttempts - 1) =
    ([Send (GetKnowledgeBaseCommand id);
      SpinnerStop "Knowledge Base creation failed" 1;
      SpinnerStop "Timeout waiting for Knowledge Base" 1],
     Thrown (new_Error "Knowledge Base creation failed")).
Proof.
  intros Hans. rewrite pollLoop_step by (unfold Setup.maxAttempts; lia).
  rewrite (pollOnce_failed aws id polls _) by done. reflexivity.
Qed.

(** While every answer is a pending status, the loop runs through all the
    attempts that are left and times out. *)
Lemma pollLoop_all_pending fuel polls attempts :
  (∀ n, polls ≤ n < polls + (Setup.maxAttempts - attempts) →
        ∃ st, answers aws id n st ∧ pending st)%nat →
  (Setup.maxAttempts - attempts ≤ fuel)%nat →
  let run := Setup.pollLoop aws fuel id polls attempts in
  completion run = Thrown (new_Error "Timeout waiting for Knowledge Base to become active")
  ∧ checks (trace run) = (Setup.maxAttempts - attempts)%nat
  ∧ sleeps (trace run) = replicate (Setup.maxAttempts - attempts) 10000%Z
  ∧ last (trace run)
    = Some (SpinnerStop "Timeout waiting for Knowledge Base to become active" 1).
Proof.
  revert polls attempts. induction fuel as [| fuel IH]; intros polls attempts Hans Hfuel.
  - rewrite pollLoop_exhausted by lia.
    replace (Setup.maxAttempts - attempts)%nat with 0%nat by lia. done.
  - destruct (decide (attempts < Setup.maxAttempts)%nat) as [Hlt | Hge].
    + destruct (Hans polls) as (st & Hst & Hpend); [lia |].
      cbv zeta. rewrite (pollLoop_pending fuel polls attempts st) by done.
      destruct (IH (S polls) (S attempts)) as (IH1 & IH2 & IH3 & IH4).
      { intros n Hn. apply Hans. lia. }
      { lia. }
      replace (Setup.maxAttempts - attempts)%nat
        with (S (Setup.maxAttempts - S attempts)) by lia.
      cbn [trace completion fst snd]. repeat split.
      * exact IH1.
      * unfold checks in *. cbn. by rewrite IH2.
      * unfold sleeps in *. cbn. by rewrite IH3.
      * rewrite !last_cons, IH4. done.
    + rewrite pollLoop_exhausted by done.
      replace (Setup.maxAttempts - attempts)%nat with 0%nat by lia. done.
Qed.

End Poller.

(** C4. The poller sleeps 10 seconds between status queries and makes at
    most 30 of them. On the statuses CREATING, CREATING, ACTIVE it returns
    after exactly 3 queries (and two sleeps of 10 seconds). On 30 times
    CREATING it throws the timeout error after the 30th query, and that error
    is not the one made for the status FAILED. For every service: at most 30
    queries, every sleep is one of 10000 ms, and the function returns or
    throws. *)
Theorem waitForKnowledgeBase_polls (aws : Setup.Services) (id : string) :
  let run := Setup.waitForKnowledgeBase aws id in
  (answers aws id 0 (Some "CREATING") → answers aws id 1 (Some "CREATING") →
   answers aws id 2 (Some "ACTIVE") →
   run = ([SpinnerStart "Waiting for Knowledge Base to become active...";
           Send (GetKnowledgeBaseCommand id);
           SpinnerMessage "Status: CREATING (1/30)";
           SetTimeout 10000;
           Send (GetKnowledgeBaseCommand id);
           SpinnerMessage "Status: CREATING (2/30)";
           SetTimeout 10000;
           Send (GetKnowledgeBaseCommand id);
           SpinnerStop "Knowledge Base is ACTIVE" 0],
          Normal tt)
   ∧ checks (trace run) = 3%nat)
  ∧ ((∀ n, (n < 30)%nat → answers aws id n (Some "CREATING")) →
     completion run
       = Thrown (new_Error "Timeout waiting for Knowledge Base to become active")
     ∧ checks (trace run) = 30%nat
     ∧ sleeps (trace run) = replicate 30 10000%Z
     ∧ last (trace run)
       = Some (SpinnerStop "Timeout waiting for Knowledge Base to become active" 1))
  ∧ new_Error "Timeout waiting for Knowledge Base to become active"
    ≠ new_Error "Knowledge Base creation failed"
  ∧ (checks (trace run) ≤ 30)%nat
  ∧ Forall (λ ms, ms = 10000%Z) (sleeps (trace run))
  ∧ completion run ≠ Unfinished.
Proof.
  cbv zeta. rewrite waitForKnowledgeBase_unfold.
  assert (Hpend : pending (Some "CREATING")) by (split; discriminate).
  split; [| split; [| split; [| split; [| split]]]].
  - intros H0 H1 H2. change Setup.maxAttempts with 30%nat.
    rewrite (pollLoop_pending aws id 29 0 0 (Some "CREATING")) by (done || cbv; lia).
    rewrite (pollLoop_pending aws id 28 1 1 (Some "CREATING")) by (done || cbv; lia).
    rewrite (pollLoop_active aws id 27 2 2) by (done || cbv; lia).
    split; reflexivity.
  - intros Hall.
    destruct (pollLoop_all_pending aws id Setup.maxAttempts 0 0) as (H1 & H2 & H3 & H4).
    { intros n Hn. exists (Some "CREATING"). split; [| done]. apply Hall.
      unfold Setup.maxAttempts in Hn. lia. }
    { lia. }
    cbn [trace completion fst snd]. repeat split.
    + exact H1.
    + unfold checks in *. cbn. exact H2.
    + exact H3.
    + rewrite last_cons, H4. done.
  - discriminate.
  - cbn [trace fst].
    destruct (pollLoop_bounds aws id Setup.maxAttempts 0 0) as (H1 & _ & _).
    exact H1.
  - cbn [trace fst].
    destruct (pollLoop_bounds aws id Setup.maxAttempts 0 0) as (_ & H2 & _).
    exact H2.
  - cbn [completion snd]. apply pollLoop_finishes. lia.
Qed.

Lemma waitForKnowledgeBase_polls_sample :
  (completion (Setup.waitForKnowledgeBase Sample.fresh "KB0001") = Normal tt
   ∧ checks (trace (Setup.waitForKnowledgeBase Sample.fresh "KB0001")) = 3%nat)
  ∧ (completion (Setup.waitForKnowledgeBase Sample.stuck "KB0001")
       = Thrown (new_Error "Timeout waiting for Knowledge Base to become active")
     ∧ checks (trace (Setup.waitForKnowledgeBase Sample.stuck "KB0001")) = 30%nat).
Proof.
  split.
  - destruct (waitForKnowledgeBase_polls Sample.fresh "KB0001") as [Hactive _].
    destruct Hactive as [Hrun Hchecks];
      [eexists; split; reflexivity .. |].
    split; [by rewrite Hrun | exact Hchecks].
  - destruct (waitForKnowledgeBase_polls Sample.stuck "KB0001") as (_ & Htimeout & _).
    destruct Htimeout as (Hc & Hn & _).
    + intros n _. eexists; split; reflexivity.
    + split; [exact Hc | exact Hn].
Defined.

(** C2 (the code departs from the claim). The error made for the status
    FAILED is thrown inside the [try] block of the loop body, so the [catch]
    of the same statement takes it: when the first query reports FAILED the
    poller sleeps 10 seconds and queries again. It makes at least two queries,
    and if the second one reports ACTIVE it returns normally. *)
Theorem waitForKnowledgeBase_retries_after_FAILED (aws : Setup.Services) (id : string) :
  answers aws id 0 (Some "FAILED") →
  (∃ rest, trace (Setup.waitForKnowledgeBase aws id) =
     [SpinnerStart "Waiting for Knowledge Base to become active...";
      Send (GetKnowledgeBaseCommand id);
      SpinnerStop "Knowledge Base creation failed" 1;
      SetTimeout 10000;
      Send (GetKnowledgeBaseCommand id)] ++ rest)
  ∧ (2 ≤ checks (trace (Setup.waitForKnowledgeBase aws id)))%nat
  ∧ (answers aws id 1 (Some "ACTIVE") →
     completion (Setup.waitForKnowledgeBase aws id) = Normal tt).
Proof.
  intros Hfailed. rewrite waitForKnowledgeBase_unfold.
  change Setup.maxAttempts with 30%nat.
  rewrite (pollLoop_failed aws id 29 0 0) by (done || cbv; lia).
  cbn [trace completion fst snd].
  assert (Hnext : ∃ rest, trace (Setup.pollLoop aws 29 id 1 1)
                          = Send (GetKnowledgeBaseCommand id) :: rest).
  { rewrite pollLoop_step by (cbv; lia). rewrite trace_bind.
    destruct (pollOnce_shape aws id 1 1) as (rest & Ht & _). rewrite Ht.
    destruct (completion _); cbn; eauto. }
  destruct Hnext as [rest Hrest]. rewrite Hrest.
  split; [by exists rest |]. split.
  - unfold checks. cbn. lia.
  - intros Hactive. rewrite (pollLoop_active aws id 28 1 1) by (done || cbv; lia).
    reflexivity.
Qed.

Lemma waitForKnowledgeBase_retries_after_FAILED_recovering :
  (2 ≤ checks (trace (Setup.waitForKnowledgeBase Sample.recovering "KB0001")))%nat
  ∧ completion (Setup.waitForKnowledgeBase Sample.recovering "KB0001") = Normal tt.
Proof.
  destruct (waitForKnowledgeBase_retries_after_FAILED Sample.recovering "KB0001")
    as (_ & Hchecks & Hreturns).
  - eexists; split; reflexivity.
  - split; [exact Hchecks |]. apply Hreturns. eexists; split; reflexivity.
Defined.

(** When every query reports FAILED, the error "Knowledge Base creation
    failed" reaches the caller only after all 30 queries, 29 sleeps, and
    behind the spinner text of a timeout. *)
Lemma waitForKnowledgeBase_FAILED_throughout :
  let run := Setup.waitForKnowledgeBase Sample.failing "KB0001" in
  completion run = Thrown (new_Error "Knowledge Base creation failed")
  ∧ checks (trace run) = 30%nat
  ∧ sleeps (trace run) = replicate 29 10000%Z
  ∧ last (trace run) = Some (SpinnerStop "Timeout waiting for Knowledge Base" 1).
Proof. vm_compute. repeat split. Qed.

(** ** The remote key listing *)

Lemma addKeys_truthy (Contents : option (list Setup.ListedObject)) (keys : gset string) :
  Setup.addKeys Contents keys
  = keys ∪ list_to_set (filter (λ k, k ≠ "") (omap Setup.Key (default [] Contents))).
Proof.
  unfold Setup.addKeys. generalize (default [] Contents) as items.
  intros items. revert keys.
  induction items as [| [[k |]] items IH]; intros keys; cbn.
  - by rewrite (right_id_L ∅ (∪)).
  - rewrite IH. case_bool_decide as Hk; cbn.
    + rewrite decide_False by (intros H; by apply H). reflexivity.
    + rewrite decide_True by done. rewrite list_to_set_cons.
      by rewrite !(assoc_L (∪)).
  - apply IH.
Qed.

Lemma addKeys_pageKeys (page : Setup.ListObjectsV2Output) (keys : gset string) :
  "" ∉ pageKeys page →
  Setup.addKeys (Setup.Contents page) keys = keys ∪ pageKeys page.
Proof.
  intros Hne. rewrite addKeys_truthy. unfold pageKeys in *.
  apply set_eq. intros k.
  rewrite !elem_of_union, !elem_of_list_to_set, list_elem_of_filter.
  rewrite elem_of_list_to_set in Hne. split.
  - intros [Hk | [_ Hk]]; [by left | by right].
  - intros [Hk | Hk]; [by left |]. right. split; [by intros -> | done].
Qed.

Section Listing.

Context (aws : Setup.Services) (bucket : string).

Lemma listPages_listed (pages : list Setup.ListObjectsV2Output) :
  ∀ (fuel : nat) (keys : gset string) (token : option string),
  listedIn aws bucket token pages →
  "" ∉ ⋃ (pageKeys <$> pages) →
  (length pages ≤ fuel)%nat →
  completion (Setup.listPages aws fuel bucket keys token)
    = Normal (keys ∪ ⋃ (pageKeys <$> pages), None)
  ∧ length (sent (trace (Setup.listPages aws fuel bucket keys token))) = length pages.
Proof.
  induction pages as [| page rest IH]; intros fuel keys token Hlisted Hne Hfuel.
  - destruct Hlisted.
  - destruct fuel as [| fuel]; [cbn in Hfuel; lia |].
    destruct Hlisted as [Hcall Hrest].
    rewrite fmap_cons, union_list_cons, not_elem_of_union in Hne.
    destruct Hne as [Hpage Hne].
    cbn [Setup.listPages]. unfold call, await. rewrite Hcall.
    unfold mbind, Eff_bind; cbn beta iota; cbn [settle].
    rewrite addKeys_pageKeys by done.
    destruct rest as [| page' rest].
    + unfold Setup.nextToken. rewrite Hrest. cbn. split; [| done].
      by rewrite (right_id_L ∅ (∪)).
    + destruct Hrest as (Htrunc & next & Hnext & Hnonempty & Hlisted).
      unfold Setup.nextToken. rewrite Htrunc, Hnext.
      cbn [default from_option id truthy]. rewrite bool_decide_eq_false_2 by done. cbn [negb].
      destruct (IH fuel (keys ∪ pageKeys page) (Some next)) as [IHc IHt].
      * exact Hlisted.
      * exact Hne.
      * cbn in Hfuel. cbn. lia.
      * destruct (Setup.listPages aws fuel bucket (keys ∪ pageKeys page) (Some next))
          as [t c].
        cbn in IHc, IHt. subst c. cbn. split.
        -- by rewrite !(assoc_L (∪)).
        -- by rewrite IHt.
Qed.

End Listing.

(** C6. When the listing of the bucket comes in pages linked by continuation
    tokens, and the model is given fuel for that many requests,
    [getExistingKeys] returns the union of the keys of all the pages; it sends
    one request per page and its loop ends with no continuation token. (Keys
    are non-empty: an item whose [Key] is the empty string is skipped by the
    [if (item.Key)] test.) *)
Theorem getExistingKeys_collects_all_pages
    (aws : Setup.Services) (bucket : string)
    (pages : list Setup.ListObjectsV2Output) (fuel : nat) :
  listedIn aws bucket None pages →
  "" ∉ ⋃ (pageKeys <$> pages) →
  (length pages ≤ fuel)%nat →
  completion (Setup.getExistingKeys aws fuel bucket) = Normal (⋃ (pageKeys <$> pages))
  ∧ completion (Setup.listPages aws fuel bucket ∅ None)
    = Normal (⋃ (pageKeys <$> pages), None)
  ∧ length (sent (trace (Setup.getExistingKeys aws fuel bucket))) = length pages.
Proof.
  intros Hlisted Hne Hfuel.
  destruct (listPages_listed aws bucket pages fuel ∅ None Hlisted Hne Hfuel) as [Hc Ht].
  rewrite (left_id_L ∅ (∪)) in Hc.
  unfold Setup.getExistingKeys. rewrite completion_bind, trace_bind, Hc.
  cbn [trace completion fst snd mret Eff_ret]. rewrite app_nil_r. done.
Qed.

Lemma getExistingKeys_collects_all_pages_two :
  completion (Setup.getExistingKeys Sample.fresh 2 "kb-documents")
    = Normal {[ "a.md"; "docs/b.md"; "docs/c.md" ]}
  ∧ length (sent (trace (Setup.getExistingKeys Sample.fresh 2 "kb-documents"))) = 2%nat.
Proof.
  destruct (getExistingKeys_collects_all_pages Sample.fresh "kb-documents"
              [Sample.page ["a.md"; "docs/b.md"] (Some "page-2");
               Sample.page ["docs/c.md"] None] 2)
    as (Hkeys & _ & Hsent).
  - cbn. repeat split. exists "page-2". repeat split. discriminate.
  - vm_compute. discriminate.
  - cbn. lia.
  - split; [| exact Hsent]. rewrite Hkeys. vm_compute. reflexivity.
Defined.

(** ** The uploader *)

Lemma putKeys_app (t1 t2 : list Event) : putKeys (t1 ++ t2) = putKeys t1 ++ putKeys t2.
Proof. apply omap_app. Qed.

Lemma replace_backslashes_normal (s : string) :
  Ascii.ascii_of_nat 92 ∉ String.list_ascii_of_string (Setup.replace_backslashes s).
Proof.
  induction s as [| c s IH]; cbn.
  - apply not_elem_of_nil.
  - apply not_elem_of_cons. split; [| exact IH].
    case_bool_decide as Hc; [discriminate | congruence].
Qed.

Section Upload.

Context (aws : Setup.Services) (DOCUMENTS_DIR : string)
        (path_relative : string → string → string) (bucket : string).

Local Notation "'keyOf'" := (Setup.keyOf DOCUMENTS_DIR path_relative).
Local Notation "'uploadLoop'" :=
  (Setup.uploadLoop aws DOCUMENTS_DIR path_relative bucket).

(** With working file reads and uploads the loop runs to its end: it puts
    the keys that are not in [existingKeys], in the order of the files, counts
    every file once, and leaves [existingKeys] as it was. *)
Lemma uploadLoop_run (L : list string) :
  (∀ f, f ∈ L → ∃ body, Setup.readFile aws f = Fulfilled body) →
  (∀ key body, Setup.PutObject aws bucket key body = Fulfilled tt) →
  ∀ st, ∃ st',
    completion (uploadLoop L st) = Normal st'
    ∧ Setup.existingKeys st' = Setup.existingKeys st
    ∧ putKeys (trace (uploadLoop L st))
      = filter (λ k, k ∉ Setup.existingKeys st) (keyOf <$> L)
    ∧ Setup.uploaded st'
      = (Setup.uploaded st + length (putKeys (trace (uploadLoop L st))))%nat
    ∧ (Setup.uploaded st' + Setup.skipped st'
       = Setup.uploaded st + Setup.skipped st + length L)%nat.
Proof.
  intros Hread Hput. induction L as [| f L IH]; intros st.
  - exists st. cbn. repeat split; lia.
  - destruct (Hread f) as [body Hbody]; [left |].
    assert (HreadL : ∀ f, f ∈ L → ∃ body, Setup.readFile aws f = Fulfilled body)
      by (intros; apply Hread; by right).
    specialize (IH HreadL).
    cbn [Setup.uploadLoop]. rewrite fmap_cons, !filter_cons.
    case_bool_decide as Hin.
    + rewrite decide_False by (intros Hn; by apply Hn).
      destruct (IH {| Setup.existingKeys := Setup.existingKeys st;
                      Setup.uploaded := Setup.uploaded st;
                      Setup.skipped := S (Setup.skipped st) |})
        as (st' & Hc & Hk & Hp & Hu & Hs).
      exists st'. cbn in *. repeat split; auto; lia.
    + rewrite decide_True by done.
      destruct (IH {| Setup.existingKeys := Setup.existingKeys st;
                      Setup.uploaded := S (Setup.uploaded st);
                      Setup.skipped := Setup.skipped st |})
        as (st' & Hc & Hk & Hp & Hu & Hs).
      exists st'. unfold call, await. rewrite Hbody.
      unfold mbind, Eff_bind; cbn beta iota; cbn [settle]. rewrite Hput. cbn [settle].
      destruct (uploadLoop L _) as [t c]. cbn in *. repeat split; auto; try lia.
      by rewrite Hp.
Qed.

(** C3. With working file reads and uploads, the keys the upload loop puts
    are, as a set, the normalized relative keys of the local files minus the
    remote key set (as a list: those keys in the order of the files, a key as
    often as files have it); no put key contains a backslash; the loop leaves
    the remote key set as it was; and run again against the remote keys
    joined with the keys it put, the loop puts nothing and skips every file. *)
Theorem uploadLoop_plans_set_difference (L : list string) (R : gset string) :
  (∀ f, f ∈ L → ∃ body, Setup.readFile aws f = Fulfilled body) →
  (∀ key body, Setup.PutObject aws bucket key body = Fulfilled tt) →
  let start R := {| Setup.existingKeys := R; Setup.uploaded := 0; Setup.skipped := 0 |} in
  let plan := putKeys (trace (uploadLoop L (start R))) in
  let R' := R ∪ list_to_set plan in
  (list_to_set plan : gset string) = list_to_set (keyOf <$> L) ∖ R
  ∧ plan = filter (λ k, k ∉ R) (keyOf <$> L)
  ∧ (∀ k, k ∈ plan → Ascii.ascii_of_nat 92 ∉ String.list_ascii_of_string k)
  ∧ (∃ st, completion (uploadLoop L (start R)) = Normal st
           ∧ Setup.existingKeys st = R
           ∧ Setup.uploaded st = length plan
           ∧ (Setup.uploaded st + Setup.skipped st = length L)%nat)
  ∧ putKeys (trace (uploadLoop L (start R'))) = []
  ∧ (∃ st, completion (uploadLoop L (start R')) = Normal st
           ∧ Setup.existingKeys st = R'
           ∧ Setup.uploaded st = 0%nat
           ∧ Setup.skipped st = length L).
Proof.
  intros Hread Hput start plan R'.
  destruct (uploadLoop_run L Hread Hput (start R)) as (st & Hc & Hk & Hp & Hu & Hs).
  cbn [start Setup.existingKeys Setup.uploaded Setup.skipped] in Hk, Hp, Hu, Hs.
  fold plan in Hp, Hu.
  assert (Hplan2 : filter (λ k, k ∉ R') (keyOf <$> L) = []).
  { destruct (filter (λ k, k ∉ R') _) as [| k ks] eqn:Hf; [done |].
    assert (Hin : k ∈ filter (λ k, k ∉ R') (keyOf <$> L)) by (rewrite Hf; left).
    apply list_elem_of_filter in Hin as [Hnot Hk'].
    exfalso. apply Hnot. unfold R'. rewrite Hp.
    destruct (decide (k ∈ R)); [by apply elem_of_union_l |].
    apply elem_of_union_r, elem_of_list_to_set, list_elem_of_filter. done. }
  destruct (uploadLoop_run L Hread Hput (start R')) as (st2 & Hc2 & Hk2 & Hp2 & Hu2 & Hs2).
  cbn [start Setup.existingKeys Setup.uploaded Setup.skipped] in Hk2, Hp2, Hu2, Hs2.
  rewrite Hplan2 in Hp2. rewrite Hp2 in Hu2. cbn in Hu2.
  repeat split.
  - rewrite Hp. apply set_eq. intros k.
    rewrite elem_of_difference, !elem_of_list_to_set, list_elem_of_filter. tauto.
  - exact Hp.
  - intros k Hin. rewrite Hp in Hin.
    apply list_elem_of_filter in Hin as [_ Hin].
    apply list_elem_of_fmap in Hin as (f & -> & _).
    apply replace_backslashes_normal.
  - exists st. repeat split; auto; lia.
  - exact Hp2.
  - exists st2. repeat split; auto; lia.
Qed.

End Upload.

Lemma uploadLoop_plans_set_difference_sample :
  let L := ["C:\kb\documents\a.md"; "C:\kb\documents\docs\d.md"] in
  let R : gset string := {[ "a.md"; "docs/b.md"; "docs/c.md" ]} in
  let loop R := Setup.uploadLoop Sample.fresh "C:\kb\documents" Sample.relative
                  "kb-documents" L
                  {| Setup.existingKeys := R; Setup.uploaded := 0; Setup.skipped := 0 |} in
  putKeys (trace (loop R)) = ["docs/d.md"]
  ∧ putKeys (trace (loop (R ∪ list_to_set (putKeys (trace (loop R)))))) = [].
Proof.
  intros L R loop.
  destruct (uploadLoop_plans_set_difference Sample.fresh "C:\kb\documents"
              Sample.relative "kb-documents" L R)
    as (_ & Hplan & _ & _ & Hrerun & _).
  - intros f _. eexists. reflexivity.
  - reflexivity.
  - split; [| exact Hrerun]. unfold loop. rewrite Hplan. vm_compute. reflexivity.
Defined.

(** The whole of [uploadDocuments] on the sample account: of the two local
    files, [a.md] is listed in the bucket (on the first of its two pages) and
    is skipped, [docs/d.md] is read and put. *)
Example uploadDocuments_sample :
  Setup.uploadDocuments Sample.fresh "/srv/app/documents" Sample.relative 2 "kb-documents"
  = ([Mkdir "/srv/app/documents";
      Walk "/srv/app/documents";
      Send (ListObjectsV2Command "kb-documents" None);
      Send (ListObjectsV2Command "kb-documents" (Some "page-2"));
      SpinnerStart "Uploading 2 files to s3://kb-documents/";
      ReadFile "/srv/app/documents/docs/d.md";
      Send (PutObjectCommand "kb-documents" "docs/d.md" []);
      SpinnerStop "Upload complete. Uploaded: 1, Skipped: 1" 0],
     Normal tt).
Proof. vm_compute. reflexivity. Qed.

(** *** The uploader as a whole *)

Section Uploader.

Context (aws : Setup.Services) (DOCUMENTS_DIR : string)
        (path_relative : string → string → string) (bucket : string).

Local Notation "'keyOf'" := (Setup.keyOf DOCUMENTS_DIR path_relative).
Local Notation "'uploadLoop'" :=
  (Setup.uploadLoop aws DOCUMENTS_DIR path_relative bucket).

(** Whatever the file reads and uploads do, the loop only puts keys of local
    files that are missing from [existingKeys], and a loop that runs to its
    end leaves [existingKeys] as it was. *)
Lemma uploadLoop_puts_missing_only (L : list string) (st : Setup.UploadState) :
  Forall (λ k, (k ∉ Setup.existingKeys st) ∧ (k ∈ (keyOf <$> L)))
         (putKeys (trace (uploadLoop L st)))
  ∧ ∀ st', completion (uploadLoop L st) = Normal st' →
           Setup.existingKeys st' = Setup.existingKeys st.
Proof.
  revert st. induction L as [| f L IH]; intros st.
  - split; [constructor | by intros st' [= <-]].
  - cbn [Setup.uploadLoop]. rewrite fmap_cons.
    case_bool_decide as Hin.
    + destruct (IH {| Setup.existingKeys := Setup.existingKeys st;
                      Setup.uploaded := Setup.uploaded st;
                      Setup.skipped := S (Setup.skipped st) |}) as [IHp IHk].
      split; [| exact IHk].
      eapply Forall_impl; [exact IHp |]. cbn. intros k [? ?]. split; [done | by right].
    + destruct (IH {| Setup.existingKeys := Setup.existingKeys st;
                      Setup.uploaded := S (Setup.uploaded st);
                      Setup.skipped := Setup.skipped st |}) as [IHp IHk].
      unfold call, await.
      destruct (Setup.readFile aws f) as [body | e]; cbn [settle];
        [| split; [constructor | discriminate]].
      unfold mbind, Eff_bind; cbn beta iota.
      destruct (Setup.PutObject aws bucket (keyOf f) body) as [[] | e]; cbn [settle].
      * destruct (uploadLoop L _) as [t c]. cbn in *. split; [| exact IHk].
        constructor; [split; [done | by left] |].
        eapply Forall_impl; [exact IHp |]. cbn. intros k [? ?]. split; [done | by right].
      * cbn. split; [| discriminate].
        constructor; [split; [done | by left] | constructor].
Qed.

Lemma listPages_puts_nothing (fuel : nat) (keys : gset string) (token : option string) :
  putKeys (trace (Setup.listPages aws fuel bucket keys token)) = [].
Proof.
  revert keys token. induction fuel as [| fuel IH]; intros keys token; [done |].
  cbn [Setup.listPages]. unfold call, await.
  destruct (Setup.ListObjectsV2 aws bucket token) as [response | e]; [| done].
  unfold mbind, Eff_bind; cbn beta iota; cbn [settle].
  destruct (truthy _).
  - specialize (IH (Setup.addKeys (Setup.Contents response) keys) (Setup.nextToken response)).
    destruct (Setup.listPages aws fuel bucket _ _) as [t c]. exact IH.
  - reflexivity.
Qed.

Lemma getExistingKeys_puts_nothing (fuel : nat) :
  putKeys (trace (Setup.getExistingKeys aws fuel bucket)) = [].
Proof.
  unfold Setup.getExistingKeys.
  pose proof (listPages_puts_nothing fuel ∅ None) as Hnone.
  destruct (Setup.listPages aws fuel bucket ∅ None) as [t [r | e |]];
    cbn in *; by rewrite ?app_nil_r.
Qed.

(** The objects [uploadDocuments] puts are those its loop puts for the local
    files found and the keys listed; with no local file it puts nothing. *)
Lemma uploadDocuments_puts (fuel : nat) (L : list string) (R : gset string) :
  Setup.localDocumentFiles aws = Fulfilled L →
  completion (Setup.getExistingKeys aws fuel bucket) = Normal R →
  Setup.mkdir aws DOCUMENTS_DIR = Fulfilled tt →
  putKeys (trace (Setup.uploadDocuments aws DOCUMENTS_DIR path_relative fuel bucket))
  = if bool_decide (L = []) then []
    else putKeys (trace (uploadLoop L {| Setup.existingKeys := R;
                                         Setup.uploaded := 0; Setup.skipped := 0 |})).
Proof.
  intros Hfiles Hkeys Hmkdir.
  unfold Setup.uploadDocuments, Setup.ensureDocumentsDir, Setup.getLocalDocumentFiles,
    call, await.
  rewrite Hmkdir, Hfiles. unfold mbind at 1 2, Eff_bind at 1 2; cbn beta iota; cbn [settle].
  destruct L as [| f L]; [reflexivity |].
  rewrite !bool_decide_eq_false_2 by done.
  pose proof (getExistingKeys_puts_nothing fuel) as Hlist.
  destruct (Setup.getExistingKeys aws fuel bucket) as [t c].
  cbn [trace completion fst snd] in Hkeys, Hlist. subst c.
  unfold mbind, Eff_bind; cbn beta iota.
  destruct (uploadLoop (f :: L) _) as [t' [st | e |]]; cbv [emit trace fst];
    rewrite ?putKeys_app, Hlist; cbn; by rewrite ?app_nil_r.
Qed.

End Uploader.

(** ** The retrieval tool *)

Lemma or_else_Some_empty (text : string) : or_else (Some text) "" = text.
Proof.
  unfold or_else, truthy. case_bool_decide as H; cbn; [by subst | done].
Qed.

Lemma passage_text (result : Chat.QueryOutputVector) (text : string) :
  Chat.metadata result ≫= (.!! "AMAZON_BEDROCK_TEXT") = Some text →
  Chat.passage result = text.
Proof. unfold Chat.passage. intros ->. apply or_else_Some_empty. Qed.

Lemma passage_missing (result : Chat.QueryOutputVector) :
  Chat.metadata result ≫= (.!! "AMAZON_BEDROCK_TEXT") = None →
  Chat.passage result = "".
Proof. unfold Chat.passage. by intros ->. Qed.

Lemma passages_texts (results : list Chat.QueryOutputVector) (texts : list string) :
  Forall2 (λ result text,
             Chat.metadata result ≫= (.!! "AMAZON_BEDROCK_TEXT") = Some text)
          results texts →
  Chat.passage <$> results = texts.
Proof.
  induction 1 as [| result text results texts Htext _ IH]; [done |].
  rewrite fmap_cons, (passage_text _ _ Htext). by f_equal.
Qed.

Section Retrieval.

Context (env : Chat.ProcessEnv) (aws : Chat.Services) (question : string).

Local Notation "'modelId'" :=
  (or_else (Chat.EMBEDDING_MODEL env) "amazon.titan-embed-text-v2:0").

(** What [findRelevantContent] does once the index is configured and both
    calls succeed. *)
Lemma findRelevantContent_answered indexArn embedding response :
  Chat.S3_VECTORS_INDEX_ARN env = Some indexArn → indexArn ≠ "" →
  Chat.InvokeModel aws modelId question = Fulfilled embedding →
  Chat.QueryVectors aws indexArn embedding = Fulfilled response →
  Chat.findRelevantContent env aws question =
    ([Send (InvokeModelCommand modelId question);
      Send (QueryCommand indexArn embedding 5 true true)],
     Normal (join Chat.separator (Chat.passage <$> default [] (Chat.vectors response)))).
Proof.
  intros Harn Hne Hembed Hquery.
  unfold Chat.findRelevantContent, Chat.generateEmbedding, call, await.
  rewrite Harn. cbn [truthy]. rewrite bool_decide_eq_false_2 by done. cbn [negb default from_option id].
  rewrite Hembed. unfold mbind, Eff_bind; cbn beta iota; cbn [settle].
  rewrite Hquery. reflexivity.
Qed.

(** C8. With the index configured and both calls answered, when every
    returned vector carries a text under [AMAZON_BEDROCK_TEXT], the tool
    returns these texts joined by the separator -- two line feeds, three
    hyphens, two line feeds: the characters 10, 10, 45, 45, 45, 10, 10 -- in
    the order of the query result; the query it sent asks for the 5 nearest
    vectors. For 5 vectors that is [t1 sep t2 sep t3 sep t4 sep t5]. *)
Theorem getInformation_joins_passages
    (indexArn : string) (embedding : Embedding)
    (results : list Chat.QueryOutputVector) (texts : list string) :
  Chat.S3_VECTORS_INDEX_ARN env = Some indexArn → indexArn ≠ "" →
  Chat.InvokeModel aws modelId question = Fulfilled embedding →
  Chat.QueryVectors aws indexArn embedding
    = Fulfilled {| Chat.vectors := Some results |} →
  Forall2 (λ result text,
             Chat.metadata result ≫= (.!! "AMAZON_BEDROCK_TEXT") = Some text)
          results texts →
  let nl := Ascii.ascii_of_nat 10 in
  let sep := String nl (String nl ("---" +:+ String nl (String nl ""))) in
  Chat.getInformation env aws question =
    ([Send (InvokeModelCommand modelId question);
      Send (QueryCommand indexArn embedding 5 true true)],
     Normal (join sep texts))
  ∧ ∀ t1 t2 t3 t4 t5, texts = [t1; t2; t3; t4; t5] →
      join sep texts
      = t1 +:+ sep +:+ t2 +:+ sep +:+ t3 +:+ sep +:+ t4 +:+ sep +:+ t5.
Proof.
  intros Harn Hne Hembed Hquery Htexts nl sep. split.
  - unfold Chat.getInformation.
    rewrite (findRelevantContent_answered indexArn embedding _ Harn Hne Hembed Hquery).
    cbn [Chat.vectors default from_option id].
    by rewrite (passages_texts _ _ Htexts).
  - intros t1 t2 t3 t4 t5 ->. reflexivity.
Qed.

(** C9. [findRelevantContent] always returns a string. Without a (non-empty)
    index ARN it returns the empty string after a warning, sending nothing;
    when the embedding call or the similarity query throws, the error is
    logged and the empty string returned. *)
Theorem findRelevantContent_never_throws :
  (∃ content, completion (Chat.findRelevantContent env aws question) = Normal content)
  ∧ (truthy (Chat.S3_VECTORS_INDEX_ARN env) = false →
     Chat.findRelevantContent env aws question =
       ([ConsoleWarn "S3 Vectors configuration missing, skipping RAG"], Normal ""))
  ∧ (∀ indexArn error,
       Chat.S3_VECTORS_INDEX_ARN env = Some indexArn → indexArn ≠ "" →
       Chat.InvokeModel aws modelId question = Rejected error →
       Chat.findRelevantContent env aws question =
         ([Send (InvokeModelCommand modelId question);
           ConsoleError "Error retrieving context from S3 Vectors:" error],
          Normal ""))
  ∧ (∀ indexArn embedding error,
       Chat.S3_VECTORS_INDEX_ARN env = Some indexArn → indexArn ≠ "" →
       Chat.InvokeModel aws modelId question = Fulfilled embedding →
       Chat.QueryVectors aws indexArn embedding = Rejected error →
       Chat.findRelevantContent env aws question =
         ([Send (InvokeModelCommand modelId question);
           Send (QueryCommand indexArn embedding 5 true true);
           ConsoleError "Error retrieving context from S3 Vectors:" error],
          Normal "")).
Proof.
  split; [| split; [| split]].
  - unfold Chat.findRelevantContent, Chat.generateEmbedding, call, await.
    destruct (truthy (Chat.S3_VECTORS_INDEX_ARN env)); cbn [negb]; [| by eexists].
    destruct (Chat.InvokeModel aws _ question) as [embedding | e]; [| by eexists].
    unfold mbind, Eff_bind; cbn beta iota; cbn [settle].
    destruct (Chat.QueryVectors aws _ embedding) as [response | e]; by eexists.
  - intros Hfalsy. unfold Chat.findRelevantContent. by rewrite Hfalsy.
  - intros indexArn error Harn Hne Hembed.
    unfold Chat.findRelevantContent, Chat.generateEmbedding, call, await.
    rewrite Harn. cbn [truthy]. rewrite bool_decide_eq_false_2 by done.
    cbn [negb]. rewrite Hembed. reflexivity.
  - intros indexArn embedding error Harn Hne Hembed Hquery.
    unfold Chat.findRelevantContent, Chat.generateEmbedding, call, await.
    rewrite Harn. cbn [truthy]. rewrite bool_decide_eq_false_2 by done.
    cbn [negb default from_option id]. rewrite Hembed.
    unfold mbind, Eff_bind; cbn beta iota; cbn [settle].
    rewrite Hquery. reflexivity.
Qed.

End Retrieval.

Lemma getInformation_joins_passages_five :
  completion
    (Chat.getInformation Sample.chatEnv
       (Sample.retrieval
          (Some [Sample.withText "alpha"; Sample.withText "beta"; Sample.withText "gamma";
                 Sample.withText "delta"; Sample.withText "epsilon"]))
       "What is stored in the index?")
  = let nl := Ascii.ascii_of_nat 10 in
    Normal ("alpha" +:+ String nl (String nl "---") +:+ String nl (String nl "beta")
            +:+ String nl (String nl "---") +:+ String nl (String nl "gamma")
            +:+ String nl (String nl "---") +:+ String nl (String nl "delta")
            +:+ String nl (String nl "---") +:+ String nl (String nl "epsilon")).
Proof.
  destruct (getInformation_joins_passages Sample.chatEnv
              (Sample.retrieval
                 (Some [Sample.withText "alpha"; Sample.withText "beta";
                        Sample.withText "gamma"; Sample.withText "delta";
                        Sample.withText "epsilon"]))
              "What is stored in the index?"
              "arn:aws:s3vectors:us-east-1:123456789012:bucket/kb-vectors/index/kb-index"
              Sample.queryEmbedding
              [Sample.withText "alpha"; Sample.withText "beta"; Sample.withText "gamma";
               Sample.withText "delta"; Sample.withText "epsilon"]
              ["alpha"; "beta"; "gamma"; "delta"; "epsilon"])
    as [Hrun Hfive].
  - reflexivity.
  - discriminate.
  - reflexivity.
  - reflexivity.
  - repeat constructor.
  - rewrite Hrun. cbn [completion snd]. rewrite (Hfive _ _ _ _ _ eq_refl). reflexivity.
Defined.

Lemma findRelevantContent_never_throws_samples :
  Chat.findRelevantContent Sample.unconfigured (Sample.retrieval None) "Who wrote this?"
    = ([ConsoleWarn "S3 Vectors configuration missing, skipping RAG"], Normal "")
  ∧ completion (Chat.findRelevantContent Sample.chatEnv Sample.noEmbedding "Who wrote this?")
    = Normal ""
  ∧ completion (Chat.findRelevantContent Sample.chatEnv Sample.noIndex "Who wrote this?")
    = Normal "".
Proof.
  split; [| split].
  - apply (findRelevantContent_never_throws Sample.unconfigured (Sample.retrieval None)
             "Who wrote this?").
    reflexivity.
  - destruct (findRelevantContent_never_throws Sample.chatEnv Sample.noEmbedding
                "Who wrote this?") as (_ & _ & Hembed & _).
    rewrite (Hembed _ Sample.unavailable eq_refl); [reflexivity | discriminate | reflexivity].
  - destruct (findRelevantContent_never_throws Sample.chatEnv Sample.noIndex
                "Who wrote this?") as (_ & _ & _ & Hquery).
    rewrite (Hquery _ Sample.queryEmbedding Sample.unavailable eq_refl);
      [reflexivity | discriminate | reflexivity | reflexivity].
Defined.

(** *** Splitting the output at the separator *)

Lemma append_cons (c : Ascii.ascii) (s1 s2 : string) :
  String c s1 +:+ s2 = String c (s1 +:+ s2).
Proof. reflexivity. Qed.

Lemma append_empty_r (s : string) : s +:+ "" = s.
Proof. induction s as [| c s IH]; [done |]. by rewrite append_cons, IH. Qed.

Lemma append_assoc (s1 s2 s3 : string) : (s1 +:+ s2) +:+ s3 = s1 +:+ s2 +:+ s3.
Proof. induction s1 as [| c s1 IH]; [done |]. by rewrite !append_cons, IH. Qed.

Lemma prefix_cons (a b : Ascii.ascii) (s1 s2 : string) :
  String.prefix (String a s1) (String b s2)
  = if Ascii.ascii_dec a b then String.prefix s1 s2 else false.
Proof. reflexivity. Qed.

Lemma prefix_inv (s1 s2 : string) :
  String.prefix s1 s2 = true → ∃ tail, s2 = s1 +:+ tail.
Proof.
  revert s2. induction s1 as [| a s1 IH]; intros s2.
  - by exists s2.
  - destruct s2 as [| b s2]; [discriminate |].
    rewrite prefix_cons.
    destruct (Ascii.ascii_dec a b) as [-> | _]; [| discriminate].
    intros H. destruct (IH _ H) as [tail ->]. by exists tail.
Qed.

Lemma includes_cons (needle : string) (c : Ascii.ascii) (s : string) :
  includes needle (String c s) = false →
  String.prefix needle (String c s) = false ∧ includes needle s = false.
Proof. cbn [includes]. apply orb_false_elim. Qed.

(** An occurrence of the separator holds three hyphens in a row. *)
Lemma separator_includes_rule (s : string) :
  String.prefix Chat.separator s = true → includes "---" s = true.
Proof. intros H. apply prefix_inv in H as [tail ->]. reflexivity. Qed.

(** In a passage without three hyphens in a row that is followed by the
    separator, no occurrence of the separator starts inside the passage. *)
Lemma separator_not_within (c : Ascii.ascii) (p rest : string) :
  includes "---" (String c p) = false →
  String.prefix Chat.separator (String c p +:+ Chat.separator +:+ rest) = false.
Proof.
  intros Hrule.
  destruct (String.prefix _ _) eqn:Hprefix; [exfalso | reflexivity].
  apply prefix_inv in Hprefix as [tail Htail].
  change (Chat.separator +:+ tail)
    with (String (Ascii.ascii_of_nat 10) (String (Ascii.ascii_of_nat 10)
            ("---" +:+ String (Ascii.ascii_of_nat 10)
                         (String (Ascii.ascii_of_nat 10) tail)))) in Htail.
  change (Chat.separator +:+ rest)
    with (String (Ascii.ascii_of_nat 10) (String (Ascii.ascii_of_nat 10)
            ("---" +:+ String (Ascii.ascii_of_nat 10)
                         (String (Ascii.ascii_of_nat 10) rest)))) in Htail.
  destruct p as [| c1 [| c2 [| c3 [| c4 p]]]];
    cbv [String.append] in Htail; try discriminate Htail.
  injection Htail as -> -> -> -> -> _.
  destruct p; vm_compute in Hrule; discriminate Hrule.
Qed.

Lemma prefix_append (s tail : string) : String.prefix s (s +:+ tail) = true.
Proof.
  induction s as [| c s IH]; [by destruct tail |].
  rewrite append_cons, prefix_cons. by destruct (Ascii.ascii_dec c c).
Qed.

(** Reading a passage without three hyphens in a row that is followed by the
    separator: the segment ends where the passage ends, and reading goes on
    behind the separator. *)
Lemma split_from_part (p : string) :
  includes "---" p = false →
  ∀ segment rest,
    split_from Chat.separator 0 segment (p +:+ Chat.separator +:+ rest)
    = (segment +:+ p) :: split_from Chat.separator 0 "" rest.
Proof.
  induction p as [| c p IH]; intros Hrule segment rest.
  - rewrite append_empty_r. change ("" +:+ ?s) with s.
    change (Chat.separator +:+ rest)
      with (String (Ascii.ascii_of_nat 10)
              (String (Ascii.ascii_of_nat 10)
                 ("---" +:+ String (Ascii.ascii_of_nat 10)
                              (String (Ascii.ascii_of_nat 10) rest)))) at 1.
    cbn [split_from].
    change (String (Ascii.ascii_of_nat 10)
              (String (Ascii.ascii_of_nat 10)
                 ("---" +:+ String (Ascii.ascii_of_nat 10)
                              (String (Ascii.ascii_of_nat 10) rest))))
      with (Chat.separator +:+ rest).
    rewrite prefix_append. reflexivity.
  - pose proof (separator_not_within c p rest Hrule) as Hnot.
    apply includes_cons in Hrule as [_ Hrule].
    rewrite append_cons in *. cbn [split_from]. rewrite Hnot.
    rewrite (IH Hrule). f_equal.
    rewrite append_assoc. reflexivity.
Qed.

Lemma split_from_last (p : string) :
  includes "---" p = false →
  ∀ segment, split_from Chat.separator 0 segment p = [segment +:+ p].
Proof.
  induction p as [| c p IH]; intros Hrule segment.
  - by rewrite append_empty_r.
  - cbn [split_from].
    destruct (String.prefix Chat.separator (String c p)) eqn:Hprefix.
    + apply separator_includes_rule in Hprefix. congruence.
    + apply includes_cons in Hrule as [_ Hrule].
      rewrite (IH Hrule). f_equal. rewrite append_assoc. reflexivity.
Qed.

(** Splitting the join of passages without three hyphens in a row gives the
    passages back. *)
Lemma split_join (parts : list string) :
  parts ≠ [] →
  Forall (λ p, includes "---" p = false) parts →
  split Chat.separator (join Chat.separator parts) = parts.
Proof.
  intros Hne Hparts. unfold split.
  induction Hparts as [| p parts Hp Hparts IH]; [done |].
  destruct parts as [| q parts].
  - cbn [join]. by rewrite split_from_last.
  - change (join Chat.separator (p :: q :: parts))
      with (p +:+ Chat.separator +:+ join Chat.separator (q :: parts)).
    rewrite split_from_part by done. f_equal. by apply IH.
Qed.

(** C10, counterexample. One returned vector whose text is a Markdown
    passage with a thematic break: the output is that passage, and it splits
    into two segments at the separator. No returned vector: the output is the
    empty string, which is one (empty) segment. *)
Lemma findRelevantContent_segments_differ :
  completion (Chat.findRelevantContent Sample.chatEnv
                (Sample.retrieval (Some [Sample.withText Sample.markdownPassage]))
                "How do I set it up?")
    = Normal Sample.markdownPassage
  ∧ segments Chat.separator Sample.markdownPassage = 2%nat
  ∧ completion (Chat.findRelevantContent Sample.chatEnv (Sample.retrieval (Some []))
                  "How do I set it up?")
    = Normal ""
  ∧ segments Chat.separator "" = 1%nat.
Proof. vm_compute. repeat split. Qed.

(** C10, as amended. A vector without metadata, or whose metadata has no
    [AMAZON_BEDROCK_TEXT], contributes the empty string. With the index
    configured and the calls answered, the output is the join, by the
    separator, of one such string per returned vector, in order. Splitting
    the output at the separator gives these strings back, so as many segments
    as vectors, when at least one vector was returned and no passage has three
    hyphens in a row. An absent [vectors] array gives the empty string. *)
Theorem findRelevantContent_passage_per_vector
    (env : Chat.ProcessEnv) (aws : Chat.Services) (question indexArn : string)
    (embedding : Embedding) :
  Chat.S3_VECTORS_INDEX_ARN env = Some indexArn → indexArn ≠ "" →
  Chat.InvokeModel aws (or_else (Chat.EMBEDDING_MODEL env) "amazon.titan-embed-text-v2:0")
    question = Fulfilled embedding →
  (∀ result, Chat.metadata result = None → Chat.passage result = "")
  ∧ (∀ result m, Chat.metadata result = Some m → m !! "AMAZON_BEDROCK_TEXT" = None →
       Chat.passage result = "")
  ∧ (∀ results,
       Chat.QueryVectors aws indexArn embedding
         = Fulfilled {| Chat.vectors := Some results |} →
       let content := join Chat.separator (Chat.passage <$> results) in
       completion (Chat.findRelevantContent env aws question) = Normal content
       ∧ length (Chat.passage <$> results) = length results
       ∧ (results ≠ [] →
          Forall (λ result, includes "---" (Chat.passage result) = false) results →
          split Chat.separator content = Chat.passage <$> results
          ∧ segments Chat.separator content = length results))
  ∧ (Chat.QueryVectors aws indexArn embedding = Fulfilled {| Chat.vectors := None |} →
     completion (Chat.findRelevantContent env aws question) = Normal "").
Proof.
  intros Harn Hne Hembed. split; [| split; [| split]].
  - intros result Hmeta. apply passage_missing. by rewrite Hmeta.
  - intros result m Hmeta Htext. apply passage_missing. by rewrite Hmeta.
  - intros results Hquery content.
    rewrite (findRelevantContent_answered env aws question indexArn embedding _
               Harn Hne Hembed Hquery).
    split; [reflexivity |]. split; [apply length_fmap |].
    intros Hresults Hrule.
    assert (Hsplit : split Chat.separator content = Chat.passage <$> results).
    { apply split_join.
      - by destruct results.
      - by apply Forall_fmap. }
    split; [exact Hsplit |].
    unfold segments. by rewrite Hsplit, length_fmap.
  - intros Hquery.
    by rewrite (findRelevantContent_answered env aws question indexArn embedding _
                  Harn Hne Hembed Hquery).
Qed.

Lemma findRelevantContent_passage_per_vector_sample :
  completion (Chat.findRelevantContent Sample.chatEnv
                (Sample.retrieval
                   (Some [Sample.withText "alpha"; Sample.withoutText;
                          Sample.withoutMetadata; Sample.withText "omega"]))
                "What is stored in the index?")
    = Normal ("alpha" +:+ Chat.separator +:+ "" +:+ Chat.separator +:+ ""
              +:+ Chat.separator +:+ "omega")
  ∧ segments Chat.separator
      ("alpha" +:+ Chat.separator +:+ "" +:+ Chat.separator +:+ ""
       +:+ Chat.separator +:+ "omega") = 4%nat
  ∧ completion (Chat.findRelevantContent Sample.chatEnv (Sample.retrieval None)
                  "What is stored in the index?")
    = Normal "".
Proof.
  destruct (findRelevantContent_passage_per_vector Sample.chatEnv
              (Sample.retrieval
                 (Some [Sample.withText "alpha"; Sample.withoutText;
                        Sample.withoutMetadata; Sample.withText "omega"]))
              "What is stored in the index?"
              "arn:aws:s3vectors:us-east-1:123456789012:bucket/kb-vectors/index/kb-index"
              Sample.queryEmbedding eq_refl)
    as (_ & _ & Hsome & _); [discriminate | reflexivity |].
  destruct (Hsome _ eq_refl) as (Hcontent & _ & Hsegments).
  destruct Hsegments as [_ Hcount]; [discriminate | by repeat constructor |].
  split; [exact Hcontent |]. split; [exact Hcount |].
  destruct (findRelevantContent_passage_per_vector Sample.chatEnv (Sample.retrieval None)
              "What is stored in the index?"
              "arn:aws:s3vectors:us-east-1:123456789012:bucket/kb-vectors/index/kb-index"
              Sample.queryEmbedding eq_refl)
    as (_ & _ & _ & Hnone); [discriminate | reflexivity |].
  exact (Hnone eq_refl).
Defined.

(** * Further properties *)

(** ** The activation poller, for every sequence of answers *)

Section PollerVerdict.

Context (aws : Setup.Services) (id : string).

(** A pass before the last one: it returns on ACTIVE, and on anything else
    (another status, FAILED, a rejected query) sleeps and goes on. *)
Lemma pollOnce_early polls attempts :
  (attempts < Setup.maxAttempts - 1)%nat →
  (answers aws id polls (Some "ACTIVE")
   ∧ completion (Setup.pollOnce aws id polls attempts) = Normal Setup.Returned
   ∧ checks (trace (Setup.pollOnce aws id polls attempts)) = 1%nat
   ∧ sleeps (trace (Setup.pollOnce aws id polls attempts)) = [])
  ∨ (¬ answers aws id polls (Some "ACTIVE")
     ∧ completion (Setup.pollOnce aws id polls attempts) = Normal (Setup.Next (S attempts))
     ∧ checks (trace (Setup.pollOnce aws id polls attempts)) = 1%nat
     ∧ sleeps (trace (Setup.pollOnce aws id polls attempts)) = [10000%Z]).
Proof.
  intros Hlt. unfold answers, Setup.pollOnce, call, await.
  destruct (Setup.GetKnowledgeBase aws polls id) as [response | e]; cbn.
  - case_bool_decide as Hactive; cbn.
    + left. split; [by exists response | done].
    + right. split; [intros (r & [= <-] & Hst); done |].
      case_bool_decide as Hfailed; cbn; [| done].
      by rewrite bool_decide_eq_false_2 by (unfold Setup.maxAttempts in *; lia).
  - right. split; [intros (r & Hr & _); discriminate |].
    by rewrite bool_decide_eq_false_2 by (unfold Setup.maxAttempts in *; lia).
Qed.

(** The last pass: ACTIVE returns, anything else ends the function with
    [lastError] of the answer. *)
Lemma pollLoop_last_pass fuel polls :
  (answers aws id polls (Some "ACTIVE")
   ∧ completion (Setup.pollLoop aws (S fuel) id polls (Setup.maxAttempts - 1)) = Normal tt
   ∧ checks (trace (Setup.pollLoop aws (S fuel) id polls (Setup.maxAttempts - 1))) = 1%nat)
  ∨ (¬ answers aws id polls (Some "ACTIVE")
     ∧ completion (Setup.pollLoop aws (S fuel) id polls (Setup.maxAttempts - 1))
       = Thrown (lastError (Setup.GetKnowledgeBase aws polls id))
     ∧ checks (trace (Setup.pollLoop aws (S fuel) id polls (Setup.maxAttempts - 1))) = 1%nat).
Proof.
  rewrite pollLoop_step by (unfold Setup.maxAttempts; lia).
  unfold answers, lastError, Setup.pollOnce, call, await.
  destruct (Setup.GetKnowledgeBase aws polls id) as [response | e]; cbn.
  - case_bool_decide as Hactive; cbn.
    + left. split; [by exists response | done].
    + right. split; [intros (r & [= <-] & Hst); done |].
      case_bool_decide as Hfailed; cbn; [done |].
      rewrite pollLoop_exhausted by (unfold Setup.maxAttempts; lia). done.
  - right. split; [intros (r & Hr & _); discriminate | done].
Qed.

Lemma pollLoop_early_pass fuel polls attempts :
  (attempts < Setup.maxAttempts - 1)%nat →
  (answers aws id polls (Some "ACTIVE")
   ∧ completion (Setup.pollLoop aws (S fuel) id polls attempts) = Normal tt
   ∧ checks (trace (Setup.pollLoop aws (S fuel) id polls attempts)) = 1%nat
   ∧ sleeps (trace (Setup.pollLoop aws (S fuel) id polls attempts)) = [])
  ∨ (¬ answers aws id polls (Some "ACTIVE")
     ∧ completion (Setup.pollLoop aws (S fuel) id polls attempts)
       = completion (Setup.pollLoop aws fuel id (S polls) (S attempts))
     ∧ checks (trace (Setup.pollLoop aws (S fuel) id polls attempts))
       = S (checks (trace (Setup.pollLoop aws fuel id (S polls) (S attempts))))
     ∧ sleeps (trace (Setup.pollLoop aws (S fuel) id polls attempts))
       = 10000%Z :: sleeps (trace (Setup.pollLoop aws fuel id (S polls) (S attempts)))).
Proof.
  intros Hlt. rewrite pollLoop_step by (unfold Setup.maxAttempts in *; lia).
  rewrite completion_bind, trace_bind.
  destruct (pollOnce_early polls attempts Hlt)
    as [(Ha & Hc & Hn & Hs) | (Ha & Hc & Hn & Hs)]; rewrite Hc.
  - left. cbn [trace completion fst snd mret Eff_ret]. rewrite app_nil_r. done.
  - right. rewrite checks_app, sleeps_app, Hn, Hs. done.
Qed.

(** From pass [k] on (with [attempts = k] queries made), the loop returns when
    one of the queries up to the 30th reports ACTIVE, after the first such
    query. *)
Lemma pollLoop_first_ACTIVE gap :
  ∀ k fuel n,
    (k + gap = n)%nat → (n < Setup.maxAttempts)%nat →
    answers aws id n (Some "ACTIVE") →
    (∀ m, (k ≤ m < n)%nat → ¬ answers aws id m (Some "ACTIVE")) →
    (Setup.maxAttempts - k ≤ fuel)%nat →
    completion (Setup.pollLoop aws fuel id k k) = Normal tt
    ∧ checks (trace (Setup.pollLoop aws fuel id k k)) = S gap
    ∧ sleeps (trace (Setup.pollLoop aws fuel id k k)) = replicate gap 10000%Z.
Proof.
  induction gap as [| gap IH]; intros k fuel n Hk Hn Hactive Hfirst Hfuel;
    (destruct fuel as [| fuel]; [unfold Setup.maxAttempts in *; lia |]).
  - assert (k = n) as -> by lia.
    destruct (decide (n = Setup.maxAttempts - 1)%nat) as [-> | Hne].
    + destruct (pollLoop_last_pass fuel (Setup.maxAttempts - 1))
        as [(_ & Hc & Hch) | (Hnot & _)]; [| done].
      split; [done |]. split; [done |].
      (* the last pass that returns does not sleep *)
      revert Hc. rewrite pollLoop_step by (unfold Setup.maxAttempts; lia).
      rewrite completion_bind, trace_bind.
      rewrite (pollOnce_active aws id _ _ Hactive). done.
    + destruct (pollLoop_early_pass fuel n n)
        as [(_ & Hc & Hch & Hs) | (Hnot & _)]; [unfold Setup.maxAttempts in *; lia | | done].
      done.
  - assert (Hlt : (k < Setup.maxAttempts - 1)%nat) by (unfold Setup.maxAttempts in *; lia).
    destruct (pollLoop_early_pass fuel k k Hlt)
      as [(Ha & _) | (_ & Hc & Hch & Hs)].
    + exfalso. apply (Hfirst k); [lia | done].
    + destruct (IH (S k) fuel n) as (IHc & IHch & IHs); try done;
        try (unfold Setup.maxAttempts in *; lia).
      { intros m Hm. apply Hfirst. lia. }
      rewrite Hc, Hch, Hs, IHc, IHch, IHs. done.
Qed.

(** Without ACTIVE among the queries up to the 30th, the loop makes them all
    and ends with [lastError] of the 30th answer. *)
Lemma pollLoop_no_ACTIVE gap :
  ∀ k fuel,
    (k + gap = Setup.maxAttempts - 1)%nat →
    (∀ m, (k ≤ m < Setup.maxAttempts)%nat → ¬ answers aws id m (Some "ACTIVE")) →
    (Setup.maxAttempts - k ≤ fuel)%nat →
    completion (Setup.pollLoop aws fuel id k k)
      = Thrown (lastError (Setup.GetKnowledgeBase aws (Setup.maxAttempts - 1) id))
    ∧ checks (trace (Setup.pollLoop aws fuel id k k)) = S gap.
Proof.
  induction gap as [| gap IH]; intros k fuel Hk Hnone Hfuel;
    (destruct fuel as [| fuel]; [unfold Setup.maxAttempts in *; lia |]).
  - assert (k = Setup.maxAttempts - 1)%nat as -> by lia.
    destruct (pollLoop_last_pass fuel (Setup.maxAttempts - 1))
      as [(Ha & _) | (_ & Hc & Hch)]; [| done].
    exfalso. apply (Hnone (Setup.maxAttempts - 1)%nat); [unfold Setup.maxAttempts; lia | done].
  - assert (Hlt : (k < Setup.maxAttempts - 1)%nat) by (unfold Setup.maxAttempts in *; lia).
    destruct (pollLoop_early_pass fuel k k Hlt)
      as [(Ha & _) | (_ & Hc & Hch & _)].
    + exfalso. apply (Hnone k); [unfold Setup.maxAttempts in *; lia | done].
    + destruct (IH (S k) fuel) as (IHc & IHch);
        try (unfold Setup.maxAttempts in *; lia).
      { intros m Hm. apply Hnone. lia. }
      rewrite Hc, Hch, IHc, IHch. done.
Qed.

End PollerVerdict.

Section PollerTheorems.

Context (aws : Setup.Services) (id : string).

Lemma answers_ACTIVE_dec (n : nat) :
  {answers aws id n (Some "ACTIVE")} + {¬ answers aws id n (Some "ACTIVE")}.
Proof.
  unfold answers.
  destruct (Setup.GetKnowledgeBase aws n id) as [response | e].
  - destruct (decide (Setup.knowledgeBase response ≫= Setup.status = Some "ACTIVE")).
    + left. by exists response.
    + right. by intros (r & [= <-] & Hst).
  - right. intros (r & Hr & _). discriminate.
Qed.

Lemma search_ACTIVE (b : nat) :
  (∃ n0, (n0 < b)%nat ∧ answers aws id n0 (Some "ACTIVE")
         ∧ ∀ m, (m < n0)%nat → ¬ answers aws id m (Some "ACTIVE"))
  ∨ (∀ m, (m < b)%nat → ¬ answers aws id m (Some "ACTIVE")).
Proof.
  induction b as [| b [(n0 & Hlt & Ha & Hleast) | Hnone]].
  - right. intros m Hm. lia.
  - left. exists n0. split; [lia | done].
  - destruct (answers_ACTIVE_dec b) as [Hb | Hb].
    + left. exists b. split; [lia | done].
    + right. intros m Hm. destruct (decide (m = b)) as [-> | ?]; [done |].
      apply Hnone. lia.
Qed.

Lemma waitForKnowledgeBase_returned_saw_ACTIVE :
  completion (Setup.waitForKnowledgeBase aws id) = Normal tt →
  ∃ n, (n < 30)%nat ∧ answers aws id n (Some "ACTIVE").
Proof.
  rewrite waitForKnowledgeBase_unfold. cbn [completion snd].
  destruct (search_ACTIVE 30) as [(n0 & Hlt & Ha & Hleast) | Hnone].
  - intros _. by exists n0.
  - destruct (pollLoop_no_ACTIVE aws id 29 0 Setup.maxAttempts) as [Hc _];
      try (unfold Setup.maxAttempts; lia).
    { intros m Hm. apply Hnone. unfold Setup.maxAttempts in Hm. lia. }
    rewrite Hc. discriminate.
Qed.

(** X1. When the first of the status queries answered ACTIVE is query [n] (counting
    from 0, below 30), [waitForKnowledgeBase] returns having sent exactly
    [n + 1] queries and slept 10 seconds exactly [n] times, whatever the
    earlier queries gave: other statuses, FAILED, or rejections. *)
Theorem waitForKnowledgeBase_stops_at_first_ACTIVE (n : nat) :
  (n < 30)%nat →
  answers aws id n (Some "ACTIVE") →
  (∀ m, (m < n)%nat → ¬ answers aws id m (Some "ACTIVE")) →
  completion (Setup.waitForKnowledgeBase aws id) = Normal tt
  ∧ checks (trace (Setup.waitForKnowledgeBase aws id)) = S n
  ∧ sleeps (trace (Setup.waitForKnowledgeBase aws id)) = replicate n 10000%Z.
Proof.
  intros Hn Hactive Hfirst. rewrite waitForKnowledgeBase_unfold.
  destruct (pollLoop_first_ACTIVE aws id n 0 Setup.maxAttempts n) as (Hc & Hch & Hs);
    try done; try (unfold Setup.maxAttempts; lia).
  intros m Hm. apply Hfirst. lia.
Qed.

(** X2. [waitForKnowledgeBase] returns normally exactly when one of the first 30
    status queries is answered ACTIVE. *)
Theorem waitForKnowledgeBase_returns_iff_ACTIVE :
  completion (Setup.waitForKnowledgeBase aws id) = Normal tt
  ↔ ∃ n, (n < 30)%nat ∧ answers aws id n (Some "ACTIVE").
Proof.
  rewrite waitForKnowledgeBase_unfold. cbn [completion snd].
  destruct (search_ACTIVE 30) as [(n0 & Hlt & Ha & Hleast) | Hnone].
  - destruct (pollLoop_first_ACTIVE aws id n0 0 Setup.maxAttempts n0) as (Hc & _);
      try done; try (unfold Setup.maxAttempts; lia).
    { intros m Hm. apply Hleast. lia. }
    split; [intros _; by exists n0 | done].
  - destruct (pollLoop_no_ACTIVE aws id 29 0 Setup.maxAttempts) as [Hc _];
      try (unfold Setup.maxAttempts; lia).
    { intros m Hm. apply Hnone. unfold Setup.maxAttempts in Hm. lia. }
    rewrite Hc. split; [discriminate |].
    intros (n & Hn & Ha). by destruct (Hnone n Hn).
Qed.

(** X3. Without ACTIVE among the first 30 answers, [waitForKnowledgeBase] makes all
    30 queries and throws, and what it throws is decided by the 30th answer
    alone: the error of the rejected query, the creation-failed error when it
    reports FAILED, the timeout error otherwise. *)
Theorem waitForKnowledgeBase_throws_by_last_answer :
  (∀ n, (n < 30)%nat → ¬ answers aws id n (Some "ACTIVE")) →
  completion (Setup.waitForKnowledgeBase aws id)
    = Thrown (lastError (Setup.GetKnowledgeBase aws 29 id))
  ∧ checks (trace (Setup.waitForKnowledgeBase aws id)) = 30%nat.
Proof.
  intros Hnone. rewrite waitForKnowledgeBase_unfold.
  destruct (pollLoop_no_ACTIVE aws id 29 0 Setup.maxAttempts) as [Hc Hch];
    try (unfold Setup.maxAttempts; lia); [| done].
  intros m Hm. apply Hnone. unfold Setup.maxAttempts in Hm. lia.
Qed.

End PollerTheorems.

Lemma waitForKnowledgeBase_stops_at_first_ACTIVE_fresh :
  completion (Setup.waitForKnowledgeBase Sample.fresh "KB0001") = Normal tt
  ∧ checks (trace (Setup.waitForKnowledgeBase Sample.fresh "KB0001")) = 3%nat
  ∧ sleeps (trace (Setup.waitForKnowledgeBase Sample.fresh "KB0001"))
    = [10000%Z; 10000%Z].
Proof.
  apply (waitForKnowledgeBase_stops_at_first_ACTIVE Sample.fresh "KB0001" 2).
  - lia.
  - eexists. split; reflexivity.
  - intros m Hm (response & Hcall & Hstatus).
    destruct m as [| [| m]]; [| | lia]; injection Hcall as <-; discriminate Hstatus.
Defined.

Lemma waitForKnowledgeBase_throws_by_last_answer_unreachable :
  completion (Setup.waitForKnowledgeBase Demo.unreachable "KB0001")
    = Thrown Sample.unavailable
  ∧ checks (trace (Setup.waitForKnowledgeBase Demo.unreachable "KB0001")) = 30%nat.
Proof.
  apply (waitForKnowledgeBase_throws_by_last_answer Demo.unreachable "KB0001").
  intros n _ (response & Hcall & _). discriminate Hcall.
Defined.


(** ** Laws of the effect monad *)

Lemma Eff_bind_assoc {A B C} (m : Eff A) (f : A → Eff B) (g : B → Eff C) :
  (m ≫= f) ≫= g = m ≫= (λ a, f a ≫= g).
Proof.
  destruct m as [t [a | e |]]; try reflexivity.
  unfold mbind, Eff_bind. destruct (f a) as [t1 [b | e |]]; try reflexivity.
  destruct (g b) as [t2 c]. by rewrite app_assoc.
Qed.

Lemma Eff_bind_ret_l {A B} (a : A) (f : A → Eff B) : mret a ≫= f = f a.
Proof. unfold mbind, Eff_bind, mret, Eff_ret. by destruct (f a). Qed.

Lemma Eff_bind_normal {A B} (t : list Event) (a : A) (k : A → Eff B) :
  (t, Normal a) ≫= k = (t ++ trace (k a), completion (k a)).
Proof. unfold mbind, Eff_bind. by destruct (k a). Qed.

Lemma Eff_bind_thrown {A B} (t : list Event) (e : Error) (k : A → Eff B) :
  (t, Thrown e) ≫= k = (t, Thrown e).
Proof. reflexivity. Qed.

Section UploadFailure.

Context (aws : Setup.Services) (DOCUMENTS_DIR : string)
        (path_relative : string → string → string) (bucket : string).

Local Notation "'keyOf'" := (Setup.keyOf DOCUMENTS_DIR path_relative).
Local Notation "'uploadLoop'" :=
  (Setup.uploadLoop aws DOCUMENTS_DIR path_relative bucket).

(** The loop over a list of files is the loop over a first part of it
    followed by the loop over the rest. *)
Lemma uploadLoop_app (L1 L2 : list string) (st : Setup.UploadState) :
  uploadLoop (L1 ++ L2) st = uploadLoop L1 st ≫= uploadLoop L2.
Proof.
  revert st. induction L1 as [| f L1 IH]; intros st.
  - cbn [app Setup.uploadLoop]. by rewrite Eff_bind_ret_l.
  - cbn [app Setup.uploadLoop]. case_bool_decide.
    + apply IH.
    + unfold call, await.
      destruct (Setup.readFile aws f) as [body | e]; [| reflexivity].
      rewrite !Eff_bind_assoc.
      unfold mbind at 1 3, Eff_bind at 1 3; cbn beta iota; cbn [settle].
      destruct (Setup.PutObject aws bucket (keyOf f) body) as [[] | e]; [| reflexivity].
      rewrite !Eff_bind_assoc.
      unfold mbind at 1 3, Eff_bind at 1 3; cbn beta iota; cbn [settle].
      by rewrite IH.
Qed.

(** X4. When reading or putting a file that is not in the bucket fails, the upload
    loop throws that error; its trace is the trace of the files before it,
    the read of the file and at most the one failed put: no later file is
    read or put. *)
Theorem uploadLoop_stops_at_first_failure
    (L1 : list string) (f : string) (L2 : list string)
    (st st1 : Setup.UploadState) (error : Error) :
  completion (uploadLoop L1 st) = Normal st1 →
  (keyOf f) ∉ Setup.existingKeys st →
  (Setup.readFile aws f = Rejected error
   ∨ ∃ body, Setup.readFile aws f = Fulfilled body
             ∧ Setup.PutObject aws bucket (keyOf f) body = Rejected error) →
  completion (uploadLoop (L1 ++ f :: L2) st) = Thrown error
  ∧ ∃ attempt,
      trace (uploadLoop (L1 ++ f :: L2) st)
        = trace (uploadLoop L1 st) ++ ReadFile f :: attempt
      ∧ (attempt = []
         ∨ ∃ body, attempt = [Send (PutObjectCommand bucket (keyOf f) body)]).
Proof.
  intros Hfirst Hmissing Hfails.
  destruct (uploadLoop_puts_missing_only aws DOCUMENTS_DIR path_relative bucket L1 st)
    as [_ Hkeys].
  specialize (Hkeys st1 Hfirst).
  rewrite uploadLoop_app, completion_bind, trace_bind, Hfirst.
  cbn [Setup.uploadLoop]. rewrite bool_decide_eq_false_2 by by rewrite Hkeys.
  unfold call, await.
  destruct Hfails as [Hread | (body & Hread & Hput)]; rewrite Hread.
  - split; [done |]. exists []. split; [done | by left].
  - unfold mbind, Eff_bind; cbn beta iota; cbn [settle]. rewrite Hput.
    split; [done |]. eexists. split; [done |]. right. by eexists.
Qed.

(** X5. Every key [uploadDocuments] puts -- also in a run that fails later -- is the
    normalized key of a local file and is not among the keys listed in the
    bucket. *)
Theorem uploadDocuments_puts_only_missing (fuel : nat) (k : string) :
  k ∈ putKeys (trace (Setup.uploadDocuments aws DOCUMENTS_DIR path_relative fuel bucket)) →
  ∃ L R, Setup.localDocumentFiles aws = Fulfilled L
         ∧ completion (Setup.getExistingKeys aws fuel bucket) = Normal R
         ∧ (k ∉ R)
         ∧ (k ∈ (keyOf <$> L)).
Proof.
  unfold Setup.uploadDocuments, Setup.ensureDocumentsDir, Setup.getLocalDocumentFiles,
    call, await.
  destruct (Setup.mkdir aws DOCUMENTS_DIR) as [[] | e]; cbn [settle];
    [| intros H; inversion H].
  unfold mbind at 1 2, Eff_bind at 1 2; cbn beta iota.
  destruct (Setup.localDocumentFiles aws) as [L | e]; cbn [settle];
    [| intros H; inversion H].
  case_bool_decide as Hempty; [intros H; inversion H |].
  pose proof (getExistingKeys_puts_nothing aws bucket fuel) as Hlist.
  destruct (Setup.getExistingKeys aws fuel bucket) as [t [R | e |]];
    cbn [trace fst] in Hlist; unfold mbind at 1, Eff_bind at 1; cbn beta iota;
    cbv [trace fst]; rewrite ?putKeys_app, ?Hlist;
    [| intros H; inversion H | intros H; inversion H].
  destruct (uploadLoop_puts_missing_only aws DOCUMENTS_DIR path_relative bucket L
              {| Setup.existingKeys := R; Setup.uploaded := 0; Setup.skipped := 0 |})
    as [Hputs _].
  unfold mbind, Eff_bind, emit; cbn beta iota.
  destruct (uploadLoop L _) as [t' [st | e |]]; cbn [trace fst] in Hputs;
    rewrite ?putKeys_app, ?Hlist; cbn; rewrite ?app_nil_r;
    intros Hk; exists L, R; rewrite Forall_forall in Hputs;
    destruct (Hputs k Hk); done.
Qed.

(** X6. When the directory exists, the local files are [L] (not empty), the bucket
    lists the keys [R] and every read and put succeeds, [uploadDocuments]
    puts the keys of [L] missing from [R], in order, and its last message
    reports their number as uploaded and the number of the other files as
    skipped. *)
Theorem uploadDocuments_reports_counts (fuel : nat) (L : list string) (R : gset string) :
  Setup.mkdir aws DOCUMENTS_DIR = Fulfilled tt →
  Setup.localDocumentFiles aws = Fulfilled L →
  L ≠ [] →
  completion (Setup.getExistingKeys aws fuel bucket) = Normal R →
  (∀ f, f ∈ L → ∃ body, Setup.readFile aws f = Fulfilled body) →
  (∀ key body, Setup.PutObject aws bucket key body = Fulfilled tt) →
  let run := Setup.uploadDocuments aws DOCUMENTS_DIR path_relative fuel bucket in
  let plan := filter (λ k, k ∉ R) (keyOf <$> L) in
  completion run = Normal tt
  ∧ putKeys (trace run) = plan
  ∧ last (trace run)
    = Some (SpinnerStop ("Upload complete. Uploaded: " +:+ pretty (length plan)
                         +:+ ", Skipped: " +:+ pretty (length L - length plan)%nat) 0).
Proof.
  intros Hmkdir Hfiles Hne Hkeys Hread Hput run plan.
  destruct (uploadLoop_run aws DOCUMENTS_DIR path_relative bucket L Hread Hput
              {| Setup.existingKeys := R; Setup.uploaded := 0; Setup.skipped := 0 |})
    as (st & Hc & _ & Hp & Hu & Hs).
  cbn [Setup.existingKeys Setup.uploaded Setup.skipped] in Hp, Hu, Hs.
  rewrite Hp in Hu. fold plan in Hp, Hu.
  pose proof (getExistingKeys_puts_nothing aws bucket fuel) as Hlist.
  unfold run, Setup.uploadDocuments, Setup.ensureDocumentsDir,
    Setup.getLocalDocumentFiles, call, await, emit.
  rewrite Hmkdir, Hfiles. cbn [settle]. rewrite !Eff_bind_normal.
  rewrite bool_decide_eq_false_2 by by destruct L.
  rewrite (Eff_eta (Setup.getExistingKeys aws fuel bucket)), Hkeys, !Eff_bind_normal.
  rewrite (Eff_eta (uploadLoop L _)), Hc, !Eff_bind_normal.
  cbn [trace completion fst snd mret Eff_ret].
  split; [done |]. split.
  - rewrite !putKeys_app, Hlist, Hp. cbn. by rewrite ?app_nil_r.
  - rewrite !app_assoc, last_snoc. unfold color.
    replace (Setup.skipped st) with (length L - length plan)%nat by lia.
    replace (Setup.uploaded st) with (length plan) by lia.
    reflexivity.
Qed.

(** X7. [uploadDocuments] sends a command (a listing or a put) only after the
    documents directory was made and the walk found at least one file. *)
Theorem uploadDocuments_sends_only_with_files (fuel : nat) (c : Command) :
  c ∈ sent (trace (Setup.uploadDocuments aws DOCUMENTS_DIR path_relative fuel bucket)) →
  Setup.mkdir aws DOCUMENTS_DIR = Fulfilled tt
  ∧ ∃ L, Setup.localDocumentFiles aws = Fulfilled L ∧ L ≠ [].
Proof.
  unfold Setup.uploadDocuments, Setup.ensureDocumentsDir, Setup.getLocalDocumentFiles,
    call, await.
  destruct (Setup.mkdir aws DOCUMENTS_DIR) as [[] | e]; cbn [settle];
    [| intros H; inversion H].
  unfold mbind at 1 2, Eff_bind at 1 2; cbn beta iota.
  destruct (Setup.localDocumentFiles aws) as [L | e]; cbn [settle];
    [| intros H; inversion H].
  case_bool_decide as Hempty; [intros H; inversion H |].
  intros _. split; [done |]. exists L. split; [done |]. by destruct L.
Qed.

End UploadFailure.

Lemma uploadLoop_stops_at_first_failure_readOnly :
  completion
    (Setup.uploadLoop Demo.readOnly "/srv/app/documents" Sample.relative "kb-documents"
       ["/srv/app/documents/a.md"; "/srv/app/documents/docs/d.md";
        "/srv/app/documents/z.md"]
       {| Setup.existingKeys := {[ "a.md" ]}; Setup.uploaded := 0; Setup.skipped := 0 |})
  = Thrown Demo.denied.
Proof.
  destruct (uploadLoop_stops_at_first_failure Demo.readOnly "/srv/app/documents"
              Sample.relative "kb-documents"
              ["/srv/app/documents/a.md"] "/srv/app/documents/docs/d.md"
              ["/srv/app/documents/z.md"]
              {| Setup.existingKeys := {[ "a.md" ]};
                 Setup.uploaded := 0; Setup.skipped := 0 |}
              {| Setup.existingKeys := {[ "a.md" ]};
                 Setup.uploaded := 0; Setup.skipped := 1 |}
              Demo.denied) as [Hthrown _].
  - reflexivity.
  - cbn [Setup.existingKeys]. intros Hin. apply elem_of_singleton in Hin.
    vm_compute in Hin. discriminate Hin.
  - right. exists []. split; reflexivity.
  - exact Hthrown.
Defined.

Lemma uploadDocuments_puts_only_missing_fresh :
  ∃ L R,
    Setup.localDocumentFiles Sample.fresh = Fulfilled L
    ∧ completion (Setup.getExistingKeys Sample.fresh 2 "kb-documents") = Normal R
    ∧ ("docs/d.md" ∉ R)
    ∧ ("docs/d.md" ∈ (Setup.keyOf "/srv/app/documents" Sample.relative <$> L)).
Proof.
  apply (uploadDocuments_puts_only_missing Sample.fresh "/srv/app/documents"
           Sample.relative "kb-documents" 2 "docs/d.md").
  vm_compute. constructor.
Defined.

Lemma uploadDocuments_reports_counts_fresh :
  completion (Setup.uploadDocuments Sample.fresh "/srv/app/documents" Sample.relative 2
                "kb-documents") = Normal tt
  ∧ putKeys (trace (Setup.uploadDocuments Sample.fresh "/srv/app/documents"
                      Sample.relative 2 "kb-documents")) = ["docs/d.md"].
Proof.
  destruct (uploadDocuments_reports_counts Sample.fresh "/srv/app/documents"
              Sample.relative "kb-documents" 2
              ["/srv/app/documents/a.md"; "/srv/app/documents/docs/d.md"]
              {[ "a.md"; "docs/b.md"; "docs/c.md" ]}) as (Hrun & Hputs & _).
  - reflexivity.
  - reflexivity.
  - discriminate.
  - vm_compute. reflexivity.
  - intros f _. eexists. reflexivity.
  - reflexivity.
  - split; [exact Hrun |]. rewrite Hputs. vm_compute. reflexivity.
Defined.

Lemma uploadDocuments_sends_only_with_files_fresh :
  Setup.mkdir Sample.fresh "/srv/app/documents" = Fulfilled tt
  ∧ ∃ L, Setup.localDocumentFiles Sample.fresh = Fulfilled L ∧ L ≠ [].
Proof.
  apply (uploadDocuments_sends_only_with_files Sample.fresh "/srv/app/documents"
           Sample.relative "kb-documents" 2 (ListObjectsV2Command "kb-documents" None)).
  vm_compute. constructor.
Defined.

(** ** The remote key listing, at its edges *)

Section ListingEdges.

Context (aws : Setup.Services) (bucket : string).

(** X8. When the first page is not truncated, or carries no token or an empty one,
    [getExistingKeys] makes that one request only -- a token on a page that is
    not truncated is ignored -- and returns the non-empty keys of the page. *)
Theorem getExistingKeys_stops_without_token
    (fuel : nat) (page : Setup.ListObjectsV2Output) :
  Setup.ListObjectsV2 aws bucket None = Fulfilled page →
  default false (Setup.IsTruncated page) = false
  ∨ truthy (Setup.NextContinuationToken page) = false →
  Setup.getExistingKeys aws (S fuel) bucket
  = ([Send (ListObjectsV2Command bucket None)],
     Normal (list_to_set
               (filter (λ k, k ≠ "")
                       (omap Setup.Key (default [] (Setup.Contents page)))))).
Proof.
  intros Hcall Hstop.
  assert (Htoken : truthy (Setup.nextToken page) = false).
  { unfold Setup.nextToken. destruct Hstop as [-> | Hfalsy]; [done |].
    by destruct (default false _). }
  unfold Setup.getExistingKeys. cbn [Setup.listPages]. unfold call, await.
  rewrite Hcall. cbn [settle]. rewrite Eff_bind_normal, Htoken.
  rewrite addKeys_truthy, (left_id_L ∅ (∪)). reflexivity.
Qed.

Lemma listPages_endless (fuel : nat) :
  (∀ token, ∃ page, Setup.ListObjectsV2 aws bucket token = Fulfilled page
                    ∧ truthy (Setup.nextToken page) = true) →
  ∀ keys token,
    completion (Setup.listPages aws fuel bucket keys token) = Unfinished
    ∧ length (sent (trace (Setup.listPages aws fuel bucket keys token))) = fuel.
Proof.
  intros Hmore. induction fuel as [| fuel IH]; intros keys token; [done |].
  destruct (Hmore token) as (page & Hcall & Htoken).
  cbn [Setup.listPages]. unfold call, await. rewrite Hcall. cbn [settle].
  rewrite Eff_bind_normal, Htoken.
  destruct (IH (Setup.addKeys (Setup.Contents page) keys) (Setup.nextToken page))
    as [IHc IHt].
  cbn [trace completion fst snd]. split; [done |].
  change (sent ([?e] ++ ?t)) with (sent [e] ++ sent t). cbn. by rewrite IHt.
Qed.

(** X9. The listing loop has no bound of its own: against a service that answers
    every request with a truncated page and a token, it is still running
    after any number of requests. *)
Theorem getExistingKeys_has_no_page_limit (fuel : nat) :
  (∀ token, ∃ page, Setup.ListObjectsV2 aws bucket token = Fulfilled page
                    ∧ Setup.IsTruncated page = Some true
                    ∧ truthy (Setup.NextContinuationToken page) = true) →
  completion (Setup.getExistingKeys aws fuel bucket) = Unfinished
  ∧ length (sent (trace (Setup.getExistingKeys aws fuel bucket))) = fuel.
Proof.
  intros Hmore.
  destruct (listPages_endless fuel) with (keys := (∅ : gset string)) (token := @None string)
    as [Hc Ht].
  { intros token. destruct (Hmore token) as (page & Hcall & Htrunc & Htoken).
    exists page. split; [done |]. unfold Setup.nextToken. by rewrite Htrunc. }
  unfold Setup.getExistingKeys. rewrite completion_bind, trace_bind, Hc. done.
Qed.

Lemma listPages_requests (pages : list Setup.ListObjectsV2Output) :
  ∀ (fuel : nat) (keys : gset string) (token : option string),
  listedIn aws bucket token pages →
  (length pages ≤ fuel)%nat →
  sent (trace (Setup.listPages aws fuel bucket keys token))
  = ListObjectsV2Command bucket
      <$> token :: (Setup.NextContinuationToken <$> removelast pages).
Proof.
  induction pages as [| page rest IH]; intros fuel keys token Hlisted Hfuel.
  - destruct Hlisted.
  - destruct fuel as [| fuel]; [cbn in Hfuel; lia |].
    destruct Hlisted as [Hcall Hrest].
    cbn [Setup.listPages]. unfold call, await. rewrite Hcall. cbn [settle].
    rewrite Eff_bind_normal. cbn [trace fst].
    destruct rest as [| page' rest].
    + unfold Setup.nextToken. rewrite Hrest. reflexivity.
    + destruct Hrest as (Htrunc & next & Hnext & Hnonempty & Hlisted).
      unfold Setup.nextToken. rewrite Htrunc, Hnext.
      cbn [default from_option id truthy]. rewrite bool_decide_eq_false_2 by done.
      cbn [negb]. change (sent ([?e] ++ ?t)) with (sent [e] ++ sent t).
      rewrite (IH fuel _ (Some next) Hlisted) by (cbn in *; lia).
      change (removelast (page :: page' :: rest)) with (page :: removelast (page' :: rest)).
      rewrite !fmap_cons, Hnext. reflexivity.
Qed.

(** X10. The requests of [getExistingKeys], in order: the first without a token,
    each later one with the token of the page before it. *)
Theorem getExistingKeys_threads_tokens
    (pages : list Setup.ListObjectsV2Output) (fuel : nat) :
  listedIn aws bucket None pages →
  (length pages ≤ fuel)%nat →
  sent (trace (Setup.getExistingKeys aws fuel bucket))
  = ListObjectsV2Command bucket
      <$> None :: (Setup.NextContinuationToken <$> removelast pages).
Proof.
  intros Hlisted Hfuel. unfold Setup.getExistingKeys. rewrite trace_bind.
  pose proof (listPages_requests pages fuel ∅ None Hlisted Hfuel) as Hsent.
  destruct (completion _); [| done | done].
  cbn [trace fst mret Eff_ret]. by rewrite app_nil_r.
Qed.

End ListingEdges.

Lemma getExistingKeys_stops_without_token_onePage :
  Setup.getExistingKeys Demo.onePage 1 "kb-documents"
  = ([Send (ListObjectsV2Command "kb-documents" None)], Normal {[ "a.md" ]}).
Proof.
  rewrite (getExistingKeys_stops_without_token Demo.onePage "kb-documents" 0
             Demo.strayToken).
  - vm_compute. reflexivity.
  - reflexivity.
  - left. reflexivity.
Defined.

Lemma getExistingKeys_has_no_page_limit_endless :
  completion (Setup.getExistingKeys Demo.endless 100 "kb-documents") = Unfinished
  ∧ length (sent (trace (Setup.getExistingKeys Demo.endless 100 "kb-documents")))
    = 100%nat.
Proof.
  apply (getExistingKeys_has_no_page_limit Demo.endless "kb-documents" 100).
  intros token. eexists. repeat split; reflexivity.
Defined.

Lemma getExistingKeys_threads_tokens_two :
  sent (trace (Setup.getExistingKeys Sample.fresh 2 "kb-documents"))
  = [ListObjectsV2Command "kb-documents" None;
     ListObjectsV2Command "kb-documents" (Some "page-2")].
Proof.
  apply (getExistingKeys_threads_tokens Sample.fresh "kb-documents"
           [Sample.page ["a.md"; "docs/b.md"] (Some "page-2");
            Sample.page ["docs/c.md"] None] 2).
  - cbn. repeat split. exists "page-2". repeat split. discriminate.
  - cbn. lia.
Defined.

(** ** The creation functions, for every outcome of their calls *)

Section Creators.

Context (aws : Setup.Services).

(** X11. [createDocumentsBucket] throws [error] exactly when [error] is not named
    [BucketAlreadyOwnedByYou] and is the rejection of the creation call, or of
    the wait after a creation that succeeded. *)
Theorem createDocumentsBucket_throws_iff (bucketName : string) (error : Error) :
  completion (Setup.createDocumentsBucket aws bucketName) = Thrown error
  ↔ name error ≠ "BucketAlreadyOwnedByYou"
    ∧ (Setup.CreateBucket aws bucketName = Rejected error
       ∨ (Setup.CreateBucket aws bucketName = Fulfilled tt
          ∧ Setup.bucketExists aws 60 bucketName = Rejected error)).
Proof.
  unfold Setup.createDocumentsBucket, call, await.
  destruct (Setup.CreateBucket aws bucketName) as [[] | e1]; cbn.
  - destruct (Setup.bucketExists aws 60 bucketName) as [[] | e2]; cbn.
    + split; [discriminate | intros [_ [? | [_ ?]]]; discriminate].
    + case_bool_decide as Hname; cbn.
      * split; [discriminate |]. intros [Hne [? | [_ [= ->]]]]; [discriminate | done].
      * split.
        -- intros [= <-]. split; [done | by right].
        -- intros [_ [? | [_ [= ->]]]]; [discriminate | done].
  - case_bool_decide as Hname; cbn.
    + split; [discriminate |]. intros [Hne [[= ->] | [? _]]]; [done | discriminate].
    + split.
      * intros [= <-]. split; [done | by left].
      * intros [_ [[= ->] | [? _]]]; [done | discriminate].
Qed.

(** X12. [createVectorIndex] sends one command, with dimension 1024, the metric
    [DistanceMetric.COSINE] (the string [cosine]), [float32] data and the two
    non-filterable metadata keys. It returns
    an ARN exactly when the service answered it or rejected the call with
    [IndexAlreadyExists] (the ARN then being the bucket ARN, [/index/] and the
    index name), and throws exactly the other rejections. *)
Theorem createVectorIndex_outcomes (vectorBucketArn indexName : string) :
  sent (trace (Setup.createVectorIndex aws vectorBucketArn indexName))
    = [CreateIndexCommand vectorBucketArn indexName 1024 "cosine" "float32"
         ["AMAZON_BEDROCK_TEXT"; "AMAZON_BEDROCK_METADATA"]]
  ∧ (∀ indexArn,
       completion (Setup.createVectorIndex aws vectorBucketArn indexName) = Normal indexArn
       ↔ Setup.CreateIndex aws vectorBucketArn indexName = Fulfilled indexArn
         ∨ (∃ error, Setup.CreateIndex aws vectorBucketArn indexName = Rejected error
                     ∧ name error = "IndexAlreadyExists"
                     ∧ indexArn = vectorBucketArn +:+ "/index/" +:+ indexName))
  ∧ (∀ error,
       completion (Setup.createVectorIndex aws vectorBucketArn indexName) = Thrown error
       ↔ Setup.CreateIndex aws vectorBucketArn indexName = Rejected error
         ∧ name error ≠ "IndexAlreadyExists").
Proof.
  unfold Setup.createVectorIndex, call, await.
  destruct (Setup.CreateIndex aws vectorBucketArn indexName) as [arn | e]; cbn.
  - split; [done |]. split.
    + intros indexArn. split.
      * intros [= <-]. by left.
      * intros [[= ->] | (e & ? & _)]; [done | discriminate].
    + intros error. split; [discriminate | intros [? _]; discriminate].
  - case_bool_decide as Hname; cbn.
    + split; [done |]. split.
      * intros indexArn. split.
        -- intros [= <-]. right. by exists e.
        -- intros [? | (e' & _ & _ & ->)]; [discriminate | done].
      * intros error. split; [discriminate | intros [[= ->] Hne]; done].
    + split; [done |]. split.
      * intros indexArn. split; [discriminate |].
        intros [? | (e' & [= <-] & Hn & _)]; [discriminate | done].
      * intros error. split.
        -- intros [= <-]. done.
        -- intros [[= ->] _]. done.
Qed.

(** X13. [createVectorsBucket] sends one command and ends as the call does: with
    the ARN answered, or with the error of the rejection, whatever its name. *)
Theorem createVectorsBucket_passes_outcome_on (bucketName : string) :
  completion (Setup.createVectorsBucket aws bucketName)
    = settle (Setup.CreateVectorBucket aws bucketName)
  ∧ sent (trace (Setup.createVectorsBucket aws bucketName))
    = [CreateVectorBucketCommand bucketName].
Proof.
  unfold Setup.createVectorsBucket, call, await.
  destruct (Setup.CreateVectorBucket aws bucketName) as [arn | e]; cbn; [done |].
  by case_bool_decide.
Qed.

End Creators.

(** ** The normalization of keys *)

(** X14. Replacing the backslashes of a path by slashes keeps its length, changes
    nothing when done again, and changes nothing in a path without
    backslashes. *)
Theorem replace_backslashes_idempotent (s : string) :
  Setup.replace_backslashes (Setup.replace_backslashes s) = Setup.replace_backslashes s
  ∧ String.length (Setup.replace_backslashes s) = String.length s
  ∧ (Ascii.ascii_of_nat 92 ∉ String.list_ascii_of_string s →
     Setup.replace_backslashes s = s).
Proof.
  induction s as [| c s (IH1 & IH2 & IH3)]; [done |].
  cbn [Setup.replace_backslashes String.length String.list_ascii_of_string].
  rewrite IH1, IH2. repeat split.
  - f_equal. destruct (decide (c = Ascii.ascii_of_nat 92)) as [-> | Hc].
    + reflexivity.
    + by rewrite !(bool_decide_eq_false_2 (c = _)).
  - intros Hfree. apply not_elem_of_cons in Hfree as [Hc Hs].
    rewrite bool_decide_eq_false_2 by done. by rewrite IH3.
Qed.

(** ** The scripts as a whole *)

Lemma Run_eta {A} (m : Run A) : m = (shown m, outcome m).
Proof. by destruct m. Qed.

Lemma Run_bind_normal {A B} (t : list Output) (a : A) (k : A → Run B) :
  (t, Normal a) ≫= k = (t ++ shown (k a), outcome (k a)).
Proof. unfold mbind, Run_bind. by destruct (k a). Qed.

Lemma Run_bind_thrown {A B} (t : list Output) (e : Error) (k : A → Run B) :
  (t, Thrown e) ≫= k = (t, Thrown e).
Proof. done. Qed.

Lemma Run_bind_unfinished {A B} (t : list Output) (k : A → Run B) :
  (t, Unfinished) ≫= k = (t, Unfinished).
Proof. done. Qed.

Lemma attempt_normal {A} (t : list Output) (a : A) (h : Error → Run A) :
  attempt (t, Normal a) h = (t, Normal a).
Proof. done. Qed.

Lemma attempt_unfinished {A} (t : list Output) (h : Error → Run A) :
  attempt (t, Unfinished) h = (t, Unfinished).
Proof. done. Qed.

Lemma attempt_thrown {A} (t : list Output) (e : Error) (h : Error → Run A) :
  attempt (t, Thrown e) h = (t ++ shown (h e), outcome (h e)).
Proof. unfold attempt. by destruct (h e). Qed.

Lemma agentSent_app (t1 t2 : list Output) :
  agentSent (t1 ++ t2) = agentSent t1 ++ agentSent t2.
Proof. apply omap_app. Qed.

Lemma coreSent_app (t1 t2 : list Output) :
  coreSent (t1 ++ t2) = coreSent t1 ++ coreSent t2.
Proof. unfold coreSent, sent. by rewrite !omap_app. Qed.

Lemma agentSent_Core (t : list Event) : agentSent (Core <$> t) = [].
Proof. induction t as [| e t IH]; [done | exact IH]. Qed.

Lemma coreSent_Core (t : list Event) : coreSent (Core <$> t) = sent t.
Proof.
  unfold coreSent. f_equal. induction t as [| e t IH]; [done |].
  cbn. by rewrite IH.
Qed.

Lemma shown_bind {A B} (m : Run A) (k : A → Run B) :
  shown (m ≫= k)
  = shown m ++ match outcome m with Normal a => shown (k a) | _ => [] end.
Proof.
  destruct m as [t [a | e |]]; cbn [shown outcome fst snd].
  - by rewrite Run_bind_normal.
  - by rewrite app_nil_r.
  - by rewrite app_nil_r.
Qed.

Lemma outcome_bind {A B} (m : Run A) (k : A → Run B) :
  outcome (m ≫= k)
  = match outcome m with
    | Normal a => outcome (k a)
    | Thrown e => Thrown e
    | Unfinished => Unfinished
    end.
Proof.
  destruct m as [t [a | e |]]; cbn [shown outcome fst snd]; [| done | done].
  by rewrite Run_bind_normal.
Qed.

Lemma shown_attempt {A} (m : Run A) (h : Error → Run A) :
  shown (attempt m h)
  = shown m ++ match outcome m with Thrown e => shown (h e) | _ => [] end.
Proof.
  destruct m as [t [a | e |]]; cbn [shown outcome fst snd].
  - by rewrite app_nil_r.
  - by rewrite attempt_thrown.
  - by rewrite app_nil_r.
Qed.

Lemma outcome_attempt {A} (m : Run A) (h : Error → Run A) :
  outcome (attempt m h)
  = match outcome m with
    | Thrown e => outcome (h e)
    | c => c
    end.
Proof.
  destruct m as [t [a | e |]]; cbn [shown outcome fst snd]; [done | | done].
  by rewrite attempt_thrown.
Qed.

(** Rewriting a run into what it shows and how it ends, statement by
    statement. *)
Ltac run :=
  repeat (rewrite ?shown_bind, ?outcome_bind, ?shown_attempt, ?outcome_attempt;
          cbn [say raise request lift mret Run_ret shown outcome fst snd settle]).

Section Agent.

Context (aws : Setup.Services) (agent : SetupMain.Agent) (CONFIG : SetupMain.Config).

Local Notation "'createKnowledgeBase'" := (SetupMain.createKnowledgeBase agent CONFIG).
Local Notation "'createDataSource'" := (SetupMain.createDataSource agent).
Local Notation "'startIngestionJob'" := (SetupMain.startIngestionJob agent CONFIG).

Lemma createKnowledgeBase_run (roleArn vectorBucketArn indexArn : string) :
  let command := SetupMain.knowledgeBaseCommand CONFIG roleArn vectorBucketArn indexArn in
  agentSent (shown (createKnowledgeBase roleArn vectorBucketArn indexArn)) = [command]
  ∧ coreSent (shown (createKnowledgeBase roleArn vectorBucketArn indexArn)) = []
  ∧ outcome (createKnowledgeBase roleArn vectorBucketArn indexArn)
    = match SetupMain.CreateKnowledgeBase agent command with
      | Fulfilled response => Normal (SetupMain.knowledgeBaseId response)
      | Rejected error => Thrown error
      end.
Proof.
  intros command. unfold SetupMain.createKnowledgeBase. fold command. run.
  destruct (SetupMain.CreateKnowledgeBase agent command) as [response | error]; by run.
Qed.

Lemma createDataSource_run (knowledgeBaseId s3BucketName : string) :
  let command := SetupMain.dataSourceCommand knowledgeBaseId s3BucketName in
  agentSent (shown (createDataSource knowledgeBaseId s3BucketName)) = [command]
  ∧ coreSent (shown (createDataSource knowledgeBaseId s3BucketName)) = []
  ∧ outcome (createDataSource knowledgeBaseId s3BucketName)
    = match SetupMain.CreateDataSource agent command with
      | Fulfilled response => Normal (SetupMain.dataSourceId response)
      | Rejected error => Thrown error
      end.
Proof.
  intros command. unfold SetupMain.createDataSource. fold command. run.
  destruct (SetupMain.CreateDataSource agent command) as [response | error]; by run.
Qed.

Lemma startIngestionJob_run (knowledgeBaseId dataSourceId : string) :
  let command := SetupMain.ingestionCommand knowledgeBaseId dataSourceId in
  agentSent (shown (startIngestionJob knowledgeBaseId dataSourceId)) = [command]
  ∧ coreSent (shown (startIngestionJob knowledgeBaseId dataSourceId)) = []
  ∧ outcome (startIngestionJob knowledgeBaseId dataSourceId)
    = match SetupMain.StartIngestionJob agent command with
      | Fulfilled response => Normal tt
      | Rejected error => Thrown error
      end.
Proof.
  intros command. unfold SetupMain.startIngestionJob. fold command. run.
  destruct (SetupMain.StartIngestionJob agent command) as [response | error]; by run.
Qed.

Lemma createKnowledgeBase_outros (roleArn vectorBucketArn indexArn : string) :
  outros (shown (createKnowledgeBase roleArn vectorBucketArn indexArn)) = [].
Proof.
  unfold SetupMain.createKnowledgeBase. run.
  destruct (SetupMain.CreateKnowledgeBase agent _) as [response | error]; by run.
Qed.

Lemma createDataSource_outros (knowledgeBaseId s3BucketName : string) :
  outros (shown (createDataSource knowledgeBaseId s3BucketName)) = [].
Proof.
  unfold SetupMain.createDataSource. run.
  destruct (SetupMain.CreateDataSource agent _) as [response | error]; by run.
Qed.

Lemma startIngestionJob_outros (knowledgeBaseId dataSourceId : string) :
  outros (shown (startIngestionJob knowledgeBaseId dataSourceId)) = [].
Proof.
  unfold SetupMain.startIngestionJob. run.
  destruct (SetupMain.StartIngestionJob agent _) as [response | error]; by run.
Qed.

End Agent.

Lemma outros_app (t1 t2 : list Output) : outros (t1 ++ t2) = outros t1 ++ outros t2.
Proof. apply omap_app. Qed.

Lemma outros_Core (t : list Event) : outros (Core <$> t) = [].
Proof. induction t as [| e t IH]; [done | exact IH]. Qed.

Lemma createDocumentsBucket_returns_name
    (aws : Setup.Services) (bucketName r : string) :
  completion (Setup.createDocumentsBucket aws bucketName) = Normal r → r = bucketName.
Proof.
  unfold Setup.createDocumentsBucket, call, await.
  destruct (Setup.CreateBucket aws bucketName) as [[] | e1]; cbn.
  - destruct (Setup.bucketExists aws 60 bucketName) as [[] | e2]; cbn; [congruence |].
    destruct (bool_decide (name e2 = _)); cbn; congruence.
  - destruct (bool_decide (name e1 = _)); cbn; congruence.
Qed.

Lemma createDocumentsBucket_sent (aws : Setup.Services) (bucketName : string) :
  sent (trace (Setup.createDocumentsBucket aws bucketName))
  = [CreateBucketCommand bucketName].
Proof.
  unfold Setup.createDocumentsBucket, call, await.
  destruct (Setup.CreateBucket aws bucketName) as [[] | e1]; cbn.
  - destruct (Setup.bucketExists aws 60 bucketName) as [[] | e2]; cbn; [done |].
    by destruct (bool_decide (name e2 = _)).
  - by destruct (bool_decide (name e1 = _)).
Qed.

Lemma createVectorsBucket_sent (aws : Setup.Services) (bucketName : string) :
  sent (trace (Setup.createVectorsBucket aws bucketName))
  = [CreateVectorBucketCommand bucketName].
Proof.
  unfold Setup.createVectorsBucket, call, await.
  destruct (Setup.CreateVectorBucket aws bucketName) as [arn | e]; cbn; [done |].
  by destruct (bool_decide (name e = _)).
Qed.


Lemma createDocumentsBucket_finishes (aws : Setup.Services) (bucketName : string) :
  completion (Setup.createDocumentsBucket aws bucketName) ≠ Unfinished.
Proof.
  unfold Setup.createDocumentsBucket, call, await.
  destruct (Setup.CreateBucket aws bucketName) as [[] | e1]; cbn.
  - destruct (Setup.bucketExists aws 60 bucketName) as [[] | e2]; cbn; [done |].
    by destruct (bool_decide (name e2 = _)).
  - by destruct (bool_decide (name e1 = _)).
Qed.

Lemma createVectorsBucket_finishes (aws : Setup.Services) (bucketName : string) :
  completion (Setup.createVectorsBucket aws bucketName) ≠ Unfinished.
Proof.
  unfold Setup.createVectorsBucket, call, await.
  destruct (Setup.CreateVectorBucket aws bucketName) as [arn | e]; cbn; [done |].
  by destruct (bool_decide (name e = _)).
Qed.

Lemma createVectorIndex_finishes (aws : Setup.Services) (vectorBucketArn indexName : string) :
  completion (Setup.createVectorIndex aws vectorBucketArn indexName) ≠ Unfinished.
Proof.
  unfold Setup.createVectorIndex, call, await.
  destruct (Setup.CreateIndex aws vectorBucketArn indexName) as [arn | e]; cbn; [done |].
  by destruct (bool_decide (name e = _)).
Qed.

Lemma waitForKnowledgeBase_finishes (aws : Setup.Services) (id : string) :
  completion (Setup.waitForKnowledgeBase aws id) ≠ Unfinished.
Proof.
  rewrite waitForKnowledgeBase_unfold. cbn [completion snd].
  apply pollLoop_finishes. lia.
Qed.

Section SetupMainTheorems.

Context (aws : Setup.Services) (agent : SetupMain.Agent) (CONFIG : SetupMain.Config)
        (DOCUMENTS_DIR : string) (path_relative : string → string → string).

Local Notation "'steps'" :=
  (SetupMain.steps aws agent CONFIG DOCUMENTS_DIR path_relative).
Local Notation "'main'" :=
  (SetupMain.main aws agent CONFIG DOCUMENTS_DIR path_relative).
Local Notation "'bucket'" := (SetupMain.s3BucketName CONFIG).

(** The agent commands of the pipeline, by how far it gets. *)
Lemma steps_agentSent (fuel : nat) :
  agentSent (shown (steps fuel))
  = match completion (Setup.createDocumentsBucket aws bucket),
          completion (Setup.createVectorsBucket aws (SetupMain.s3VectorsBucketName CONFIG))
    with
    | Normal _, Normal vb =>
        match completion (Setup.createVectorIndex aws vb (SetupMain.indexName CONFIG)) with
        | Normal ix =>
            let kbCommand :=
              SetupMain.knowledgeBaseCommand CONFIG (SetupMain.roleArn CONFIG) vb ix in
            kbCommand ::
            match SetupMain.CreateKnowledgeBase agent kbCommand with
            | Fulfilled kb =>
                let k := SetupMain.knowledgeBaseId kb in
                match completion (Setup.waitForKnowledgeBase aws k) with
                | Normal _ =>
                    SetupMain.dataSourceCommand k bucket ::
                    match SetupMain.CreateDataSource agent
                            (SetupMain.dataSourceCommand k bucket),
                          completion (Setup.uploadDocuments aws DOCUMENTS_DIR
                                        path_relative fuel bucket)
                    with
                    | Fulfilled ds, Normal _ =>
                        [SetupMain.ingestionCommand k (SetupMain.dataSourceId ds)]
                    | _, _ => []
                    end
                | _ => []
                end
            | Rejected _ => []
            end
        | _ => []
        end
    | _, _ => []
    end.
Proof.
  unfold SetupMain.steps. run. rewrite agentSent_app, agentSent_Core. cbn [app].
  destruct (completion (Setup.createDocumentsBucket aws bucket)) as [b | e |] eqn:H1;
    [| done | done].
  apply createDocumentsBucket_returns_name in H1 as ->.
  run. rewrite agentSent_app, agentSent_Core. cbn [app].
  destruct (completion (Setup.createVectorsBucket aws _)) as [vb | e |] eqn:H2;
    [| done | done].
  run. rewrite agentSent_app, agentSent_Core. cbn [app].
  destruct (completion (Setup.createVectorIndex aws _ _)) as [ix | e |] eqn:H3;
    [| done | done].
  run. cbn zeta.
  destruct (createKnowledgeBase_run agent CONFIG (SetupMain.roleArn CONFIG) vb ix)
    as (Ha4 & _ & Ho4).
  rewrite agentSent_app, Ha4, Ho4. cbn [app]. f_equal.
  destruct (SetupMain.CreateKnowledgeBase agent _) as [kb | e]; [| done].
  run. rewrite agentSent_app, agentSent_Core. cbn [app].
  destruct (completion (Setup.waitForKnowledgeBase aws _)) as [[] | e |] eqn:H5;
    [| done | done].
  run.
  destruct (createDataSource_run agent (SetupMain.knowledgeBaseId kb) bucket)
    as (Ha6 & _ & Ho6).
  rewrite agentSent_app, Ha6, Ho6. cbn [app]. f_equal.
  destruct (SetupMain.CreateDataSource agent _) as [ds | e]; [| done].
  run. rewrite agentSent_app, agentSent_Core. cbn [app].
  destruct (completion (Setup.uploadDocuments aws _ _ _ _)) as [[] | e |] eqn:H7;
    [| done | done].
  run.
  destruct (startIngestionJob_run agent CONFIG (SetupMain.knowledgeBaseId kb)
              (SetupMain.dataSourceId ds)) as (Ha8 & _ & Ho8).
  rewrite agentSent_app, Ha8, Ho8. cbn [app]. f_equal.
  by destruct (SetupMain.StartIngestionJob agent _) as [job | e].
Qed.

(** The closing message of the pipeline: the success message exactly when
    it ends normally, and then with status 0. *)
Lemma steps_outros (fuel : nat) :
  outros (shown (steps fuel))
  = match outcome (steps fuel) with
    | Normal _ => ["Setup completed successfully! ✨"]
    | _ => []
    end
  ∧ ∀ c, outcome (steps fuel) = Normal c → c = 0%Z.
Proof.
  unfold SetupMain.steps. run. rewrite outros_app, outros_Core. cbn [app].
  destruct (completion (Setup.createDocumentsBucket aws bucket)) as [b | e |] eqn:H1;
    [| done | done].
  run. rewrite outros_app, outros_Core. cbn [app].
  destruct (completion (Setup.createVectorsBucket aws _)) as [vb | e |] eqn:H2;
    [| done | done].
  run. rewrite outros_app, outros_Core. cbn [app].
  destruct (completion (Setup.createVectorIndex aws _ _)) as [ix | e |] eqn:H3;
    [| done | done].
  run. rewrite outros_app, createKnowledgeBase_outros. cbn [app].
  destruct (outcome (SetupMain.createKnowledgeBase _ _ _ _ _)) as [k | e |];
    [| done | done].
  run. rewrite outros_app, outros_Core. cbn [app].
  destruct (completion (Setup.waitForKnowledgeBase aws _)) as [[] | e |] eqn:H5;
    [| done | done].
  run. rewrite outros_app, createDataSource_outros. cbn [app].
  destruct (outcome (SetupMain.createDataSource _ _ _)) as [d | e |];
    [| done | done].
  run. rewrite outros_app, outros_Core. cbn [app].
  destruct (completion (Setup.uploadDocuments aws _ _ _ _)) as [[] | e |] eqn:H7;
    [| done | done].
  run. rewrite outros_app, startIngestionJob_outros. cbn [app].
  destruct (outcome (SetupMain.startIngestionJob _ _ _ _)) as [[] | e |];
    [| done | done].
  run. split; [done | congruence].
Qed.



(** Only the bucket listing of the upload can leave the pipeline unfinished. *)
Lemma steps_unfinished (fuel : nat) :
  outcome (steps fuel) = Unfinished →
  completion (Setup.uploadDocuments aws DOCUMENTS_DIR path_relative fuel bucket)
  = Unfinished.
Proof.
  unfold SetupMain.steps. run.
  destruct (completion (Setup.createDocumentsBucket aws bucket)) as [b | e |] eqn:H1;
    [| done | by destruct (createDocumentsBucket_finishes aws bucket)].
  apply createDocumentsBucket_returns_name in H1 as Hb. subst b. run.
  destruct (completion (Setup.createVectorsBucket aws _)) as [vb | e |] eqn:H2;
    [| done | by destruct (createVectorsBucket_finishes aws _ H2)].
  run.
  destruct (completion (Setup.createVectorIndex aws _ _)) as [ix | e |] eqn:H3;
    [| done | by destruct (createVectorIndex_finishes aws _ _ H3)].
  run.
  destruct (createKnowledgeBase_run agent CONFIG (SetupMain.roleArn CONFIG) vb ix)
    as (_ & _ & Ho4).
  rewrite Ho4.
  destruct (SetupMain.CreateKnowledgeBase agent _) as [kb | e] eqn:H4; [| done].
  run.
  destruct (completion (Setup.waitForKnowledgeBase aws _)) as [[] | e |] eqn:H5;
    [| done | by destruct (waitForKnowledgeBase_finishes aws _ H5)].
  run.
  destruct (createDataSource_run agent (SetupMain.knowledgeBaseId kb) bucket)
    as (_ & _ & Ho6).
  rewrite Ho6.
  destruct (SetupMain.CreateDataSource agent _) as [ds | e] eqn:H6; [| done].
  run.
  destruct (completion (Setup.uploadDocuments aws _ _ _ _)) as [[] | e |] eqn:H7;
    [| done | done].
  run.
  destruct (startIngestionJob_run agent CONFIG (SetupMain.knowledgeBaseId kb)
              (SetupMain.dataSourceId ds)) as (_ & _ & Ho8).
  rewrite Ho8.
  by destruct (SetupMain.StartIngestionJob agent _) as [job | e] eqn:H8.
Qed.

(** [main] around its [try] block. *)
Lemma main_with_role (fuel : nat) :
  truthy (Some (SetupMain.roleArn CONFIG)) = true →
  agentSent (shown (main fuel)) = agentSent (shown (steps fuel))
  ∧ coreSent (shown (main fuel)) = coreSent (shown (steps fuel))
  ∧ outcome (main fuel)
    = match outcome (steps fuel) with
      | Normal c => Normal c
      | Thrown _ => Normal 1%Z
      | Unfinished => Unfinished
      end
  ∧ outros (shown (main fuel))
    = outros (shown (steps fuel))
      ++ match outcome (steps fuel) with Thrown _ => ["Setup failed"] | _ => [] end.
Proof.
  intros Hrole. unfold SetupMain.main. rewrite Hrole. cbn [negb].
  destruct (steps fuel) as [t [c | e |]]; run;
    rewrite !agentSent_app, !coreSent_app, !outros_app; cbn;
    by rewrite ?app_nil_r.
Qed.


Lemma main_without_role (fuel : nat) :
  truthy (Some (SetupMain.roleArn CONFIG)) = false →
  agentSent (shown (main fuel)) = []
  ∧ coreSent (shown (main fuel)) = []
  ∧ outcome (main fuel) = Normal 1%Z
  ∧ outros (shown (main fuel)) = ["Setup aborted"].
Proof.
  intros Hrole. unfold SetupMain.main. run. rewrite Hrole. cbn [negb]. by run.
Qed.

(** X15. The setup script starts an ingestion job only for a knowledge base it saw
    ACTIVE within the first 30 status queries, on the data source it created
    for that knowledge base and the documents bucket, and after the upload of
    the documents returned. *)
Theorem main_starts_ingestion_last (fuel : nat) (k d description : string) :
  StartIngestionJobCommand k d description ∈ agentSent (shown (main fuel)) →
  (∃ n, (n < 30)%nat ∧ answers aws k n (Some "ACTIVE"))
  ∧ (∃ ds, SetupMain.CreateDataSource agent (SetupMain.dataSourceCommand k bucket)
           = Fulfilled ds
           ∧ d = SetupMain.dataSourceId ds)
  ∧ completion (Setup.uploadDocuments aws DOCUMENTS_DIR path_relative fuel bucket)
    = Normal tt.
Proof.
  destruct (truthy (Some (SetupMain.roleArn CONFIG))) eqn:Hrole.
  2: { destruct (main_without_role fuel Hrole) as (-> & _). intros H. inversion H. }
  destruct (main_with_role fuel Hrole) as (-> & _).
  rewrite steps_agentSent.
  destruct (completion (Setup.createDocumentsBucket aws bucket)) as [b | e |];
    [| intros H; inversion H ..].
  destruct (completion (Setup.createVectorsBucket aws _)) as [vb | e |];
    [| intros H; inversion H ..].
  destruct (completion (Setup.createVectorIndex aws _ _)) as [ix | e |];
    [| intros H; inversion H ..].
  cbn zeta. unfold SetupMain.knowledgeBaseCommand at 1.
  intros H. apply elem_of_cons in H as [H | H]; [discriminate H |].
  destruct (SetupMain.CreateKnowledgeBase agent _) as [kb | e];
    [| inversion H].
  destruct (completion (Setup.waitForKnowledgeBase aws _)) as [[] | e |] eqn:Hwait;
    [| inversion H ..].
  unfold SetupMain.dataSourceCommand at 1 in H.
  apply elem_of_cons in H as [H | H]; [discriminate H |].
  destruct (SetupMain.CreateDataSource agent _) as [ds | e] eqn:Hds;
    [| inversion H].
  destruct (completion (Setup.uploadDocuments aws _ _ _ _)) as [[] | e |];
    [| inversion H ..].
  apply list_elem_of_singleton in H. injection H as -> -> _.
  split; [by apply waitForKnowledgeBase_returned_saw_ACTIVE |].
  split; [by exists ds | done].
Qed.

(** X16. When the bucket listing of the upload ends, the setup script does not
    throw: it ends with status 0 and the one closing message of success, or
    with status 1 and the one closing message of failure -- [Setup aborted]
    when the role is missing, [Setup failed] otherwise. *)
Theorem main_ends_with_one_closing_message (fuel : nat) :
  completion (Setup.uploadDocuments aws DOCUMENTS_DIR path_relative fuel bucket)
    ≠ Unfinished →
  (outcome (main fuel) = Normal 0%Z
   ∧ outros (shown (main fuel)) = ["Setup completed successfully! ✨"])
  ∨ (outcome (main fuel) = Normal 1%Z
     ∧ outros (shown (main fuel))
       = [if truthy (Some (SetupMain.roleArn CONFIG))
          then "Setup failed" else "Setup aborted"]).
Proof.
  intros Hfuel.
  destruct (truthy (Some (SetupMain.roleArn CONFIG))) eqn:Hrole.
  2: { destruct (main_without_role fuel Hrole) as (_ & _ & -> & ->). by right. }
  destruct (main_with_role fuel Hrole) as (_ & _ & -> & ->).
  destruct (steps_outros fuel) as [-> Hexit].
  destruct (outcome (steps fuel)) as [c | e |] eqn:Hsteps.
  - left. by rewrite (Hexit c eq_refl).
  - by right.
  - by destruct Hfuel; apply steps_unfinished.
Qed.

(** X17. When the creation of the vector bucket is rejected -- also with
    [VectorBucketAlreadyExists], as on a second run -- the setup script ends
    with status 1: no index is created and no agent command is sent. *)
Theorem main_stops_at_existing_vector_bucket (fuel : nat) (error : Error) :
  truthy (Some (SetupMain.roleArn CONFIG)) = true →
  Setup.CreateVectorBucket aws (SetupMain.s3VectorsBucketName CONFIG) = Rejected error →
  outcome (main fuel) = Normal 1%Z
  ∧ agentSent (shown (main fuel)) = []
  ∧ coreSent (shown (main fuel))
    = [CreateBucketCommand bucket]
      ++ match completion (Setup.createDocumentsBucket aws bucket) with
         | Normal _ => [CreateVectorBucketCommand (SetupMain.s3VectorsBucketName CONFIG)]
         | _ => []
         end.
Proof.
  intros Hrole Hcall.
  assert (completion (Setup.createVectorsBucket aws (SetupMain.s3VectorsBucketName CONFIG))
          = Thrown error) as H2.
  { unfold Setup.createVectorsBucket, call, await. rewrite Hcall. cbn.
    by destruct (bool_decide (name error = _)). }
  destruct (main_with_role fuel Hrole) as (-> & -> & -> & _).
  rewrite steps_agentSent, H2.
  unfold SetupMain.steps. run. rewrite coreSent_app, coreSent_Core.
  rewrite createDocumentsBucket_sent.
  destruct (completion (Setup.createDocumentsBucket aws bucket)) as [b | e |] eqn:H1.
  - run. rewrite H2. rewrite coreSent_app, coreSent_Core, createVectorsBucket_sent.
    by rewrite app_nil_r.
  - done.
  - by destruct (createDocumentsBucket_finishes aws bucket).
Qed.


End SetupMainTheorems.

Lemma main_starts_ingestion_last_fresh :
  (∃ n, (n < 30)%nat ∧ answers Sample.fresh "KB0001" n (Some "ACTIVE"))
  ∧ (∃ ds, SetupMain.CreateDataSource Demo.agent
             (SetupMain.dataSourceCommand "KB0001" "kb-documents") = Fulfilled ds
           ∧ "DS0001" = SetupMain.dataSourceId ds)
  ∧ completion (Setup.uploadDocuments Sample.fresh "/srv/app/documents" Sample.relative 2
                  "kb-documents") = Normal tt.
Proof.
  apply (main_starts_ingestion_last Sample.fresh Demo.agent Demo.config
           "/srv/app/documents" Sample.relative 2 "KB0001" "DS0001"
           "Initial ingestion of documents from S3").
  vm_compute. repeat constructor.
Defined.

Lemma main_ends_with_one_closing_message_fresh :
  let run := SetupMain.main Sample.fresh Demo.agent Demo.config "/srv/app/documents"
               Sample.relative 2 in
  outcome run = Normal 0%Z
  ∧ outros (shown run) = ["Setup completed successfully! ✨"].
Proof.
  intros run.
  destruct (main_ends_with_one_closing_message Sample.fresh Demo.agent Demo.config
              "/srv/app/documents" Sample.relative 2) as [Hdone | [Hfailed _]].
  - vm_compute. discriminate.
  - exact Hdone.
  - vm_compute in Hfailed. discriminate Hfailed.
Defined.

Lemma main_stops_at_existing_vector_bucket_rerun :
  let run := SetupMain.main Sample.rerun Demo.agent Demo.config "/srv/app/documents"
               Sample.relative 2 in
  outcome run = Normal 1%Z
  ∧ agentSent (shown run) = []
  ∧ coreSent (shown run)
    = [CreateBucketCommand "kb-documents"; CreateVectorBucketCommand "kb-vectors"].
Proof.
  intros run.
  destruct (main_stops_at_existing_vector_bucket Sample.rerun Demo.agent Demo.config
              "/srv/app/documents" Sample.relative 2
              (Sample.conflict "VectorBucketAlreadyExists")) as (Hexit & Hagent & Hcore).
  - reflexivity.
  - reflexivity.
  - split; [exact Hexit |]. split; [exact Hagent |]. unfold run. rewrite Hcore.
    reflexivity.
Defined.


Lemma truthy_or_else_empty (s : option string) : truthy (Some (or_else s "")) = truthy s.
Proof.
  unfold or_else. destruct (truthy s) eqn:Hs; [| done].
  destruct s as [s |]; [| done]. exact Hs.
Qed.

(** X19. With [BEDROCK_KB_ROLE_ARN] unset or empty the setup script ends with
    status 1 after the message [Setup aborted], and sends no command. *)
Theorem main_requires_role
    (aws : Setup.Services) (agent : SetupMain.Agent) (env : SetupMain.ProcessEnv)
    (now1 now2 now3 : Z) (DOCUMENTS_DIR : string)
    (path_relative : string → string → string) (fuel : nat) :
  truthy (SetupMain.BEDROCK_KB_ROLE_ARN env) = false →
  let run := SetupMain.main aws agent (SetupMain.configure env now1 now2 now3)
               DOCUMENTS_DIR path_relative fuel in
  outcome run = Normal 1%Z
  ∧ coreSent (shown run) = []
  ∧ agentSent (shown run) = []
  ∧ outros (shown run) = ["Setup aborted"].
Proof.
  intros Hrole run.
  destruct (main_without_role aws agent (SetupMain.configure env now1 now2 now3)
              DOCUMENTS_DIR path_relative fuel) as (Ha & Hc & Ho & Hm).
  { cbn [SetupMain.configure SetupMain.roleArn]. by rewrite truthy_or_else_empty. }
  done.
Qed.

Lemma main_requires_role_empty :
  let run := SetupMain.main Sample.fresh Demo.agent
               (SetupMain.configure (Demo.env (Some "")) 1700000000000 1700000000000
                  1700000000001)
               "/srv/app/documents" Sample.relative 2 in
  outcome run = Normal 1%Z
  ∧ coreSent (shown run) = []
  ∧ agentSent (shown run) = []
  ∧ outros (shown run) = ["Setup aborted"].
Proof.
  apply (main_requires_role Sample.fresh Demo.agent (Demo.env (Some ""))).
  reflexivity.
Defined.

(** ** The upload script as a whole *)

Section UploadMainTheorems.

Context (aws : Setup.Services) (agent : SetupMain.Agent) (CONFIG : UploadScript.Config)
        (DOCUMENTS_DIR : string) (path_relative : string → string → string).

Local Notation "'steps'" :=
  (UploadScript.steps aws agent CONFIG DOCUMENTS_DIR path_relative).
Local Notation "'main'" :=
  (UploadScript.main aws agent CONFIG DOCUMENTS_DIR path_relative).
Local Notation "'upload'" :=
  (Setup.uploadDocuments aws DOCUMENTS_DIR path_relative).
Local Notation "'configured'" :=
  (truthy (Some (UploadScript.s3BucketName CONFIG))
   && truthy (Some (UploadScript.knowledgeBaseId CONFIG))
   && truthy (Some (UploadScript.dataSourceId CONFIG))).
Local Notation "'command'" :=
  (UploadScript.ingestionCommand (UploadScript.knowledgeBaseId CONFIG)
     (UploadScript.dataSourceId CONFIG)).

Lemma upload_startIngestionJob_run (knowledgeBaseId dataSourceId : string) :
  let cmd := UploadScript.ingestionCommand knowledgeBaseId dataSourceId in
  agentSent (shown (UploadScript.startIngestionJob agent knowledgeBaseId dataSourceId))
  = [cmd]
  ∧ coreSent (shown (UploadScript.startIngestionJob agent knowledgeBaseId dataSourceId))
    = []
  ∧ outros (shown (UploadScript.startIngestionJob agent knowledgeBaseId dataSourceId))
    = []
  ∧ outcome (UploadScript.startIngestionJob agent knowledgeBaseId dataSourceId)
    = match SetupMain.StartIngestionJob agent cmd with
      | Fulfilled response => Normal tt
      | Rejected error => Thrown error
      end.
Proof.
  intros cmd. unfold UploadScript.startIngestionJob. fold cmd. run.
  destruct (SetupMain.StartIngestionJob agent cmd) as [response | error]; by run.
Qed.

Lemma upload_steps_run (fuel : nat) :
  agentSent (shown (steps fuel))
  = match completion (upload fuel (UploadScript.s3BucketName CONFIG)) with
    | Normal _ => [command]
    | _ => []
    end
  ∧ coreSent (shown (steps fuel))
    = sent (trace (upload fuel (UploadScript.s3BucketName CONFIG)))
  ∧ outcome (steps fuel)
    = match completion (upload fuel (UploadScript.s3BucketName CONFIG)) with
      | Normal _ =>
          match SetupMain.StartIngestionJob agent command with
          | Fulfilled _ => Normal 0%Z
          | Rejected error => Thrown error
          end
      | Thrown error => Thrown error
      | Unfinished => Unfinished
      end
  ∧ outros (shown (steps fuel))
    = match outcome (steps fuel) with
      | Normal _ => ["Upload and ingestion started successfully! âœ¨"]
      | _ => []
      end.
Proof.
  destruct (upload_startIngestionJob_run (UploadScript.knowledgeBaseId CONFIG)
              (UploadScript.dataSourceId CONFIG)) as (Ha & Hc & Hm & Ho).
  unfold UploadScript.steps. run.
  rewrite agentSent_app, coreSent_app, outros_app, agentSent_Core, coreSent_Core,
    outros_Core.
  cbn [app].
  destruct (completion (upload fuel _)) as [[] | e |]; run;
    [| by rewrite app_nil_r ..].
  rewrite agentSent_app, coreSent_app, outros_app, Ha, Hc, Hm, Ho.
  destruct (SetupMain.StartIngestionJob agent command) as [job | e]; run;
    by rewrite ?app_nil_r.
Qed.

Lemma upload_main_configured (fuel : nat) :
  configured = true →
  agentSent (shown (main fuel)) = agentSent (shown (steps fuel))
  ∧ coreSent (shown (main fuel)) = coreSent (shown (steps fuel))
  ∧ outcome (main fuel)
    = match outcome (steps fuel) with
      | Normal c => Normal c
      | Thrown _ => Normal 1%Z
      | Unfinished => Unfinished
      end
  ∧ outros (shown (main fuel))
    = outros (shown (steps fuel))
      ++ match outcome (steps fuel) with Thrown _ => ["Upload failed"] | _ => [] end.
Proof.
  intros Hconf. unfold UploadScript.main.
  apply andb_true_iff in Hconf as [Hconf ->].
  apply andb_true_iff in Hconf as [-> ->]. cbn [negb orb].
  destruct (steps fuel) as [t [c | e |]]; run;
    rewrite !agentSent_app, !coreSent_app, !outros_app; cbn;
    by rewrite ?app_nil_r.
Qed.

Lemma upload_main_unconfigured (fuel : nat) :
  configured = false →
  agentSent (shown (main fuel)) = []
  ∧ coreSent (shown (main fuel)) = []
  ∧ outcome (main fuel) = Normal 1%Z
  ∧ outros (shown (main fuel)) = ["Upload aborted"].
Proof.
  intros Hconf. unfold UploadScript.main.
  assert (negb (truthy (Some (UploadScript.s3BucketName CONFIG)))
          || negb (truthy (Some (UploadScript.knowledgeBaseId CONFIG)))
          || negb (truthy (Some (UploadScript.dataSourceId CONFIG))) = true) as ->.
  { revert Hconf.
    destruct (truthy (Some (UploadScript.s3BucketName CONFIG))),
      (truthy (Some (UploadScript.knowledgeBaseId CONFIG))),
      (truthy (Some (UploadScript.dataSourceId CONFIG))); done. }
  by run.
Qed.

(** X20. The upload script sends one agent command at most: the ingestion job for
    the configured knowledge base and data source, sent when the three names
    are configured and the upload returned. It ends with status 0 exactly
    when, moreover, the job was started. *)
Theorem upload_main_ingests_after_upload (fuel : nat) :
  agentSent (shown (main fuel))
  = match configured, completion (upload fuel (UploadScript.s3BucketName CONFIG)) with
    | true, Normal _ => [command]
    | _, _ => []
    end
  ∧ (outcome (main fuel) = Normal 0%Z
     ↔ configured = true
       ∧ completion (upload fuel (UploadScript.s3BucketName CONFIG)) = Normal tt
       ∧ ∃ job, SetupMain.StartIngestionJob agent command = Fulfilled job).
Proof.
  destruct (upload_steps_run fuel) as (Ha & _ & Ho & _).
  destruct configured eqn:Hconf.
  - destruct (upload_main_configured fuel Hconf) as (-> & _ & -> & _).
    rewrite Ha, Ho. split; [done |].
    destruct (completion (upload fuel _)) as [[] | e |].
    + destruct (SetupMain.StartIngestionJob agent command) as [job | e].
      * split; [intros _; repeat split; by exists job | done].
      * split; [discriminate | by intros (_ & _ & job & ?)].
    + split; [discriminate | by intros (_ & ? & _)].
    + split; [discriminate | by intros (_ & ? & _)].
  - destruct (upload_main_unconfigured fuel Hconf) as (-> & _ & -> & _).
    split; [done |]. split; [discriminate | by intros (? & _)].
Qed.

(** X21. When the bucket listing ends, the upload script does not throw: it ends
    with status 0 and the closing message of success, or with status 1 and
    the closing message [Upload aborted] (a name is missing) or
    [Upload failed]. *)
Theorem upload_main_ends_with_one_closing_message (fuel : nat) :
  completion (upload fuel (UploadScript.s3BucketName CONFIG)) ≠ Unfinished →
  (outcome (main fuel) = Normal 0%Z
   ∧ outros (shown (main fuel)) = ["Upload and ingestion started successfully! âœ¨"])
  ∨ (outcome (main fuel) = Normal 1%Z
     ∧ outros (shown (main fuel))
       = [if configured then "Upload failed" else "Upload aborted"]).
Proof.
  intros Hfuel.
  destruct (upload_steps_run fuel) as (_ & _ & Ho & Hm).
  destruct configured eqn:Hconf.
  2: { destruct (upload_main_unconfigured fuel Hconf) as (_ & _ & -> & ->). by right. }
  destruct (upload_main_configured fuel Hconf) as (_ & _ & -> & ->).
  rewrite Hm, Ho.
  destruct (completion (upload fuel _)) as [[] | e |]; [| by right | done].
  destruct (SetupMain.StartIngestionJob agent command) as [job | e]; [by left | by right].
Qed.

End UploadMainTheorems.

Lemma upload_main_ends_with_one_closing_message_fresh :
  let run := UploadScript.main Sample.fresh Demo.agent
               (UploadScript.configure (Demo.uploadEnv (Some "DS0001")))
               "/srv/app/documents" Sample.relative 2 in
  outcome run = Normal 0%Z
  ∧ outros (shown run) = ["Upload and ingestion started successfully! âœ¨"].
Proof.
  intros run.
  destruct (upload_main_ends_with_one_closing_message Sample.fresh Demo.agent
              (UploadScript.configure (Demo.uploadEnv (Some "DS0001")))
              "/srv/app/documents" Sample.relative 2) as [Hdone | [Hfailed _]].
  - vm_compute. discriminate.
  - exact Hdone.
  - vm_compute in Hfailed. discriminate Hfailed.
Defined.

(** X22. With one of [S3_BUCKET_NAME], [KB_ID] and [DATA_SOURCE_ID] unset or empty
    the upload script ends with status 1 after the message [Upload aborted],
    and sends no command. *)
Theorem upload_main_requires_configuration
    (aws : Setup.Services) (agent : SetupMain.Agent) (env : UploadScript.ProcessEnv)
    (DOCUMENTS_DIR : string) (path_relative : string → string → string) (fuel : nat) :
  truthy (UploadScript.S3_BUCKET_NAME env) = false
  ∨ truthy (UploadScript.KB_ID env) = false
  ∨ truthy (UploadScript.DATA_SOURCE_ID env) = false →
  let run := UploadScript.main aws agent (UploadScript.configure env)
               DOCUMENTS_DIR path_relative fuel in
  outcome run = Normal 1%Z
  ∧ coreSent (shown run) = []
  ∧ agentSent (shown run) = []
  ∧ outros (shown run) = ["Upload aborted"].
Proof.
  intros Hmissing run.
  destruct (upload_main_unconfigured aws agent (UploadScript.configure env)
              DOCUMENTS_DIR path_relative fuel) as (Ha & Hc & Ho & Hm); [| done].
  cbn [UploadScript.configure UploadScript.s3BucketName UploadScript.knowledgeBaseId
         UploadScript.dataSourceId].
  rewrite !truthy_or_else_empty.
  destruct Hmissing as [-> | [-> | ->]]; by rewrite ?andb_false_r.
Qed.

Lemma upload_main_requires_configuration_no_data_source :
  let run := UploadScript.main Sample.fresh Demo.agent
               (UploadScript.configure (Demo.uploadEnv None))
               "/srv/app/documents" Sample.relative 2 in
  outcome run = Normal 1%Z
  ∧ coreSent (shown run) = []
  ∧ agentSent (shown run) = []
  ∧ outros (shown run) = ["Upload aborted"].
Proof.
  apply (upload_main_requires_configuration Sample.fresh Demo.agent (Demo.uploadEnv None)).
  right. right. reflexivity.
Defined.

(** ** The walk over the documents directory *)

Section WalkTheorems.

Context (path_join : string → string → string).

Local Notation "'walk'" := (FileSystem.walk path_join).
Local Notation "'filesBelow'" := (FileSystem.filesBelow path_join).

(** The walk pushes the files below the directory after those it was given,
    unless a directory on the way cannot be listed. *)
Lemma walk_spec (readdir : FileSystem.Readdir) :
  ∀ (dir : string) (files : list string),
    walk dir readdir files
    = match FileSystem.firstFailure readdir with
      | Some e => Rejected e
      | None => Fulfilled (files ++ filesBelow dir readdir)
      end.
Proof.
  revert readdir. fix IH 1. intros [entries | e] dir files; [| reflexivity].
  cbn [FileSystem.walk FileSystem.firstFailure FileSystem.filesBelow].
  revert files. induction entries as [| entry entries IHentries]; intros files.
  - by rewrite app_nil_r.
  - destruct entry as [name | name sub | name].
    + rewrite IHentries.
      destruct ((fix each (entries : list FileSystem.Dirent) : option Error := _) entries);
        [done |].
      by rewrite <- app_assoc.
    + rewrite (IH sub).
      destruct (FileSystem.firstFailure sub) as [e |]; [done |].
      rewrite IHentries.
      destruct ((fix each (entries : list FileSystem.Dirent) : option Error := _) entries);
        [done |].
      by rewrite <- app_assoc.
    + rewrite IHentries.
      destruct ((fix each (entries : list FileSystem.Dirent) : option Error := _) entries);
        [done |].
      done.
Qed.

(** X23. [getLocalDocumentFiles] gives the regular files below the documents
    directory, depth first in the order of the directory listings, each
    under the path joined on the way down; entries that are neither file nor
    directory are left out. When a directory cannot be listed, it rejects
    with the error of the first such directory instead. *)
Theorem getLocalDocumentFiles_walks_depth_first
    (DOCUMENTS_DIR : string) (documents : FileSystem.Readdir) :
  FileSystem.getLocalDocumentFiles path_join DOCUMENTS_DIR documents
  = match FileSystem.firstFailure documents with
    | Some error => Rejected error
    | None => Fulfilled (filesBelow DOCUMENTS_DIR documents)
    end.
Proof. unfold FileSystem.getLocalDocumentFiles. by rewrite walk_spec. Qed.

(** X24. When a directory below the documents directory cannot be listed, or the
    tree holds no regular file, [uploadDocuments] sends no command: it throws
    the error of the walk in the first case and returns in the second. *)
Theorem uploadDocuments_sends_nothing_without_files
    (aws : Setup.Services) (DOCUMENTS_DIR : string)
    (path_relative : string → string → string) (documents : FileSystem.Readdir)
    (fuel : nat) (bucketName : string) :
  Setup.localDocumentFiles aws
    = FileSystem.getLocalDocumentFiles path_join DOCUMENTS_DIR documents →
  Setup.mkdir aws DOCUMENTS_DIR = Fulfilled tt →
  FileSystem.firstFailure documents ≠ None ∨ filesBelow DOCUMENTS_DIR documents = [] →
  sent (trace (Setup.uploadDocuments aws DOCUMENTS_DIR path_relative fuel bucketName)) = []
  ∧ completion (Setup.uploadDocuments aws DOCUMENTS_DIR path_relative fuel bucketName)
    = match FileSystem.firstFailure documents with
      | Some error => Thrown error
      | None => Normal tt
      end.
Proof.
  intros Hdisk Hmkdir Hnone.
  unfold Setup.uploadDocuments, Setup.ensureDocumentsDir, Setup.getLocalDocumentFiles,
    call, await.
  rewrite Hmkdir, Hdisk. unfold FileSystem.getLocalDocumentFiles. rewrite walk_spec.
  cbn [settle]. rewrite Eff_bind_normal.
  destruct (FileSystem.firstFailure documents) as [error |]; [done |].
  destruct Hnone as [? | ->]; [done |].
  cbn [app settle]. rewrite Eff_bind_normal.
  rewrite (bool_decide_eq_true_2 (length (@nil string) = 0%nat)) by done.
  split; reflexivity.
Qed.

End WalkTheorems.

Lemma uploadDocuments_sends_nothing_without_files_locked :
  let run := Setup.uploadDocuments (Demo.disk Demo.locked) "/srv/app/documents"
               Sample.relative 2 "kb-documents" in
  sent (trace run) = []
  ∧ completion run = Thrown (mkError "EACCES" "permission denied, scandir").
Proof.
  apply (uploadDocuments_sends_nothing_without_files Demo.pathJoin
           (Demo.disk Demo.locked) "/srv/app/documents" Sample.relative Demo.locked 2
           "kb-documents").
  - reflexivity.
  - reflexivity.
  - left. discriminate.
Defined.

(** ** The requests of the chat route *)

(** X25. The requests of [findRelevantContent]: none when the index ARN is unset or
    empty; otherwise the embedding of the question by the configured model
    (Titan Text Embeddings v2 by default), followed, when an embedding came
    back, by one query of the index for the 5 nearest vectors with metadata
    and distance -- and nothing else. *)
Theorem findRelevantContent_requests
    (env : Chat.ProcessEnv) (aws : Chat.Services) (question : string) :
  sent (trace (Chat.findRelevantContent env aws question))
  = match Chat.S3_VECTORS_INDEX_ARN env with
    | Some indexArn =>
        if bool_decide (indexArn = "") then []
        else
          let modelId := or_else (Chat.EMBEDDING_MODEL env) "amazon.titan-embed-text-v2:0" in
          InvokeModelCommand modelId question
          :: match Chat.InvokeModel aws modelId question with
             | Fulfilled queryEmbedding => [QueryCommand indexArn queryEmbedding 5 true true]
             | Rejected _ => []
             end
    | None => []
    end.
Proof.
  unfold Chat.findRelevantContent, Chat.generateEmbedding, call, await.
  destruct (Chat.S3_VECTORS_INDEX_ARN env) as [indexArn |]; [| done].
  cbn [truthy]. case_bool_decide as Hempty; [done |]. cbn [negb default from_option id].
  destruct (Chat.InvokeModel aws _ question) as [queryEmbedding | e]; cbn [settle]; [| done].
  rewrite Eff_bind_normal. cbn beta.
  by destruct (Chat.QueryVectors aws indexArn queryEmbedding) as [response | e].
Qed.
